(** * EV charging analysis: loaders, aggregation and statistical tests

    Shallow embedding of [charging_patterns_analysis.py], [ev_analysis.py]
    and [temperature_analysis.py].

    - Numbers are pandas float64 cells.  They are modelled as exact rationals
      extended with the IEEE special values [+inf], [-inf] and [NaN]; rounding
      and the sign of zero are not modelled.  What is proved of the rows a
      filter keeps is therefore which comparisons they satisfy and in which
      order they come, not on which side of a fence a rounded value falls.
    - A data frame is a list of rows; each loader has its own row record,
      holding the CSV columns and the columns the loader adds.
    - [pd.read_csv], [print] and exceptions are threaded through a small
      state-and-error monad over a [World] (files on disk, standard output).
    - pandas/numpy functions the loaders rely on ([quantile], [cut], [qcut],
      [unique], [groupby]) are modelled from their documented behaviour;
      statistics backends (scipy, statsmodels) and the timestamp parser are
      parameters. *)

From Stdlib Require Import ZArith QArith Qreduction Qround List String Ascii Bool Arith Lia Lqa Permutation Sorted.
Import ListNotations.

Set Implicit Arguments.

Open Scope string_scope.
Open Scope list_scope.

(* ================================================================== *)
(** ** float64 cells *)

Module Float.

Inductive float : Type :=
| Fin (q : Q)
| PInf
| NInf
| NaN.

Definition of_Z (z : Z) : float := Fin (inject_Z z).
Definition of_nat (n : nat) : float := of_Z (Z.of_nat n).

Definition isna (x : float) : bool :=
  match x with NaN => true | _ => false end.

Definition is_finite (x : float) : bool :=
  match x with Fin _ => true | _ => false end.

Definition fneg (x : float) : float :=
  match x with
  | Fin q => Fin (Qred (- q))
  | PInf => NInf
  | NInf => PInf
  | NaN => NaN
  end.

Definition fadd (x y : float) : float :=
  match x, y with
  | NaN, _ | _, NaN => NaN
  | Fin a, Fin b => Fin (Qred (a + b))
  | PInf, NInf | NInf, PInf => NaN
  | PInf, _ | _, PInf => PInf
  | NInf, _ | _, NInf => NInf
  end.

Definition fsub (x y : float) : float := fadd x (fneg y).

(** Sign of a rational, as the comparison of [0] with it: [Lt] when the
    number is positive, [Gt] when it is negative, [Eq] when it is zero. *)
Definition sgn (q : Q) : comparison := (0 ?= q)%Q.

Definition fmul (x y : float) : float :=
  match x, y with
  | NaN, _ | _, NaN => NaN
  | Fin a, Fin b => Fin (Qred (a * b))
  | Fin a, PInf | PInf, Fin a =>
      match sgn a with Lt => PInf | Gt => NInf | Eq => NaN end
  | Fin a, NInf | NInf, Fin a =>
      match sgn a with Lt => NInf | Gt => PInf | Eq => NaN end
  | PInf, PInf | NInf, NInf => PInf
  | PInf, NInf | NInf, PInf => NInf
  end.

(** Division never raises on a float64 column: [x/0] is an infinity of the
    sign of [x], and [0/0] is [NaN]. *)
Definition fdiv (x y : float) : float :=
  match x, y with
  | NaN, _ | _, NaN => NaN
  | Fin a, Fin b =>
      match sgn b with
      | Eq => match sgn a with Lt => PInf | Gt => NInf | Eq => NaN end
      | _ => Fin (Qred (a / b))
      end
  | Fin _, (PInf | NInf) => Fin 0
  | PInf, Fin b => match sgn b with Gt => NInf | _ => PInf end
  | NInf, Fin b => match sgn b with Gt => PInf | _ => NInf end
  | (PInf | NInf), (PInf | NInf) => NaN
  end.

(** Comparisons: every comparison with [NaN] is false. *)
Definition fle (x y : float) : bool :=
  match x, y with
  | NaN, _ | _, NaN => false
  | NInf, _ => true
  | _, PInf => true
  | Fin a, Fin b => Qle_bool a b
  | _, _ => false
  end.

Definition fge (x y : float) : bool := fle y x.

Definition flt (x y : float) : bool :=
  match x, y with
  | NaN, _ | _, NaN => false
  | _, _ => negb (fle y x)
  end.

Definition fgt (x y : float) : bool := flt y x.

Definition feq (x y : float) : bool := fle x y && fle y x.

End Float.
Import Float.

Declare Scope float_scope.
Delimit Scope float_scope with float.
Bind Scope float_scope with float.
Infix "+" := fadd : float_scope.
Infix "-" := fsub : float_scope.
Infix "*" := fmul : float_scope.
Infix "/" := fdiv : float_scope.
Infix "<=?" := fle : float_scope.
Infix ">=?" := fge : float_scope.
Infix "<?" := flt : float_scope.
Infix ">?" := fgt : float_scope.

(* ================================================================== *)
(** ** pandas / numpy operations used by the modules *)

Module Pandas.

Section Sorting.
Variable A : Type.
Variable leb : A -> A -> bool.

Fixpoint insert_sorted (x : A) (l : list A) : list A :=
  match l with
  | [] => [x]
  | y :: l' => if leb x y then x :: l else y :: insert_sorted x l'
  end.

Fixpoint sort (l : list A) : list A :=
  match l with
  | [] => []
  | x :: l' => insert_sorted x (sort l')
  end.
End Sorting.

(** [Series.dropna] on a float column. *)
Definition dropna_values (xs : list float) : list float :=
  filter (fun x => negb (isna x)) xs.

(** numpy's linear interpolation between two neighbouring order statistics. *)
Definition lerp (a b : float) (t : Q) : float :=
  let diff_b_a := (b - a)%float in
  if Qle_bool (1 # 2) t
  then (b - diff_b_a * Fin (Qred (1 - t)))%float
  else (a + diff_b_a * Fin t)%float.

(** [Series.quantile(q)] with the default [interpolation='linear']: missing
    values are skipped, the virtual index is [(n-1)*q], and the result is
    interpolated between the order statistics around it.  An empty column
    gives [NaN]. *)
Definition quantile (xs : list float) (q : Q) : float :=
  let vs := sort fle (dropna_values xs) in
  match vs with
  | [] => NaN
  | _ =>
      let n := List.length vs in
      let virtual_index := Qred (inject_Z (Z.of_nat (n - 1)) * q) in
      let previous := Z.to_nat (Qfloor virtual_index) in
      let next := Nat.min (S previous) (n - 1) in
      let gamma := Qred (virtual_index - inject_Z (Z.of_nat previous)) in
      lerp (nth previous vs NaN) (nth next vs NaN) gamma
  end.

(** [bins.searchsorted(x, side='left')] on increasing bin edges: the number
    of edges strictly below [x]. *)
Definition searchsorted_left (bins : list float) (x : float) : nat :=
  List.length (filter (fun b => (b <? x)%float) bins).

(** [pd.cut(x, bins, labels)] / the binning step of [pd.qcut], with
    right-closed intervals [(b_{i-1}, b_i]] ([right=True], the default).
    A value outside every interval, or a missing value, gets no label. *)
Definition cut_value (bins : list float) (labels : list string)
           (include_lowest : bool) (x : float) : option string :=
  if isna x then None else
  let ids :=
    if include_lowest && feq x (hd NaN bins) then 1%nat
    else searchsorted_left bins x in
  if (ids =? 0)%nat || (ids =? List.length bins)%nat then None
  else nth_error labels (ids - 1).

Definition cut (xs : list float) (bins : list float) (labels : list string)
  : list (option string) :=
  map (cut_value bins labels false) xs.

Fixpoint strictly_increasing (bins : list float) : bool :=
  match bins with
  | a :: ((b :: _) as rest) => (a <? b)%float && strictly_increasing rest
  | _ => true
  end.

(** [pd.qcut(x, q=4, labels)]: bin edges are the quantiles 0, 1/4, 1/2, 3/4
    and 1 of the column; duplicate edges raise [ValueError] (reported as
    [None] here). *)
Definition qcut4 (xs : list float) (labels : list string)
  : option (list (option string)) :=
  let bins := map (quantile xs) [0; 1 # 4; 1 # 2; 3 # 4; 1]%Q in
  if strictly_increasing bins
  then Some (map (cut_value bins labels true) xs)
  else None.

Section Unique.
Variable A : Type.
Variable eqb : A -> A -> bool.

(** [Series.unique()]: distinct values in order of first appearance. *)
Fixpoint unique (l : list A) : list A :=
  match l with
  | [] => []
  | x :: l' => x :: filter (fun y => negb (eqb x y)) (unique l')
  end.
End Unique.

End Pandas.
Import Pandas.

(* ================================================================== *)
(** ** The session table and the process environment *)

Module Schema.

(** A parsed timestamp; [datetime] cells may be [NaT] ([None]). *)
Record Timestamp : Type := mkTimestamp {
  year : Z; month : Z; day : Z; hour : Z; minute : Z; second : Z
}.

Definition datetime : Type := option Timestamp.

(** Days since 1970-01-01 in the proleptic Gregorian calendar. *)
Definition days_from_civil (y m d : Z) : Z :=
  let y' := if (m <=? 2)%Z then (y - 1)%Z else y in
  let era := (y' / 400)%Z in
  let yoe := (y' - era * 400)%Z in
  let mp := if (m >? 2)%Z then (m - 3)%Z else (m + 9)%Z in
  let doy := ((153 * mp + 2) / 5 + d - 1)%Z in
  let doe := (yoe * 365 + yoe / 4 - yoe / 100 + doy)%Z in
  (era * 146097 + doe - 719468)%Z.

(** [Timestamp.day_name()]. *)
Definition day_name (t : Timestamp) : string :=
  match ((days_from_civil (year t) (month t) (day t) + 3) mod 7)%Z with
  | 0%Z => "Monday"
  | 1%Z => "Tuesday"
  | 2%Z => "Wednesday"
  | 3%Z => "Thursday"
  | 4%Z => "Friday"
  | 5%Z => "Saturday"
  | _ => "Sunday"
  end.

(** [Series.dt.hour]: the hour, or [NaN] for [NaT]. *)
Definition dt_hour (t : datetime) : float :=
  match t with Some ts => of_Z (hour ts) | None => NaN end.

(** [Series.dt.day_name()]: the name, or missing for [NaT]. *)
Definition dt_day_name (t : datetime) : option string :=
  option_map day_name t.

(** One row of [ev_charging_patterns.csv], restricted to the columns the
    three modules read.  [T] is the type of the two time cells: text as read
    from the file, [datetime] once converted.  Numeric cells are floats
    ([NaN] when empty); text cells are [None] when empty. *)
Record Session (T : Type) : Type := mkSession {
  Charging_Start_Time : T;
  Charging_End_Time : T;
  State_of_Charge_Start : float;
  State_of_Charge_End : float;
  Energy_Consumed : float;
  Charging_Duration : float;
  Distance_Driven : float;
  Charging_Cost : float;
  Battery_Capacity : float;
  Vehicle_Age : float;
  Temperature : float;
  Vehicle_Model : option string;
  User_Type : option string
}.

Definition RawRow : Type := Session (option string).

Definition set_times (T U : Type) (r : Session T) (s e : U) : Session U :=
  {| Charging_Start_Time := s;
     Charging_End_Time := e;
     State_of_Charge_Start := State_of_Charge_Start r;
     State_of_Charge_End := State_of_Charge_End r;
     Energy_Consumed := Energy_Consumed r;
     Charging_Duration := Charging_Duration r;
     Distance_Driven := Distance_Driven r;
     Charging_Cost := Charging_Cost r;
     Battery_Capacity := Battery_Capacity r;
     Vehicle_Age := Vehicle_Age r;
     Temperature := Temperature r;
     Vehicle_Model := Vehicle_Model r;
     User_Type := User_Type r |}.

(** The columns of a row other than the two time cells. *)
Definition erase_times (T : Type) (r : Session T) : Session unit :=
  set_times r tt tt.

End Schema.
Import Schema.

Module Runtime.

Inductive exn : Type :=
| FileNotFoundError (path : string)
| DateParseError (text : string)
| IndexError
| ValueError (msg : string)
| LibraryError (msg : string).

(** A printed line: the literal pieces of the f-string and the values
    interpolated into it. *)
Inductive Frag : Type :=
| Lit (s : string)
| Int (n : nat)
| Fixed3 (x : float).

Definition Line : Type := list Frag.

Record World : Type := mkWorld {
  files : list (string * list RawRow);
  stdout : list Line
}.

(** Computations over a state [S] that may raise. *)
Definition M (S A : Type) : Type := S -> S * (exn + A).

Definition ret (S A : Type) (a : A) : M S A := fun w => (w, inr a).

Definition bind (S A B : Type) (m : M S A) (k : A -> M S B) : M S B :=
  fun w =>
    match m w with
    | (w', inl e) => (w', inl e)
    | (w', inr a) => k a w'
    end.

Definition raise (S A : Type) (e : exn) : M S A := fun w => (w, inl e).

Definition lift (S A : Type) (r : exn + A) : M S A := fun w => (w, r).

(** States that own a standard output. *)
Class Console (S : Type) : Type := write : Line -> S -> S.

#[export] Instance World_Console : Console World :=
  fun l w => {| files := files w; stdout := stdout w ++ [l] |}.

Definition print (S : Type) `{Console S} (l : Line) : M S unit :=
  fun w => (write l w, inr tt).

Fixpoint lookup_file (path : string) (fs : list (string * list RawRow))
  : option (list RawRow) :=
  match fs with
  | [] => None
  | (p, rows) :: fs' => if String.eqb p path then Some rows else lookup_file path fs'
  end.

(** [pd.read_csv(path)]: the rows of the file, or [FileNotFoundError]. *)
Definition read_csv (path : string) : M World (list RawRow) :=
  fun w =>
    match lookup_file path (files w) with
    | Some rows => (w, inr rows)
    | None => (w, inl (FileNotFoundError path))
    end.

Section ToDatetime.
(** The timestamp parser behind [pd.to_datetime]. *)
Variable parse_datetime : string -> option Timestamp.

(** [pd.to_datetime(column)]: empty cells become [NaT]; a cell that does
    not parse raises. *)
Fixpoint to_datetime (col : list (option string)) : exn + list datetime :=
  match col with
  | [] => inr []
  | None :: col' =>
      match to_datetime col' with
      | inr ts => inr (None :: ts)
      | inl e => inl e
      end
  | Some s :: col' =>
      match parse_datetime s with
      | None => inl (DateParseError s)
      | Some t =>
          match to_datetime col' with
          | inr ts => inr (Some t :: ts)
          | inl e => inl e
          end
      end
  end.
End ToDatetime.

End Runtime.
Import Runtime.

Notation "x <- c1 ;; c2" := (bind c1 (fun x => c2))
  (at level 61, c1 at next level, right associativity).
Notation "c1 ;; c2" := (bind c1 (fun _ => c2))
  (at level 61, right associativity).

Definition csv_path : string := "ev_charging_patterns.csv".

(** The newline that starts several of the printed captions. *)
Definition nl : string := String (ascii_of_nat 10) EmptyString.

(** A column assigned onto the rows of a frame: row [i] gets cell [i]. *)
Definition assign (A B C : Type) (f : A -> B -> C) (df : list A) (col : list B)
  : list C :=
  map (fun p => f (fst p) (snd p)) (combine df col).

(* ================================================================== *)
(** ** Frames passed by reference to the analysis functions *)

Module Store.

(** A column assigned onto a frame after the loader returned. *)
Inductive Column : Type :=
| FloatCol (c : list float)
| LabelCol (c : list (option string)).

(** A [DataFrame] object: the rows the loader produced and the columns
    assigned onto the object since, in assignment order. *)
Record Frame (R : Type) : Type := mkFrame {
  rows : list R;
  added : list (string * Column)
}.

(** The interpreter state an analysis function runs in: standard output and
    the frame objects, addressed by position. *)
Record Proc (R : Type) : Type := mkProc {
  console : list Line;
  heap : list (Frame R)
}.

Definition ref : Type := nat.

#[export] Instance Proc_Console (R : Type) : Console (Proc R) :=
  fun l p => {| console := console p ++ [l]; heap := heap p |}.

Fixpoint update_nth (A : Type) (i : nat) (x : A) (l : list A) : list A :=
  match l, i with
  | [], _ => []
  | _ :: l', O => x :: l'
  | y :: l', S i' => y :: update_nth i' x l'
  end.

Fixpoint set_column (name : string) (col : Column) (cols : list (string * Column))
  : list (string * Column) :=
  match cols with
  | [] => [(name, col)]
  | (n, c) :: cols' =>
      if String.eqb n name then (name, col) :: cols'
      else (n, c) :: set_column name col cols'
  end.

Section Ops.
Variable R : Type.

(** Reading through a reference. *)
Definition get (df : ref) : M (Proc R) (Frame R) :=
  fun p =>
    match nth_error (heap p) df with
    | Some f => (p, inr f)
    | None => (p, inl (LibraryError "dangling reference"))
    end.

(** [df.copy()]: a new object with the same contents. *)
Definition copy (df : ref) : M (Proc R) ref :=
  f <- get df ;;
  fun p => ({| console := console p; heap := heap p ++ [f] |},
            inr (List.length (heap p))).

(** [df[name] = col]: assignment onto the object [df] refers to. *)
Definition setitem (df : ref) (name : string) (col : Column) : M (Proc R) unit :=
  f <- get df ;;
  fun p =>
    ({| console := console p;
        heap := update_nth df
                  {| rows := rows f; added := set_column name col (added f) |}
                  (heap p) |},
     inr tt).
End Ops.

Section GroupBy.
Variables R K : Type.
Variable eqb leb : K -> K -> bool.
Variable key : R -> option K.

Definition present_keys (df : list R) : list K :=
  flat_map (fun r => match key r with Some k => [k] | None => [] end) df.

Definition group (df : list R) (k : K) : list R :=
  filter (fun r => match key r with Some k' => eqb k k' | None => false end) df.

(** [df.groupby(keys, observed=True)]: one group per key value that
    occurs, in key order; rows with a missing key belong to no group. *)
Definition groupby (df : list R) : list (K * list R) :=
  map (fun k => (k, group df k)) (sort leb (unique eqb (present_keys df))).
End GroupBy.

(** The ['count'] aggregation: the number of non-missing cells. *)
Definition count (col : list float) : nat := List.length (dropna_values col).

Definition option_eqb (A : Type) (eqb : A -> A -> bool) (x y : option A) : bool :=
  match x, y with
  | Some a, Some b => eqb a b
  | None, None => true
  | _, _ => false
  end.

Definition pair_eqb (A B : Type) (ea : A -> A -> bool) (eb : B -> B -> bool)
           (x y : A * B) : bool :=
  ea (fst x) (fst y) && eb (snd x) (snd y).

(** Lexicographic order on two-level group keys. *)
Definition pair_leb (A B : Type) (ea : A -> A -> bool) (la : A -> A -> bool)
           (lb : B -> B -> bool) (x y : A * B) : bool :=
  if ea (fst x) (fst y) then lb (snd x) (snd y) else la (fst x) (fst y).

Definition both (A B : Type) (x : option A) (y : option B) : option (A * B) :=
  match x, y with
  | Some a, Some b => Some (a, b)
  | _, _ => None
  end.

(** Position of a label among the categories of a categorical column. *)
Fixpoint category_index (cats : list string) (l : string) : nat :=
  match cats with
  | [] => O
  | c :: cats' => if String.eqb c l then O else S (category_index cats' l)
  end.

Definition category_leb (cats : list string) (a b : string) : bool :=
  (category_index cats a <=? category_index cats b)%nat.

End Store.
Import Store.

(* ================================================================== *)
(** ** charging_patterns_analysis.py *)

Module ChargingPatterns.

(** The frame once ['Percentage Charged'] has been assigned. *)
Record Charged : Type := mkCharged {
  session :> Session datetime;
  Percentage_Charged : float
}.

(** The frame [load_and_prepare_data] returns. *)
Record Row : Type := mkRow {
  charged :> Charged;
  Hour : float;
  Day_of_Week : option string;
  Time_of_Day : option string
}.

Definition time_of_day_bins : list float := [NInf; of_Z 6; of_Z 12; of_Z 18; PInf].
Definition time_of_day_labels : list string :=
  ["Night"; "Morning"; "Afternoon"; "Evening"].

Section Loader.
Variable parse_datetime : string -> option Timestamp.

Definition load_and_prepare_data : M World (list Row) :=
  df <- read_csv csv_path ;;
  start_time <- lift (to_datetime parse_datetime (map (@Charging_Start_Time _) df)) ;;
  end_time <- lift (to_datetime parse_datetime (map (@Charging_End_Time _) df)) ;;
  let df := assign (fun r t => set_times r (fst t) (snd t)) df
                   (combine start_time end_time) in
  (* Calculate Percentage Charged *)
  let df := map (fun r => mkCharged r
                   (State_of_Charge_End r - State_of_Charge_Start r)%float) df in
  (* Remove invalid percentage charged values (below 0 or above 100) *)
  let df := filter (fun r => (Percentage_Charged r >=? of_Z 0)%float
                             && (Percentage_Charged r <=? of_Z 100)%float) df in
  (* Print outlier removal statistics *)
  print [Lit (String.append nl "Outlier Removal Statistics:")] ;;
  print [Lit "Removed ";
         Int (List.length (filter (fun r => (Percentage_Charged r <? of_Z 0)%float) df));
         Lit " negative percentage values"] ;;
  print [Lit "Removed ";
         Int (List.length (filter (fun r => (Percentage_Charged r >? of_Z 100)%float) df));
         Lit " percentage values above 100"] ;;
  (* Extract time-related features, create Time of Day categories *)
  let df := map (fun r : Charged =>
              let h := dt_hour (Charging_Start_Time r) in
              mkRow r h (dt_day_name (Charging_Start_Time r))
                    (cut_value time_of_day_bins time_of_day_labels false h)) df in
  ret df.
End Loader.

(** *** Aggregation *)

Record UserPattern : Type := mkUserPattern {
  pct_mean : float; pct_median : float; pct_std : float;
  duration_mean : float; energy_mean : float
}.

Record GroupPattern : Type := mkGroupPattern {
  g_mean : float; g_median : float; g_count : nat
}.

Record Patterns : Type := mkPatterns {
  user_patterns : list (string * UserPattern);
  day_patterns : list ((string * string) * GroupPattern);
  time_patterns : list ((string * string) * GroupPattern)
}.

Definition by_user (r : Row) : option string := User_Type r.
Definition by_user_day (r : Row) : option (string * string) :=
  both (User_Type r) (Day_of_Week r).
Definition by_user_time (r : Row) : option (string * string) :=
  both (User_Type r) (Time_of_Day r).

Definition key2_eqb : string * string -> string * string -> bool :=
  pair_eqb String.eqb String.eqb.
Definition user_day_leb : string * string -> string * string -> bool :=
  pair_leb String.eqb String.leb String.leb.
Definition user_time_leb : string * string -> string * string -> bool :=
  pair_leb String.eqb String.leb (category_leb time_of_day_labels).

Section Analysis.
(** Aggregations and rounding of the numeric backend. *)
Variables mean median std : list float -> float.
Variable round : nat -> float -> float.

Definition group_pattern (g : list Row) : GroupPattern :=
  let col := map (fun r : Row => Percentage_Charged r) g in
  mkGroupPattern (round 2 (mean col)) (round 2 (median col)) (count col).

Definition analyze_charging_behavior (df : ref) : M (Proc Row) Patterns :=
  f <- get df ;;
  let df := rows f in
  (* Basic patterns by user type *)
  let user_patterns :=
    map (fun kg : string * list Row =>
           let g := snd kg in
           let pc := map (fun r : Row => Percentage_Charged r) g in
           (fst kg,
            mkUserPattern (round 2 (mean pc)) (round 2 (median pc)) (round 2 (std pc))
              (round 2 (mean (map (fun r : Row => Charging_Duration r) g)))
              (round 2 (mean (map (fun r : Row => Energy_Consumed r) g)))))
        (groupby String.eqb String.leb by_user df) in
  (* Patterns by day of week *)
  let day_patterns :=
    map (fun kg => (fst kg, group_pattern (snd kg)))
        (groupby key2_eqb user_day_leb by_user_day df) in
  (* Patterns by time of day *)
  let time_patterns :=
    map (fun kg => (fst kg, group_pattern (snd kg)))
        (groupby key2_eqb user_time_leb by_user_time df) in
  ret (mkPatterns user_patterns day_patterns time_patterns).

(** *** Statistical tests *)

(** The statsmodels / scipy entry points, each free to raise. *)
Variable AnovaTable : Type.
Variable anova_lm_ols : string -> Frame Row -> exn + AnovaTable.
Variable chi2_contingency : list (list nat) -> exn + (float * float).
Variable ttest_ind : list float -> list float -> exn + (float * float).

Record Tests : Type := mkTests {
  day_anova : AnovaTable;
  time_anova : AnovaTable;
  chi_square : float * float;
  t_test : float * float
}.

(** [pd.crosstab(df['User Type'], df['Time of Day'])]: counts of rows per
    user type (rows, in key order) and time of day (columns, in category
    order), over the values that occur. *)
Definition crosstab (df : list Row) : list (list nat) :=
  let both_present := filter (fun r => match by_user_time r with
                                       | Some _ => true | None => false end) df in
  let users := sort String.leb (unique String.eqb (present_keys by_user both_present)) in
  let times := sort (category_leb time_of_day_labels)
                 (unique String.eqb
                    (present_keys (fun r : Row => Time_of_Day r) both_present)) in
  map (fun u => map (fun t => List.length (group key2_eqb by_user_time df (u, t))) times)
      users.

(** [seq[i]] on an array: [IndexError] when out of range. *)
Definition item (A : Type) (l : list A) (i : nat) : exn + A :=
  match nth_error l i with
  | Some x => inr x
  | None => inl IndexError
  end.

Definition perform_statistical_tests (df : ref) : M (Proc Row) Tests :=
  (* Create a copy to avoid modifying the original *)
  df <- copy df ;;
  f <- get df ;;
  setitem df "percentage_charged"
     (FloatCol (map (fun r : Row => Percentage_Charged r) (rows f))) ;;
  setitem df "day_of_week" (LabelCol (map Day_of_Week (rows f))) ;;
  setitem df "time_of_day" (LabelCol (map Time_of_Day (rows f))) ;;
  setitem df "user_type" (LabelCol (map (fun r : Row => User_Type r) (rows f))) ;;
  f <- get df ;;
  (* Two-way ANOVA for User Type and Day of Week *)
  day_anova <- lift (anova_lm_ols
    "percentage_charged ~ C(user_type) + C(day_of_week) + C(user_type):C(day_of_week)" f) ;;
  (* Two-way ANOVA for User Type and Time of Day *)
  time_anova <- lift (anova_lm_ols
    "percentage_charged ~ C(user_type) + C(time_of_day) + C(user_type):C(time_of_day)" f) ;;
  (* Chi-square test for Time of Day preferences *)
  chi <- lift (chi2_contingency (crosstab (rows f))) ;;
  (* T-tests for Percentage Charged between user types *)
  let user_types := unique (option_eqb String.eqb)
                           (map (fun r : Row => User_Type r) (rows f)) in
  u0 <- lift (item user_types 0) ;;
  u1 <- lift (item user_types 1) ;;
  let sample u := map (fun r : Row => Percentage_Charged r)
                    (filter (fun r : Row =>
                               match User_Type r, u with
                               | Some a, Some b => String.eqb a b
                               | _, _ => false
                               end) (rows f)) in
  t <- lift (ttest_ind (sample u0) (sample u1)) ;;
  ret (mkTests day_anova time_anova chi t).
End Analysis.

End ChargingPatterns.

(** The IQR method shared by the loaders: quartiles of a column and the
    fences [Q1 - 1.5 * IQR] and [Q3 + 1.5 * IQR]. *)
Definition lower_bound (col : list float) : float :=
  let Q1 := quantile col (1 # 4) in
  let Q3 := quantile col (3 # 4) in
  let IQR := (Q3 - Q1)%float in
  (Q1 - Fin (3 # 2) * IQR)%float.

Definition upper_bound (col : list float) : float :=
  let Q1 := quantile col (1 # 4) in
  let Q3 := quantile col (3 # 4) in
  let IQR := (Q3 - Q1)%float in
  (Q3 + Fin (3 # 2) * IQR)%float.

(* ================================================================== *)
(** ** ev_analysis.py *)

Module EvAnalysis.

(** The frame once ['cost_efficiency'] has been assigned. *)
Record Row : Type := mkRow {
  session :> Session datetime;
  cost_efficiency : float
}.

Definition battery (r : Row) : float := Battery_Capacity r.

Section Loader.
Variable parse_datetime : string -> option Timestamp.

Definition load_and_prepare_data : M World (list Row) :=
  df <- read_csv csv_path ;;
  start_time <- lift (to_datetime parse_datetime (map (@Charging_Start_Time _) df)) ;;
  end_time <- lift (to_datetime parse_datetime (map (@Charging_End_Time _) df)) ;;
  let df := assign (fun r t => set_times r (fst t) (snd t)) df
                   (combine start_time end_time) in
  (* Calculate cost efficiency (USD per kWh) *)
  let df := map (fun r => mkRow r (Charging_Cost r / Energy_Consumed r)%float) df in
  (* Remove outliers for cost efficiency using IQR method *)
  let lower_bound_cost := lower_bound (map cost_efficiency df) in
  let upper_bound_cost := upper_bound (map cost_efficiency df) in
  (* Remove outliers for battery capacity using IQR method *)
  let lower_bound_battery := lower_bound (map battery df) in
  let upper_bound_battery := upper_bound (map battery df) in
  (* Filter out outliers for both variables *)
  let df := filter (fun r =>
              (cost_efficiency r >=? lower_bound_cost)%float
              && (cost_efficiency r <=? upper_bound_cost)%float
              && (battery r >=? lower_bound_battery)%float
              && (battery r <=? upper_bound_battery)%float) df in
  (* Print outlier removal statistics *)
  print [Lit (String.append nl "Outlier Removal Statistics:")] ;;
  print [Lit "Cost Efficiency - Removed ";
         Int (List.length (filter (fun r => (cost_efficiency r >? upper_bound_cost)%float) df));
         Lit " upper outliers"] ;;
  print [Lit "Cost Efficiency - Removed ";
         Int (List.length (filter (fun r => (cost_efficiency r <? lower_bound_cost)%float) df));
         Lit " lower outliers"] ;;
  print [Lit "Battery Capacity - Removed ";
         Int (List.length (filter (fun r => (battery r >? upper_bound_battery)%float) df));
         Lit " upper outliers"] ;;
  print [Lit "Battery Capacity - Removed ";
         Int (List.length (filter (fun r => (battery r <? lower_bound_battery)%float) df));
         Lit " lower outliers"] ;;
  (* Handle any missing values *)
  let df := filter (fun r : Row =>
              negb (isna (Vehicle_Age r) || isna (Battery_Capacity r)
                    || isna (Charging_Cost r) || isna (Energy_Consumed r)
                    || isna (cost_efficiency r))) df in
  ret df.
End Loader.

Definition capacity_labels : list string := ["Q1"; "Q2"; "Q3"; "Q4"].

Record GroupedStats : Type := mkGroupedStats {
  age_mean : float;
  eff_mean : float; eff_std : float; eff_count : nat;
  capacity_mean : float
}.

Definition by_model (r : Row) : option string := Vehicle_Model r.

Definition by_model_capacity (rg : Row * option string) : option (string * string) :=
  both (Vehicle_Model (fst rg)) (snd rg).

Section Analysis.
Variables mean std : list float -> float.
Variable round : nat -> float -> float.
(** [Series.corr]: Pearson correlation of two columns. *)
Variable corr : list float -> list float -> float.

Definition analyze_age_efficiency_relationship (df : ref)
  : M (Proc Row)
      (float * list (string * float) * list ((string * string) * GroupedStats)) :=
  f <- get df ;;
  (* 1. Basic correlation analysis *)
  let correlation := corr (map (fun r : Row => Vehicle_Age r) (rows f))
                          (map cost_efficiency (rows f)) in
  (* 2. Model-specific analysis: with no group, [apply] returns an empty
     frame with the columns of [df], and naming its two columns raises
     (the message goes on with the two lengths) *)
  model_correlations <-
    lift (match groupby String.eqb String.leb by_model (rows f) with
          | [] => inl (ValueError "Length mismatch")
          | groups =>
              inr (map (fun kg : string * list Row =>
                          (fst kg, corr (map (fun r : Row => Vehicle_Age r) (snd kg))
                                        (map cost_efficiency (snd kg))))
                       groups)
          end) ;;
  (* 3. Control for battery capacity *)
  battery_capacity_group <-
    lift (match qcut4 (map battery (rows f)) capacity_labels with
          | Some col => inr col
          | None => inl (ValueError "Bin edges must be unique")
          end) ;;
  setitem df "battery_capacity_group" (LabelCol battery_capacity_group) ;;
  f <- get df ;;
  (* Calculate statistics for each group *)
  let grouped_stats :=
    map (fun kg : (string * string) * list (Row * option string) =>
           let g := map fst (snd kg) in
           (fst kg,
            mkGroupedStats
              (round 3 (mean (map (fun r : Row => Vehicle_Age r) g)))
              (round 3 (mean (map cost_efficiency g)))
              (round 3 (std (map cost_efficiency g)))
              (count (map cost_efficiency g))
              (round 3 (mean (map battery g)))))
        (groupby (pair_eqb String.eqb String.eqb)
                 (pair_leb String.eqb String.leb (category_leb capacity_labels))
                 by_model_capacity
                 (combine (rows f) battery_capacity_group)) in
  ret (correlation, model_correlations, grouped_stats).

Variable Summary : Type.
Variable ols_summary : list (float * float) -> list float -> exn + Summary.
Variable f_oneway : list (list float) -> exn + (float * float).

Definition perform_statistical_tests (df : ref)
  : M (Proc Row) (Summary * float * float) :=
  f <- get df ;;
  (* 1. Linear regression *)
  let X := map (fun r : Row => (Vehicle_Age r, Battery_Capacity r)) (rows f) in
  let y := map cost_efficiency (rows f) in
  summary <- lift (ols_summary X y) ;;
  (* 2. ANOVA test for vehicle model differences *)
  let model_groups := map (fun kg : string * list Row => map cost_efficiency (snd kg))
                          (groupby String.eqb String.leb by_model (rows f)) in
  fp <- lift (f_oneway model_groups) ;;
  ret (summary, fst fp, snd fp).
End Analysis.

End EvAnalysis.

(* ================================================================== *)
(** ** temperature_analysis.py *)

Module TemperatureAnalysis.

(** The frame once the time, temperature and efficiency columns have been
    assigned; the CSV columns are kept as read. *)
Record Measured : Type := mkMeasured {
  session :> Session (option string);
  charging_start_time : datetime;
  charging_end_time : datetime;
  ambient_temp : float;
  energy_efficiency : float
}.

(** The frame [load_and_clean_temperature_data] returns. *)
Record Row : Type := mkRow {
  measured :> Measured;
  temp_range : option string
}.

Definition temp_bins : list float :=
  [NInf; of_Z 0; of_Z 10; of_Z 20; of_Z 30; of_Z 40].
Definition temp_labels : list string :=
  ["Below 0°C"; "0-10°C"; "10-20°C"; "20-30°C"; "30-40°C"].

Section Loader.
Variable parse_datetime : string -> option Timestamp.

Definition load_and_clean_temperature_data : M World (list Row) :=
  df <- read_csv csv_path ;;
  start_time <- lift (to_datetime parse_datetime (map (@Charging_Start_Time _) df)) ;;
  end_time <- lift (to_datetime parse_datetime (map (@Charging_End_Time _) df)) ;;
  (* Extract temperature and efficiency data *)
  let df := assign (fun (r : RawRow) t =>
                      mkMeasured r (fst t) (snd t) (Temperature r)
                                 (Energy_Consumed r / Distance_Driven r)%float)
                   df (combine start_time end_time) in
  (* Remove temperature outliers above 40°C *)
  print [Lit (String.append nl "Temperature Outlier Removal Statistics:")] ;;
  let original_count := List.length df in
  let df := filter (fun r => (ambient_temp r <=? of_Z 40)%float) df in
  let removed_temp := (original_count - List.length df)%nat in
  print [Lit "Removed "; Int removed_temp;
         Lit " records with temperature above 40°C"] ;;
  (* Remove energy efficiency outliers using IQR method *)
  let lower := lower_bound (map energy_efficiency df) in
  let upper := upper_bound (map energy_efficiency df) in
  let original_count := List.length df in
  let df := filter (fun r => (energy_efficiency r >=? lower)%float
                             && (energy_efficiency r <=? upper)%float) df in
  let removed_efficiency := (original_count - List.length df)%nat in
  print [Lit (String.append nl "Energy Efficiency Outlier Removal Statistics:")] ;;
  print [Lit "Removed "; Int removed_efficiency;
         Lit " records outside the range: "; Fixed3 lower; Lit " to ";
         Fixed3 upper; Lit " kWh/km"] ;;
  (* Create temperature buckets *)
  let df := map (fun r => mkRow r (cut_value temp_bins temp_labels false
                                             (ambient_temp r))) df in
  ret df.
End Loader.

Record Stats : Type := mkStats {
  Count : nat; Mean : float; Std_Dev : float; Min : float;
  Q1 : float; Median : float; Q3 : float; Max : float
}.

Record Impact : Type := mkImpact {
  correlation : float;
  temp_efficiency : list (string * float);
  temperature_ranges : float * float * float;
  f_statistic : float;
  p_value : float;
  descriptive_stats : Stats * Stats
}.

Section Analysis.
Variables mean std min max median : list float -> float.
Variable round : nat -> float -> float.
Variable corr : list float -> list float -> float.
Variable f_oneway : list (list float) -> exn + (float * float).

Definition get_stats (data : list float) : Stats :=
  mkStats (List.length data) (round 3 (mean data)) (round 3 (std data))
          (round 3 (min data)) (round 3 (quantile data (1 # 4)))
          (round 3 (median data)) (round 3 (quantile data (3 # 4)))
          (round 3 (max data)).

Definition analyze_temperature_impact (df : ref) : M (Proc Row) Impact :=
  f <- get df ;;
  let df := rows f in
  let temps := map (fun r : Row => ambient_temp r) df in
  let effs := map (fun r : Row => energy_efficiency r) df in
  (* Calculate correlations *)
  let correlation := corr temps effs in
  (* Calculate average efficiency by temperature range *)
  let by_range := groupby String.eqb (category_leb temp_labels) temp_range df in
  let temp_efficiency :=
    map (fun kg : string * list Row =>
           (fst kg, mean (map (fun r : Row => energy_efficiency r) (snd kg))))
        by_range in
  (* Calculate descriptive statistics using the helper function *)
  let temp_stats := get_stats temps in
  let efficiency_stats := get_stats effs in
  (* Calculate temperature ranges *)
  let temp_ranges := (min temps, max temps, mean temps) in
  (* Perform ANOVA test between temperature ranges *)
  let ranges := unique (option_eqb String.eqb) (map temp_range df) in
  fp <- (if (2 <=? List.length ranges)%nat
         then lift (f_oneway
                      (map (fun kg : string * list Row =>
                              map (fun r : Row => energy_efficiency r) (snd kg))
                           by_range))
         else
           print [Lit (String.append nl
                    "Warning: Insufficient temperature ranges for comparison")] ;;
           ret (NaN, NaN)) ;;
  ret (mkImpact correlation temp_efficiency temp_ranges (fst fp) (snd fp)
                (temp_stats, efficiency_stats)).
End Analysis.

End TemperatureAnalysis.

(* ================================================================== *)
(** ** A timestamp parser and sample files *)

Module Samples.

Definition digit (c : ascii) : option Z :=
  let n := nat_of_ascii c in
  if ((48 <=? n) && (n <=? 57))%nat then Some (Z.of_nat (n - 48)) else None.

Fixpoint number_from (acc : Z) (s : string) : option Z :=
  match s with
  | EmptyString => Some acc
  | String c s' =>
      match digit c with
      | Some d => number_from (10 * acc + d)%Z s'
      | None => None
      end
  end.

Definition field (s : string) (start len : nat) : option Z :=
  number_from 0%Z (substring start len s).

(** Timestamps written [YYYY-MM-DD HH:MM:SS], the format of the data set;
    one instance of the parser the loaders are parameterised by. *)
Definition iso_datetime (s : string) : option Timestamp :=
  if ((String.length s =? 19)%nat
      && String.eqb (substring 4 1 s) "-" && String.eqb (substring 7 1 s) "-"
      && String.eqb (substring 10 1 s) " "
      && String.eqb (substring 13 1 s) ":" && String.eqb (substring 16 1 s) ":")
  then
    match field s 0 4, field s 5 2, field s 8 2,
          field s 11 2, field s 14 2, field s 17 2 with
    | Some y, Some m, Some d, Some h, Some mi, Some se =>
        Some (mkTimestamp y m d h mi se)
    | _, _, _, _, _, _ => None
    end
  else None.

(** A CSV row: start time, user type, state of charge at start and end,
    energy, distance, cost, battery capacity, temperature. *)
Definition row (start : string) (user : option string)
           (soc_start soc_end energy distance cost capacity temp : Z) : RawRow :=
  {| Charging_Start_Time := Some start;
     Charging_End_Time := Some "2024-01-01 23:00:00";
     State_of_Charge_Start := of_Z soc_start;
     State_of_Charge_End := of_Z soc_end;
     Energy_Consumed := of_Z energy;
     Charging_Duration := of_Z 2;
     Distance_Driven := of_Z distance;
     Charging_Cost := of_Z cost;
     Battery_Capacity := of_Z capacity;
     Vehicle_Age := of_Z 3;
     Temperature := of_Z temp;
     Vehicle_Model := Some "Tesla Model 3";
     User_Type := user |}.

Definition world_of (rows : list RawRow) : World :=
  {| files := [(csv_path, rows)]; stdout := [] |}.

(** Two sessions: one charging from 20% to 90%, one "charging" from 90%
    down to 10%. *)
Definition soc_rows : list RawRow :=
  [ row "2024-01-01 09:30:00" (Some "Commuter") 20 90 40 100 10 60 15;
    row "2024-01-02 14:00:00" (Some "Casual Driver") 90 10 40 100 10 60 15 ].

(** Sessions starting exactly at 06:00, 12:00 and 18:00. *)
Definition edge_hour_rows : list RawRow :=
  [ row "2024-01-01 06:00:00" (Some "Commuter") 20 90 40 100 10 60 15;
    row "2024-01-01 12:00:00" (Some "Commuter") 20 90 40 100 10 60 15;
    row "2024-01-01 18:00:00" (Some "Commuter") 20 90 40 100 10 60 15 ].

(** Four sessions, the last with a positive cost but no energy delivered. *)
Definition zero_denominator_rows : list RawRow :=
  [ row "2024-01-01 08:00:00" (Some "Commuter") 20 90 10 100 1 50 15;
    row "2024-01-01 09:00:00" (Some "Commuter") 20 90 10 100 2 60 15;
    row "2024-01-01 10:00:00" (Some "Commuter") 20 90 10 100 3 70 15;
    {| Charging_Start_Time := Some "2024-01-01 11:00:00";
       Charging_End_Time := Some "2024-01-01 23:00:00";
       State_of_Charge_Start := of_Z 20;
       State_of_Charge_End := of_Z 90;
       Energy_Consumed := of_Z 0;
       Charging_Duration := of_Z 2;
       Distance_Driven := of_Z 100;
       Charging_Cost := of_Z 5;
       Battery_Capacity := of_Z 80;
       Vehicle_Age := of_Z 3;
       Temperature := of_Z 15;
       Vehicle_Model := Some "Tesla Model 3";
       User_Type := Some "Commuter" |} ].

(** Two valid sessions, the second with an empty ['User Type'] cell. *)
Definition missing_user_rows : list RawRow :=
  [ row "2024-01-01 09:30:00" (Some "Commuter") 20 90 40 100 10 60 15;
    row "2024-01-02 14:00:00" None 30 80 40 100 10 60 15 ].

(** Sessions of a single user type. *)
Definition one_user_rows : list RawRow :=
  [ row "2024-01-01 09:30:00" (Some "Commuter") 20 90 40 100 10 60 15;
    row "2024-01-02 14:00:00" (Some "Commuter") 30 80 40 100 10 60 15 ].

(** Four sessions with battery capacities 50, 60, 70 and 80 kWh. *)
Definition capacity_rows : list RawRow :=
  [ row "2024-01-01 08:00:00" (Some "Commuter") 20 90 10 100 1 50 15;
    row "2024-01-01 09:00:00" (Some "Commuter") 20 90 10 100 2 60 15;
    row "2024-01-01 10:00:00" (Some "Commuter") 20 90 10 100 3 70 15;
    row "2024-01-01 11:00:00" (Some "Commuter") 20 90 10 100 4 80 15 ].

(** The interpreter state holding one frame, referenced as [0]. *)
Definition proc_of (R : Type) (df : list R) : Proc R :=
  {| console := []; heap := [ {| rows := df; added := [] |} ] |}.

(** What a loader returned, or the empty frame when it raised. *)
Definition loaded (R : Type) (m : M World (list R)) (w : World) : list R :=
  match snd (m w) with inr df => df | inl _ => [] end.

End Samples.
Import Samples.

Import ChargingPatterns EvAnalysis TemperatureAnalysis.

(** A cleaned charging record that can be grouped: it has a user type and a
    start timestamp. *)
Definition has_keys (r : ChargingPatterns.Row) : bool :=
  match User_Type r, Charging_Start_Time r with
  | Some _, Some _ => true
  | _, _ => false
  end.



(** Why a loader can raise: the file is missing, or a non-empty cell of one
    of the two time columns does not parse. *)
Definition load_failure (parse : string -> option Timestamp) (w : World) (e : exn)
  : Prop :=
  (lookup_file csv_path (files w) = None /\ e = FileNotFoundError csv_path) \/
  (exists raw s,
      lookup_file csv_path (files w) = Some raw /\
      e = DateParseError s /\ parse s = None /\
      (In (Some s) (map (@Charging_Start_Time _) raw) \/
       In (Some s) (map (@Charging_End_Time _) raw))).

(* ================================================================== *)
(** ** temperature_analysis.py: insights *)

Module TemperatureInsights.

(** A piece of an f-string: literal text, a label, or a float printed with
    a fixed number of decimals ([{x:.2f}]). *)
Inductive Piece : Type :=
| Str (s : string)
| Label (l : string)
| Fixed (decimals : nat) (x : float).

Record Insights : Type := mkInsights {
  correlation_text : list Piece;
  temp_range_impact : list Piece;
  temperature_range : list Piece;
  statistical_significance : string
}.

(** The running minimum of [idxmin]: a later entry replaces the current one
    only when its value is strictly smaller. *)
Fixpoint argmin (best : string * float) (s : list (string * float))
  : string * float :=
  match s with
  | [] => best
  | kv :: s' => if (snd kv <? snd best)%float then argmin kv s' else argmin best s'
  end.

(** [Series.idxmin()]: the label of the first smallest value, missing values
    skipped; [ValueError] when there is no value to compare. *)
Definition idxmin (s : list (string * float)) : exn + string :=
  match filter (fun kv : string * float => negb (isna (snd kv))) s with
  | [] => inl (ValueError "attempt to get argmin of an empty sequence")
  | kv :: s' => inr (fst (argmin kv s'))
  end.

Definition significant : string := "Temperature impact is statistically significant".
Definition not_significant : string :=
  "Temperature impact is not statistically significant".

Definition generate_insights (analysis_results : Impact) : exn + Insights :=
  (* Find the temperature range with best efficiency *)
  match idxmin (temp_efficiency analysis_results) with
  | inl e => inl e
  | inr best_temp_range =>
      inr {| correlation_text :=
               [Str "Temperature correlation with energy consumption: ";
                Fixed 2 (correlation analysis_results)];
             temp_range_impact :=
               [Str "Most efficient temperature range: "; Label best_temp_range];
             temperature_range :=
               [Str "Temperature range: ";
                Fixed 1 (fst (fst (temperature_ranges analysis_results)));
                Str "°C to ";
                Fixed 1 (snd (fst (temperature_ranges analysis_results)));
                Str "°C"];
             statistical_significance :=
               if (p_value analysis_results <? Fin (1 # 20))%float
               then significant else not_significant |}
  end.

End TemperatureInsights.
Import TemperatureInsights.

(* ================================================================== *)
(** ** charging_patterns_analysis.py: descriptive statistics, charts and the
    entry point *)

Module ChargingReport.

Record Stats : Type := mkStats {
  stat_count : nat; stat_mean : float; stat_std : float; stat_min : float;
  stat_Q1 : float; stat_median : float; stat_Q3 : float; stat_max : float
}.

(** A chart description. *)
Inductive Figure (Pivot : Type) : Type :=
| BoxPlot (data : Frame ChargingPatterns.Row) (x y color title : string)
| Heatmap (pivot_data : Pivot) (colorscale title xaxis_title yaxis_title : string)
| BoxTraces (traces : list (option string * list float)) (title : string).

Record Visualizations (Pivot : Type) : Type := mkVisualizations {
  day_box : Figure Pivot;
  time_box : Figure Pivot;
  heatmap : Figure Pivot;
  soc_plot : Figure Pivot
}.

Record Results (AnovaTable Pivot : Type) : Type := mkResults {
  pattern_analysis : Patterns;
  statistical_tests : Tests AnovaTable;
  visualizations : Visualizations Pivot;
  descriptive_stats : Stats * list (string * Stats);
  raw_data : Frame ChargingPatterns.Row
}.

(** Runs analysis code on the frame a loader returned: the frame becomes the
    one object of the heap, referenced as [0], and what the code prints goes
    to the same standard output. *)
Definition with_frame (R A : Type) (df : list R) (body : ref -> M (Proc R) A)
  : M World A :=
  fun w =>
    let pr := body O {| console := stdout w;
                        heap := [ {| rows := df; added := [] |} ] |} in
    ({| files := files w; stdout := console (fst pr) |}, snd pr).

Section Report.
Variables mean median std min max : list float -> float.
Variable round : nat -> float -> float.

Definition get_stats (data : list float) : Stats :=
  mkStats (List.length data) (round 2 (mean data)) (round 2 (std data))
          (round 2 (min data)) (round 2 (quantile data (1 # 4)))
          (round 2 (median data)) (round 2 (quantile data (3 # 4)))
          (round 2 (max data)).

Definition calculate_descriptive_stats (df : ref)
  : M (Proc ChargingPatterns.Row) (Stats * list (string * Stats)) :=
  f <- get df ;;
  (* Overall descriptive statistics *)
  let overall_stats :=
    get_stats (map (fun r : ChargingPatterns.Row => Percentage_Charged r) (rows f)) in
  (* Descriptive statistics by user type: with no group, [apply] returns a
     series with a flat index, which [unstack] refuses (the message goes on
     with the class of the index) *)
  user_type_stats <-
    lift (match groupby String.eqb String.leb by_user (rows f) with
          | [] => inl (ValueError "index must be a MultiIndex to unstack")
          | groups =>
              inr (map (fun kg : string * list ChargingPatterns.Row =>
                          (fst kg,
                           get_stats (map (fun r : ChargingPatterns.Row =>
                                             Percentage_Charged r) (snd kg))))
                       groups)
          end) ;;
  ret (overall_stats, user_type_stats).

(** [df.pivot_table(values, index, columns, aggfunc='mean')]. *)
Variable Pivot : Type.
Variable pivot_table : list ChargingPatterns.Row -> string -> string -> string -> Pivot.

Definition create_pattern_visualizations (df : ref)
  : M (Proc ChargingPatterns.Row) (Visualizations Pivot) :=
  f <- get df ;;
  (* Box plot of Percentage Charged by User Type and Day of Week *)
  let day_box := BoxPlot Pivot f "Day of Week" "Percentage Charged" "User Type"
                         "Charging Patterns by Day of Week" in
  (* Box plot of Percentage Charged by User Type and Time of Day *)
  let time_box := BoxPlot Pivot f "Time of Day" "Percentage Charged" "User Type"
                          "Charging Patterns by Time of Day" in
  (* Heat map of average Percentage Charged *)
  let pivot_data := pivot_table (rows f) "Percentage Charged" "Time of Day"
                                "Day of Week" in
  let heatmap := Heatmap pivot_data "RdBu_r"
                         "Average Percentage Charged by Day and Time"
                         "Day of Week" "Time of Day" in
  (* State of charge patterns *)
  let traces :=
    map (fun user_type : option string =>
           let user_data :=
             filter (fun r : ChargingPatterns.Row =>
                       match User_Type r, user_type with
                       | Some a, Some b => String.eqb a b
                       | _, _ => false
                       end) (rows f) in
           (user_type,
            map (fun r : ChargingPatterns.Row => Percentage_Charged r) user_data))
        (unique (option_eqb String.eqb)
                (map (fun r : ChargingPatterns.Row => User_Type r) (rows f))) in
  let soc_plot := BoxTraces Pivot traces "Charging Percentage by User Type" in
  ret (mkVisualizations day_box time_box heatmap soc_plot).

Variable parse_datetime : string -> option Timestamp.
Variable AnovaTable : Type.
Variable anova_lm_ols : string -> Frame ChargingPatterns.Row -> exn + AnovaTable.
Variable chi2_contingency : list (list nat) -> exn + (float * float).
Variable ttest_ind : list float -> list float -> exn + (float * float).

Definition analyze_charging_patterns : M World (Results AnovaTable Pivot) :=
  (* Load and prepare data *)
  df <- ChargingPatterns.load_and_prepare_data parse_datetime ;;
  with_frame df (fun df =>
    (* Perform analyses *)
    pattern_analysis <- analyze_charging_behavior mean median std round df ;;
    statistical_tests <- ChargingPatterns.perform_statistical_tests
                           anova_lm_ols chi2_contingency ttest_ind df ;;
    visualizations <- create_pattern_visualizations df ;;
    descriptive_stats <- calculate_descriptive_stats df ;;
    raw_data <- get df ;;
    ret (mkResults pattern_analysis statistical_tests visualizations
                   descriptive_stats raw_data)).

End Report.

End ChargingReport.
Import ChargingReport.

(** Five sessions; the last has a battery capacity of 1000 kWh and was
    charged at 45 degrees. *)
Definition outlier_rows : list RawRow :=
  [ row "2024-01-01 08:00:00" (Some "Commuter") 20 90 10 100 2 50 15;
    row "2024-01-01 09:00:00" (Some "Commuter") 20 90 10 100 2 60 15;
    row "2024-01-01 10:00:00" (Some "Commuter") 20 90 10 100 2 70 15;
    row "2024-01-01 11:00:00" (Some "Commuter") 20 90 10 100 2 80 15;
    row "2024-01-01 12:00:00" (Some "Commuter") 20 90 10 100 2 1000 45 ].

(* ================================================================== *)
(** ** temperature_analysis.py: charts *)

Module TemperatureCharts.

(** A chart description: the data, the columns on the axes, the title, the
    axis labels and, for a line plot, the trace mode. *)
Inductive Figure : Type :=
| ScatterChart (data : Frame TemperatureAnalysis.Row) (x y title : string)
          (labels : list (string * string))
| BoxChart (data : Frame TemperatureAnalysis.Row) (x y title : string)
      (labels : list (string * string))
| LineChart (data : list (string * float)) (x y title : string)
       (labels : list (string * string)) (mode : option string).

Record Visualizations : Type := mkVisualizations {
  scatter : Figure;
  box : Figure;
  line : Figure
}.

(** [fig.update_traces(mode=m)]. *)
Definition update_traces (fig : Figure) (m : string) : Figure :=
  match fig with
  | LineChart data x y title labels _ => LineChart data x y title labels (Some m)
  | _ => fig
  end.

Section Charts.
Variable mean : list float -> float.

Definition create_temperature_visualizations (df : ref)
  : M (Proc TemperatureAnalysis.Row) Visualizations :=
  f <- get df ;;
  (* ScatterChart plot of temperature vs energy efficiency *)
  let fig_scatter :=
    ScatterChart f "ambient_temp" "energy_efficiency" "Temperature vs Energy Efficiency"
            [("ambient_temp", "Temperature (°C)");
             ("energy_efficiency", "Energy Efficiency (kWh/km)")] in
  (* BoxChart plot of efficiency by temperature range *)
  let fig_box :=
    BoxChart f "temp_range" "energy_efficiency" "Energy Efficiency by Temperature Range"
        [("temp_range", "Temperature Range");
         ("energy_efficiency", "Energy Efficiency (kWh/km)")] in
  (* LineChart plot of average efficiency by temperature range *)
  let avg_efficiency :=
    map (fun kg : string * list TemperatureAnalysis.Row =>
           (fst kg, mean (map (fun r : TemperatureAnalysis.Row => energy_efficiency r)
                              (snd kg))))
        (groupby String.eqb (category_leb temp_labels) temp_range (rows f)) in
  let fig_line :=
    LineChart avg_efficiency "temp_range" "energy_efficiency"
         "Average Energy Efficiency by Temperature Range"
         [("temp_range", "Temperature Range");
          ("energy_efficiency", "Average Energy Efficiency (kWh/km)")] None in
  (* Update line plot to use markers *)
  let fig_line := update_traces fig_line "lines+markers" in
  ret (mkVisualizations fig_scatter fig_box fig_line).

End Charts.

End TemperatureCharts.

(* ================================================================== *)
(** ** ev_analysis.py: charts written to disk *)

Module EvCharts.


Section Files.
Variable Image : Type.





End Files.





Section Charts.
Variables Image Pivot : Type.
(** The seaborn/matplotlib figures, each free to raise. *)
Variable scatter_with_regression : Frame EvAnalysis.Row -> exn + Image.
Variable boxplot_by_model : Frame EvAnalysis.Row -> exn + Image.
Variable heatmap : Pivot -> exn + Image.
Variable pivot_table :
  list EvAnalysis.Row -> list (option nat) -> list (option nat) -> Pivot.


End Charts.

End EvCharts.

(* ================================================================== *)
(** ** ev_analysis.py: descriptive statistics *)

Module EvReport.

Record Stats : Type := mkStats {
  Count : nat; Mean : float; Std_Dev : float; Min : float;
  Q1 : float; Median : float; Q3 : float; Max : float
}.

Section Report.
Variables mean std min max median : list float -> float.
Variable round : nat -> float -> float.

Definition get_stats (data : list float) : Stats :=
  mkStats (List.length data) (round 3 (mean data)) (round 3 (std data))
          (round 3 (min data)) (round 3 (quantile data (1 # 4)))
          (round 3 (median data)) (round 3 (quantile data (3 # 4)))
          (round 3 (max data)).

(** [get_stats(...).mean()]: the mean of the eight statistics. *)
Definition stats_mean (s : Stats) : float :=
  mean [of_nat (Count s); Mean s; Std_Dev s; Min s; Q1 s; Median s; Q3 s; Max s].

Definition calculate_descriptive_stats (df : ref)
  : M (Proc EvAnalysis.Row)
      ((Stats * Stats * Stats) * list (option string * (float * float * float))) :=
  f <- get df ;;
  (* Calculate overall statistics for each column *)
  let overall_stats :=
    (get_stats (map (fun r : EvAnalysis.Row => Vehicle_Age r) (rows f)),
     get_stats (map (fun r : EvAnalysis.Row => Battery_Capacity r) (rows f)),
     get_stats (map cost_efficiency (rows f))) in
  (* Calculate statistics by vehicle model *)
  let model_stats :=
    map (fun model : option string =>
           let model_data :=
             filter (fun r : EvAnalysis.Row =>
                       match Vehicle_Model r, model with
                       | Some a, Some b => String.eqb a b
                       | _, _ => false
                       end) (rows f) in
           (model,
            (stats_mean (get_stats (map (fun r : EvAnalysis.Row => Vehicle_Age r)
                                        model_data)),
             stats_mean (get_stats (map (fun r : EvAnalysis.Row => Battery_Capacity r)
                                        model_data)),
             stats_mean (get_stats (map cost_efficiency model_data)))))
        (unique (option_eqb String.eqb)
                (map (fun r : EvAnalysis.Row => Vehicle_Model r) (rows f))) in
  ret (overall_stats, model_stats).

End Report.

End EvReport.

(* ================================================================== *)
(** ** dashboard.py: the data behind the layout *)

Module Dashboard.

Section Startup.
Variables mean median std min max : list float -> float.
Variable round : nat -> float -> float.
Variable corr : list float -> list float -> float.
Variable parse_datetime : string -> option Timestamp.
Variables Summary AnovaTable Pivot : Type.
Variable ols_summary : list (float * float) -> list float -> exn + Summary.
Variable f_oneway : list (list float) -> exn + (float * float).
Variable anova_lm_ols : string -> Frame ChargingPatterns.Row -> exn + AnovaTable.
Variable chi2_contingency : list (list nat) -> exn + (float * float).
Variable ttest_ind : list float -> list float -> exn + (float * float).
Variable pivot_table : list ChargingPatterns.Row -> string -> string -> string -> Pivot.

(** The statements of the module that run before the layout is built. *)
Definition prepare_data :=
  (* Load and prepare the data for both analyses *)
  df_efficiency <- EvAnalysis.load_and_prepare_data parse_datetime ;;
  efficiency <-
    with_frame df_efficiency (fun df_efficiency =>
      desc_stats <- EvReport.calculate_descriptive_stats
                      mean std min max median round df_efficiency ;;
      relationship <- analyze_age_efficiency_relationship
                        mean std round corr df_efficiency ;;
      tests <- EvAnalysis.perform_statistical_tests
                 ols_summary f_oneway df_efficiency ;;
      ret (desc_stats, relationship, tests)) ;;
  (* Load charging patterns analysis results *)
  charging_results <- analyze_charging_patterns
                        mean median std min max round pivot_table parse_datetime
                        anova_lm_ols chi2_contingency ttest_ind ;;
  (* Load temperature analysis results *)
  df_temperature <- load_and_clean_temperature_data parse_datetime ;;
  temperature <-
    with_frame df_temperature (fun df_temperature =>
      temp_analysis <- analyze_temperature_impact
                         mean std min max median round corr f_oneway df_temperature ;;
      temp_visualizations <- TemperatureCharts.create_temperature_visualizations
                               mean df_temperature ;;
      ret (temp_analysis, temp_visualizations)) ;;
  temp_insights <- lift (generate_insights (fst temperature)) ;;
  ret (efficiency, charging_results, temperature, temp_insights).

End Startup.

End Dashboard.

(* ================================================================== *)
(** * Properties *)

(** ** Floats *)

Lemma fle_of_Z (a b : Z) : (of_Z a <=? of_Z b)%float = (a <=? b)%Z.
Proof.
  unfold of_Z, fle, Qle_bool, inject_Z; simpl. now rewrite !Z.mul_1_r.
Qed.

Lemma flt_of_Z (a b : Z) : (of_Z a <? of_Z b)%float = (a <? b)%Z.
Proof.
  unfold flt. change (of_Z a) with (Fin (inject_Z a)).
  change (of_Z b) with (Fin (inject_Z b)). cbv beta iota.
  change (Fin (inject_Z a)) with (of_Z a). change (Fin (inject_Z b)) with (of_Z b).
  rewrite fle_of_Z. now rewrite Z.ltb_antisym.
Qed.

Lemma fle_Fin (a b : Q) : (Fin a <=? Fin b)%float = true <-> (a <= b)%Q.
Proof. simpl. apply Qle_bool_iff. Qed.

(** A comparison that holds forces both sides to be numbers or infinities. *)
Lemma fle_true_notna (x y : float) :
  (x <=? y)%float = true -> isna x = false /\ isna y = false.
Proof. destruct x, y; simpl; intros; try discriminate; auto. Qed.

Lemma fle_PInf_left (y : float) : (PInf <=? y)%float = true -> y = PInf.
Proof. destruct y; simpl; intros; try discriminate; auto. Qed.

Lemma fle_NInf_right (x : float) : (x <=? NInf)%float = true -> x = NInf.
Proof. destruct x; simpl; intros; try discriminate; auto. Qed.

(** ** Columns *)

Lemma to_datetime_length parse col ts :
  to_datetime parse col = inr ts -> List.length ts = List.length col.
Proof.
  revert ts; induction col as [|c col IH]; simpl; intros ts H.
  - now inversion H.
  - destruct c as [s|].
    + destruct (parse s); [|discriminate].
      destruct (to_datetime parse col) as [e|ts']; [discriminate|].
      inversion H; subst; simpl. now rewrite (IH ts').
    + destruct (to_datetime parse col) as [e|ts']; [discriminate|].
      inversion H; subst; simpl. now rewrite (IH ts').
Qed.

Lemma in_combine_exists (A B : Type) (l : list A) (l' : list B) (x : A) :
  In x l -> List.length l = List.length l' -> exists y, In (x, y) (combine l l').
Proof.
  revert l'; induction l as [|a l IH]; intros [|b l'] Hin Hlen; simpl in *;
    try contradiction; try discriminate.
  destruct Hin as [->|Hin].
  - exists b; now left.
  - destruct (IH l' Hin) as [y Hy]; [lia|]. exists y; now right.
Qed.

Lemma in_assign (A B C : Type) (f : A -> B -> C) (df : list A) (col : list B) (c : C) :
  In c (assign f df col) <-> exists a b, In (a, b) (combine df col) /\ c = f a b.
Proof.
  unfold assign; rewrite in_map_iff; split.
  - intros [[a b] [E H]]; exists a, b; simpl in E; auto.
  - intros (a & b & H & ->); exists (a, b); auto.
Qed.

Lemma map_assign_fst (A B C D : Type) (f : A -> B -> C) (g : C -> D) (h : A -> D)
      (df : list A) (col : list B) :
  (forall a b, g (f a b) = h a) -> List.length df = List.length col ->
  map g (assign f df col) = map h df.
Proof.
  intros Hg; unfold assign; revert col.
  induction df as [|a df IH]; intros [|b col] Hlen; simpl in *; try discriminate; auto.
  rewrite Hg, IH; auto.
Qed.

Lemma run_eq (S A : Type) (w1 w2 : S) (a b : A) (e : exn + A) :
  e = inr b -> (w1, inr a) = (w2, e) -> w2 = w1 /\ b = a.
Proof. intros -> H; inversion H; auto. Qed.

(** Unfolds one run of a loader down to its successful path. *)
Ltac run_loader H :=
  unfold ChargingPatterns.load_and_prepare_data,
         EvAnalysis.load_and_prepare_data,
         load_and_clean_temperature_data,
         bind, read_csv, lift, print, ret in H;
  match type of H with
  | context [lookup_file ?p ?fs] =>
      let raw := fresh "raw" in
      let Hraw := fresh "Hraw" in
      destruct (lookup_file p fs) as [raw|] eqn:Hraw; [|discriminate H]
  end;
  match type of H with
  | context [to_datetime ?parse (map (@Charging_Start_Time _) ?raw)] =>
      let st := fresh "st" in
      let Hst := fresh "Hst" in
      destruct (to_datetime parse (map (@Charging_Start_Time _) raw))
        as [?|st] eqn:Hst; [discriminate H|];
      let en := fresh "en" in
      let Hen := fresh "Hen" in
      destruct (to_datetime parse (map (@Charging_End_Time _) raw))
        as [?|en] eqn:Hen; [discriminate H|]
  end;
  cbv beta zeta in H;
  apply (run_eq eq_refl) in H; destruct H as [-> ->].

(** Traces a row of a loaded frame back through the [map], [filter] and
    column-assignment steps that produced it. *)
Ltac in_frame H :=
  repeat first
    [ apply in_map_iff in H as [? [<- H]]
    | let Hp := fresh H in apply filter_In in H as [H Hp]
    | apply in_assign in H as (? & ? & H & ->) ].

(** ** Percentage charged *)

(** C6. Percentage charged is end SoC minus start SoC; every record of the
    cleaned charging-patterns dataset has it in [0, 100]; a record with start
    20 and end 90 gets 70 and is retained, and no record with start 90 and
    end 10 (percentage -80) is retained. *)
Theorem percentage_charged_in_range :
  forall parse w w' df,
    ChargingPatterns.load_and_prepare_data parse w = (w', inr df) ->
    (forall r : ChargingPatterns.Row, In r df ->
       Percentage_Charged r = (State_of_Charge_End r - State_of_Charge_Start r)%float /\
       exists q, Percentage_Charged r = Fin q /\ (0 <= q <= 100)%Q) /\
    (forall raw x,
       lookup_file csv_path (files w) = Some raw -> In x raw ->
       State_of_Charge_Start x = of_Z 20 -> State_of_Charge_End x = of_Z 90 ->
       exists r : ChargingPatterns.Row,
         In r df /\ erase_times r = erase_times x /\ Percentage_Charged r = of_Z 70) /\
    (forall r : ChargingPatterns.Row, In r df ->
       State_of_Charge_Start r = of_Z 90 -> State_of_Charge_End r = of_Z 10 -> False).
Proof.
  intros parse w w' df H. run_loader H.
  pose proof (to_datetime_length _ _ Hst) as Lst.
  pose proof (to_datetime_length _ _ Hen) as Len.
  rewrite length_map in Lst, Len.
  split; [|split].
  - intros r Hr. in_frame Hr. split; [reflexivity|].
    apply andb_prop in Hr0 as [Hlo Hhi]. cbn [Percentage_Charged charged] in *.
    destruct (State_of_Charge_End _ - State_of_Charge_Start _)%float as [q| | |];
      try discriminate.
    exists q; split; [reflexivity|]. split.
    + now apply fle_Fin in Hlo.
    + now apply fle_Fin in Hhi.
  - intros raw0 x Hraw0 Hx Hs He. injection Hraw0 as <-.
    destruct (in_combine_exists raw (combine st en) x Hx) as [t Ht].
    { rewrite length_combine, Lst, Len. now rewrite Nat.min_id. }
    set (c := mkCharged (set_times x (fst t) (snd t))
                (State_of_Charge_End x - State_of_Charge_Start x)%float).
    exists (ChargingPatterns.mkRow c (dt_hour (Charging_Start_Time c))
              (dt_day_name (Charging_Start_Time c))
              (cut_value time_of_day_bins time_of_day_labels false
                         (dt_hour (Charging_Start_Time c)))).
    split; [|split].
    + apply in_map_iff. exists c; split; [reflexivity|].
      apply filter_In; split.
      * apply in_map_iff. exists (set_times x (fst t) (snd t)); split; [reflexivity|].
        apply in_assign. now exists x, t.
      * subst c; cbn [Percentage_Charged]. rewrite Hs, He. reflexivity.
    + reflexivity.
    + subst c; cbn [Percentage_Charged charged]. rewrite Hs, He. reflexivity.
  - intros r Hr Hs He. in_frame Hr.
    cbn in Hs, He, Hr0. rewrite Hs, He in Hr0. discriminate.
Qed.

Lemma percentage_charged_in_range_witness :
  let m := ChargingPatterns.load_and_prepare_data iso_datetime in
  let w := world_of soc_rows in
  m w = (fst (m w), inr (loaded m w)) /\
  (forall r : ChargingPatterns.Row, In r (loaded m w) ->
     exists q, Percentage_Charged r = Fin q /\ (0 <= q <= 100)%Q) /\
  (exists r : ChargingPatterns.Row,
     In r (loaded m w) /\ Percentage_Charged r = of_Z 70).
Proof.
  intros m w.
  assert (H : m w = (fst (m w), inr (loaded m w))) by (vm_compute; reflexivity).
  destruct (percentage_charged_in_range iso_datetime w H) as (P1 & P2 & _).
  split; [exact H|split].
  - intros r Hr. exact (proj2 (P1 r Hr)).
  - destruct (P2 soc_rows (row "2024-01-01 09:30:00" (Some "Commuter") 20 90 40 100 10 60 15))
      as (r & Hr & _ & Hp);
      [reflexivity | now left | reflexivity | reflexivity |].
    exists r; auto.
Defined.

(** ** Time-of-day buckets *)

Lemma time_of_day_cut (h : Z) :
  cut_value time_of_day_bins time_of_day_labels false (of_Z h)
  = Some (if (h <=? 6)%Z then "Night"
          else if (h <=? 12)%Z then "Morning"
          else if (h <=? 18)%Z then "Afternoon" else "Evening").
Proof.
  unfold cut_value, searchsorted_left, time_of_day_bins, time_of_day_labels.
  cbn [isna of_Z andb filter].
  change (Fin (inject_Z h)) with (of_Z h).
  change (Fin (inject_Z 6)) with (of_Z 6).
  change (Fin (inject_Z 12)) with (of_Z 12).
  change (Fin (inject_Z 18)) with (of_Z 18).
  rewrite !flt_of_Z.
  change (NInf <? of_Z h)%float with true.
  change (PInf <? of_Z h)%float with false.
  cbv iota.
  destruct (Z.ltb_spec 6 h), (Z.ltb_spec 12 h), (Z.ltb_spec 18 h);
    destruct (Z.leb_spec h 6), (Z.leb_spec h 12), (Z.leb_spec h 18);
    try lia; reflexivity.
Qed.

(** C2 (amended). The bucket is cut from the hour of the start timestamp with
    right-closed intervals: 'Night' iff hour <= 6, 'Morning' iff
    6 < hour <= 12, 'Afternoon' iff 12 < hour <= 18, 'Evening' iff hour > 18;
    a record without a start timestamp has no bucket.  So hour 6 is 'Night',
    hour 12 'Morning' and hour 18 'Afternoon'. *)
Theorem time_of_day_right_closed :
  forall parse w w' df,
    ChargingPatterns.load_and_prepare_data parse w = (w', inr df) ->
    forall r : ChargingPatterns.Row, In r df ->
      Hour r = dt_hour (Charging_Start_Time r) /\
      match Charging_Start_Time r with
      | None => Time_of_Day r = None
      | Some t =>
          (Time_of_Day r = Some "Night" <-> (hour t <= 6)%Z) /\
          (Time_of_Day r = Some "Morning" <-> (6 < hour t <= 12)%Z) /\
          (Time_of_Day r = Some "Afternoon" <-> (12 < hour t <= 18)%Z) /\
          (Time_of_Day r = Some "Evening" <-> (18 < hour t)%Z)
      end.
Proof.
  intros parse w w' df H r Hr. run_loader H. in_frame Hr.
  split; [reflexivity|].
  cbn [Time_of_Day Hour charged ChargingPatterns.session].
  destruct (Charging_Start_Time _) as [t|]; [|reflexivity].
  cbn [dt_hour]. rewrite time_of_day_cut.
  destruct (Z.leb_spec (hour t) 6), (Z.leb_spec (hour t) 12),
    (Z.leb_spec (hour t) 18);
    repeat split; intros; try lia; try discriminate; try reflexivity.
Qed.

Lemma time_of_day_right_closed_witness :
  let m := ChargingPatterns.load_and_prepare_data iso_datetime in
  let w := world_of edge_hour_rows in
  m w = (fst (m w), inr (loaded m w)) /\
  (forall r : ChargingPatterns.Row, In r (loaded m w) ->
     Hour r = dt_hour (Charging_Start_Time r)).
Proof.
  intros m w.
  assert (H : m w = (fst (m w), inr (loaded m w))) by (vm_compute; reflexivity).
  split; [exact H|].
  intros r Hr. exact (proj1 (time_of_day_right_closed iso_datetime w H r Hr)).
Defined.

(** C2 as stated fails: the sessions starting at 06:00, 12:00 and 18:00 are
    not all bucketed by left-closed intervals (the 06:00 one is 'Night'). *)
Lemma time_of_day_left_closed_fails :
  ~ (forall r : ChargingPatterns.Row,
       In r (loaded (ChargingPatterns.load_and_prepare_data iso_datetime)
                    (world_of edge_hour_rows)) ->
       forall t, Charging_Start_Time r = Some t ->
         (Time_of_Day r = Some "Night" <-> (hour t < 6)%Z) /\
         (Time_of_Day r = Some "Morning" <-> (6 <= hour t < 12)%Z) /\
         (Time_of_Day r = Some "Afternoon" <-> (12 <= hour t < 18)%Z) /\
         (Time_of_Day r = Some "Evening" <-> (18 <= hour t)%Z)).
Proof.
  intros C.
  match type of C with
  | forall r, In r ?df -> _ =>
      let d := eval vm_compute in df in
      match d with
      | ?r0 :: _ =>
          assert (Hin : In r0 df) by (vm_compute; left; reflexivity);
          destruct (C r0 Hin (mkTimestamp 2024 1 1 6 0 0) eq_refl) as [[N _] _];
          assert (Hn : (6 < 6)%Z) by (apply N; reflexivity);
          lia
      end
  end.
Qed.

(** ** IQR fences *)

Lemma times_length (A : Type) (raw : list A) (st en : list datetime) :
  List.length st = List.length raw -> List.length en = List.length raw ->
  List.length raw = List.length (combine st en).
Proof. intros Hs He. rewrite length_combine, Hs, He. now rewrite Nat.min_id. Qed.

Lemma map_filter_assign (A B C D : Type) (f : A -> B -> C) (g : C -> D) (h : A -> D)
      (p : C -> bool) (q : A -> bool) (df : list A) (col : list B) :
  (forall a b, g (f a b) = h a) -> (forall a b, p (f a b) = q a) ->
  List.length df = List.length col ->
  map g (filter p (assign f df col)) = map h (filter q df).
Proof.
  intros Hg Hp; unfold assign; revert col.
  induction df as [|a df IH]; intros [|b col] Hlen; simpl in *; try discriminate; auto.
  rewrite Hp. destruct (q a); simpl; rewrite ?Hg, IH; auto.
Qed.

Lemma ev_cost_column (raw : list RawRow) (ts : list (datetime * datetime)) :
  List.length raw = List.length ts ->
  map cost_efficiency
      (map (fun r : Session datetime =>
              EvAnalysis.mkRow r (Charging_Cost r / Energy_Consumed r)%float)
           (assign (fun (r : Session (option string)) t => set_times r (fst t) (snd t)) raw ts))
  = map (fun x : RawRow => (Charging_Cost x / Energy_Consumed x)%float) raw.
Proof.
  intros L. rewrite map_map. now apply map_assign_fst.
Qed.

Lemma ev_battery_column (raw : list RawRow) (ts : list (datetime * datetime)) :
  List.length raw = List.length ts ->
  map battery
      (map (fun r : Session datetime =>
              EvAnalysis.mkRow r (Charging_Cost r / Energy_Consumed r)%float)
           (assign (fun (r : Session (option string)) t => set_times r (fst t) (snd t)) raw ts))
  = map (fun x : RawRow => Battery_Capacity x) raw.
Proof.
  intros L. rewrite map_map. now apply map_assign_fst.
Qed.

Lemma temperature_efficiency_column (raw : list RawRow) (ts : list (datetime * datetime)) :
  List.length raw = List.length ts ->
  map energy_efficiency
      (filter (fun r => (ambient_temp r <=? of_Z 40)%float)
         (assign (fun (r : RawRow) t =>
                    mkMeasured r (fst t) (snd t) (Temperature r)
                               (Energy_Consumed r / Distance_Driven r)%float) raw ts))
  = map (fun x : RawRow => (Energy_Consumed x / Distance_Driven x)%float)
        (filter (fun x : RawRow => (Temperature x <=? of_Z 40)%float) raw).
Proof.
  intros L. now apply map_filter_assign.
Qed.

(** After [run_loader]: the parsed time columns are as long as the file. *)
Ltac column_lengths L :=
  match goal with
  | Hst : to_datetime _ (map _ ?raw) = inr ?st,
    Hen : to_datetime _ (map _ ?raw) = inr ?en |- _ =>
      let Ls := fresh "Lst" in
      let Le := fresh "Len" in
      pose proof (to_datetime_length _ _ Hst) as Ls;
      pose proof (to_datetime_length _ _ Hen) as Le;
      rewrite length_map in Ls, Le;
      first [ pose proof (times_length raw st en Ls Le) as L
            | pose proof (times_length raw en st Le Ls) as L ]
  end.



(** ** Rows kept in file order *)






(** ** Division by zero *)

Lemma feq_zero (d : float) :
  feq d (of_Z 0) = true -> exists b, d = Fin b /\ sgn b = Eq.
Proof.
  unfold feq; intros H. apply andb_prop in H as [H1 H2].
  destruct d as [b| | |]; try discriminate.
  exists b; split; [reflexivity|].
  apply fle_Fin in H1. apply fle_Fin in H2.
  unfold sgn. apply Qeq_alt. apply Qle_antisym; assumption.
Qed.

(** A ratio over a zero denominator is an infinity or [NaN]. *)
Lemma fdiv_zero (n d : float) :
  feq d (of_Z 0) = true -> (n / d)%float = PInf \/ (n / d)%float = NInf \/ (n / d)%float = NaN.
Proof.
  intros H. destruct (feq_zero d H) as (b & -> & Hb).
  destruct n as [a| | |]; cbn [fdiv]; rewrite ?Hb; auto.
  destruct (sgn a); auto.
Qed.

Lemma zero_denominator_ratio (lo hi n d : float) :
  (lo <=? n / d)%float = true -> (n / d <=? hi)%float = true ->
  isna (n / d)%float = false /\
  (feq d (of_Z 0) = true ->
   ((n / d)%float = PInf /\ hi = PInf) \/ ((n / d)%float = NInf /\ lo = NInf)).
Proof.
  intros Hlo Hhi. split.
  - exact (proj1 (fle_true_notna _ _ Hhi)).
  - intros Hd. destruct (fdiv_zero n d Hd) as [E|[E|E]]; rewrite E in *.
    + left; split; [reflexivity|]. now apply fle_PInf_left.
    + right; split; [reflexivity|]. now apply fle_NInf_right.
    + discriminate.
Qed.

(** C7 (amended). No guard precedes the division.  A record whose ratio is
    undefined (NaN) never reaches the cleaned dataset.  A record with a zero
    denominator reaches it only with an infinite ratio and only when the
    fence of the IQR step on that side is itself infinite; so when both
    fences are finite no cleaned record has a zero denominator.  This holds
    for cost efficiency (zero energy, ev loader) and energy efficiency (zero
    distance, temperature loader). *)
Theorem zero_denominator_needs_infinite_fence :
  forall parse w,
    (forall w' df,
       EvAnalysis.load_and_prepare_data parse w = (w', inr df) ->
       exists raw,
         lookup_file csv_path (files w) = Some raw /\
         let col := map (fun x : RawRow =>
                           (Charging_Cost x / Energy_Consumed x)%float) raw in
         forall r : EvAnalysis.Row, In r df ->
           cost_efficiency r = (Charging_Cost r / Energy_Consumed r)%float /\
           isna (cost_efficiency r) = false /\
           (feq (Energy_Consumed r) (of_Z 0) = true ->
            (cost_efficiency r = PInf /\ upper_bound col = PInf) \/
            (cost_efficiency r = NInf /\ lower_bound col = NInf)))
    /\
    (forall w' df,
       load_and_clean_temperature_data parse w = (w', inr df) ->
       exists raw,
         lookup_file csv_path (files w) = Some raw /\
         let col := map (fun x : RawRow =>
                           (Energy_Consumed x / Distance_Driven x)%float)
                        (filter (fun x : RawRow =>
                                   (Temperature x <=? of_Z 40)%float) raw) in
         forall r : TemperatureAnalysis.Row, In r df ->
           energy_efficiency r = (Energy_Consumed r / Distance_Driven r)%float /\
           isna (energy_efficiency r) = false /\
           (feq (Distance_Driven r) (of_Z 0) = true ->
            (energy_efficiency r = PInf /\ upper_bound col = PInf) \/
            (energy_efficiency r = NInf /\ lower_bound col = NInf))).
Proof.
  intros parse w. split.
  - intros w' df H. run_loader H. column_lengths L.
    exists raw; split; [reflexivity|].
    intros col r Hr.
    rewrite (ev_cost_column raw (combine st en) L) in Hr.
    in_frame Hr.
    apply andb_prop in Hr1 as [Hr1 _]. apply andb_prop in Hr1 as [Hr1 _].
    apply andb_prop in Hr1 as [Hlo Hhi].
    split; [reflexivity|].
    exact (zero_denominator_ratio _ _ _ _ Hlo Hhi).
  - intros w' df H. run_loader H. column_lengths L.
    exists raw; split; [reflexivity|].
    intros col r Hr.
    rewrite (temperature_efficiency_column raw (combine st en) L) in Hr.
    in_frame Hr.
    apply andb_prop in Hr0 as [Hlo Hhi].
    split; [reflexivity|].
    exact (zero_denominator_ratio _ _ _ _ Hlo Hhi).
Qed.

Lemma zero_denominator_needs_infinite_fence_witness :
  let ev := EvAnalysis.load_and_prepare_data iso_datetime in
  let temp := load_and_clean_temperature_data iso_datetime in
  let w := world_of zero_denominator_rows in
  (ev w = (fst (ev w), inr (loaded ev w)) /\
   (forall r : EvAnalysis.Row, In r (loaded ev w) -> isna (cost_efficiency r) = false) /\
   exists r : EvAnalysis.Row,
     In r (loaded ev w) /\ feq (Energy_Consumed r) (of_Z 0) = true /\
     cost_efficiency r = PInf /\
     upper_bound (map (fun x : RawRow => (Charging_Cost x / Energy_Consumed x)%float)
                      zero_denominator_rows) = PInf) /\
  (temp w = (fst (temp w), inr (loaded temp w)) /\
   forall r : TemperatureAnalysis.Row, In r (loaded temp w) ->
     isna (energy_efficiency r) = false).
Proof.
  intros ev temp w.
  destruct (zero_denominator_needs_infinite_fence iso_datetime w) as (P1 & P2).
  split.
  - assert (H : ev w = (fst (ev w), inr (loaded ev w))) by (vm_compute; reflexivity).
    destruct (P1 _ _ H) as (raw & Hraw & P).
    change (Some zero_denominator_rows = Some raw) in Hraw. injection Hraw as <-.
    split; [exact H|]. split.
    + intros r Hr. exact (proj1 (proj2 (P r Hr))).
    + pose (r0 := nth 3 (loaded ev w) (EvAnalysis.mkRow
                 (set_times (row "" None 0 0 0 0 0 0 0) None None) NaN)).
      assert (Hin : In r0 (loaded ev w))
        by (vm_compute; right; right; right; left; reflexivity).
      assert (Hz : feq (Energy_Consumed r0) (of_Z 0) = true) by (vm_compute; reflexivity).
      exists r0. split; [exact Hin|]. split; [exact Hz|].
      destruct (proj2 (proj2 (P r0 Hin)) Hz) as [[A B]|[A B]].
      * split; [exact A|exact B].
      * vm_compute in A. discriminate A.
  - assert (H : temp w = (fst (temp w), inr (loaded temp w))) by (vm_compute; reflexivity).
    split; [exact H|]. intros r Hr.
    destruct (P2 _ _ H) as (raw & _ & P). exact (proj1 (proj2 (P r Hr))).
Defined.

(** C7 as stated fails: of four sessions, the one with zero energy consumed
    (cost efficiency +inf) makes Q3 infinite, both fences become infinite,
    and the record stays in the cleaned cost-efficiency dataset. *)
Lemma zero_energy_record_survives :
  ~ (forall r : EvAnalysis.Row,
       In r (loaded (EvAnalysis.load_and_prepare_data iso_datetime)
                    (world_of zero_denominator_rows)) ->
       feq (Energy_Consumed r) (of_Z 0) = false).
Proof.
  intros C.
  match type of C with
  | forall r, In r ?df -> _ =>
      let d := eval vm_compute in df in
      match d with
      | [_; _; _; ?r0] =>
          assert (Hin : In r0 df)
            by (vm_compute; right; right; right; left; reflexivity);
          specialize (C r0 Hin); vm_compute in C; discriminate C
      end
  end.
Qed.

(** ** Reported removal counts *)

Lemma filter_filter_nil (A : Type) (p q : A -> bool) (l : list A) :
  (forall x, p x = true -> q x = false) -> filter q (filter p l) = [].
Proof.
  intros Hpq. induction l as [|x l IH]; simpl; [reflexivity|].
  destruct (p x) eqn:Hp; simpl; [|exact IH].
  now rewrite (Hpq x Hp).
Qed.

Lemma fge_not_flt (x y : float) : (x >=? y)%float = true -> (x <? y)%float = false.
Proof.
  unfold fge, flt; intros H. destruct x, y; try reflexivity; try discriminate;
    now rewrite H.
Qed.

Lemma fle_not_fgt (x y : float) : (x <=? y)%float = true -> (x >? y)%float = false.
Proof. intros H. unfold fgt. now apply fge_not_flt. Qed.

(** X18. The charging loader counts the rows it "removed" in the frame that
    is left after the removal, so both reported counts are [0] on every
    input: its report is always the same three lines. *)
Lemma charging_reported_counts_are_zero :
  forall parse w w' df,
    ChargingPatterns.load_and_prepare_data parse w = (w', inr df) ->
    stdout w' = stdout w ++
      [ [Lit (String.append nl "Outlier Removal Statistics:")];
        [Lit "Removed "; Int 0; Lit " negative percentage values"];
        [Lit "Removed "; Int 0; Lit " percentage values above 100"] ].
Proof.
  intros parse w w' df H. run_loader H.
  unfold write, World_Console; cbn [stdout files].
  rewrite !filter_filter_nil.
  - cbn [List.length]. rewrite <- !app_assoc. reflexivity.
  - intros x Hx. apply andb_prop in Hx as [_ Hx]. now apply fle_not_fgt.
  - intros x Hx. apply andb_prop in Hx as [Hx _]. now apply fge_not_flt.
Qed.

(** X19. The ev loader counts its outliers in the frame that is left after
    the filter: its four reported counts are [0] on every input, and its
    report is always the same five lines. *)
Lemma ev_reported_counts_are_zero :
  forall parse w w' df,
    EvAnalysis.load_and_prepare_data parse w = (w', inr df) ->
    stdout w' = stdout w ++
      [ [Lit (String.append nl "Outlier Removal Statistics:")];
        [Lit "Cost Efficiency - Removed "; Int 0; Lit " upper outliers"];
        [Lit "Cost Efficiency - Removed "; Int 0; Lit " lower outliers"];
        [Lit "Battery Capacity - Removed "; Int 0; Lit " upper outliers"];
        [Lit "Battery Capacity - Removed "; Int 0; Lit " lower outliers"] ].
Proof.
  intros parse w w' df H. run_loader H.
  unfold write, World_Console; cbn [stdout files].
  rewrite !filter_filter_nil.
  - cbn [List.length]. rewrite <- !app_assoc. reflexivity.
  - intros x Hx. apply andb_prop in Hx as [Hx _]. apply andb_prop in Hx as [_ Hx].
    now apply fge_not_flt.
  - intros x Hx. apply andb_prop in Hx as [_ Hx]. now apply fle_not_fgt.
  - intros x Hx. apply andb_prop in Hx as [Hx _]. apply andb_prop in Hx as [Hx _].
    apply andb_prop in Hx as [Hx _]. now apply fge_not_flt.
  - intros x Hx. apply andb_prop in Hx as [Hx _]. apply andb_prop in Hx as [Hx _].
    apply andb_prop in Hx as [_ Hx]. now apply fle_not_fgt.
Qed.

(** Rows a filter removes, counted before and after it. *)
Lemma length_filter_complement (A : Type) (p : A -> bool) (l : list A) :
  (List.length l - List.length (filter p l))%nat
  = List.length (filter (fun x => negb (p x)) l).
Proof.
  induction l as [|x l IH]; [reflexivity|].
  pose proof (filter_length_le p l) as Hle.
  cbn [filter]. destruct (p x); cbn [negb List.length]; lia.
Qed.

(** C4 fails on the charging loader.  On a file of two sessions, one of them
    with a negative percentage charged (start 90, end 10), one row is
    removed, yet the loader prints "Removed 0 negative percentage values". *)
Theorem charging_loader_reports_zero_removed :
  let m := ChargingPatterns.load_and_prepare_data iso_datetime in
  let w := world_of soc_rows in
  List.length
    (filter (fun x : RawRow =>
               (State_of_Charge_End x - State_of_Charge_Start x <? of_Z 0)%float)
            soc_rows) = 1%nat /\
  List.length soc_rows = 2%nat /\
  List.length (loaded m w) = 1%nat /\
  stdout (fst (m w)) =
    [ [Lit (String.append nl "Outlier Removal Statistics:")];
      [Lit "Removed "; Int 0; Lit " negative percentage values"];
      [Lit "Removed "; Int 0; Lit " percentage values above 100"] ].
Proof.
  intros m w. repeat split; vm_compute; reflexivity.
Qed.

(** ** What a loader reads and leaves *)

Lemma charging_load_reads_files_only parse w1 w2 :
  files w1 = files w2 ->
  snd (ChargingPatterns.load_and_prepare_data parse w1)
  = snd (ChargingPatterns.load_and_prepare_data parse w2)
  /\ files (fst (ChargingPatterns.load_and_prepare_data parse w1)) = files w1.
Proof.
  intros E. unfold ChargingPatterns.load_and_prepare_data, bind, read_csv, lift, print, ret.
  rewrite <- E. destruct (lookup_file csv_path (files w1)); [|split; reflexivity].
  destruct (to_datetime parse _); [split; reflexivity|].
  destruct (to_datetime parse _); split; reflexivity.
Qed.

Lemma ev_load_reads_files_only parse w1 w2 :
  files w1 = files w2 ->
  snd (EvAnalysis.load_and_prepare_data parse w1)
  = snd (EvAnalysis.load_and_prepare_data parse w2)
  /\ files (fst (EvAnalysis.load_and_prepare_data parse w1)) = files w1.
Proof.
  intros E. unfold EvAnalysis.load_and_prepare_data, bind, read_csv, lift, print, ret.
  rewrite <- E. destruct (lookup_file csv_path (files w1)); [|split; reflexivity].
  destruct (to_datetime parse _); [split; reflexivity|].
  destruct (to_datetime parse _); split; reflexivity.
Qed.

Lemma temperature_load_reads_files_only parse w1 w2 :
  files w1 = files w2 ->
  snd (load_and_clean_temperature_data parse w1)
  = snd (load_and_clean_temperature_data parse w2)
  /\ files (fst (load_and_clean_temperature_data parse w1)) = files w1.
Proof.
  intros E. unfold load_and_clean_temperature_data, bind, read_csv, lift, print, ret.
  rewrite <- E. destruct (lookup_file csv_path (files w1)); [|split; reflexivity].
  destruct (to_datetime parse _); [split; reflexivity|].
  destruct (to_datetime parse _); split; reflexivity.
Qed.

(** ** Group counts *)

Section GroupCounts.
Variables R K : Type.
Variable eqb leb : K -> K -> bool.
Variable key : R -> option K.
Hypothesis eqb_eq : forall a b, eqb a b = true <-> a = b.

Lemma insert_sorted_perm (x : K) (l : list K) :
  Permutation (insert_sorted leb x l) (x :: l).
Proof.
  induction l as [|y l IH]; simpl; [reflexivity|].
  destruct (leb x y); [reflexivity|].
  rewrite IH. apply perm_swap.
Qed.

Lemma sort_perm (l : list K) : Permutation (sort leb l) l.
Proof.
  induction l as [|x l IH]; simpl; [reflexivity|].
  rewrite insert_sorted_perm. now constructor.
Qed.

Lemma unique_in (k : K) (l : list K) : In k (unique eqb l) <-> In k l.
Proof.
  induction l as [|x l IH]; simpl; [tauto|].
  rewrite filter_In, IH. split.
  - intros [H|[H _]]; auto.
  - intros [H|H]; auto.
    destruct (eqb x k) eqn:E.
    + left. now apply eqb_eq.
    + right. auto.
Qed.

Lemma unique_nodup (l : list K) : NoDup (unique eqb l).
Proof.
  induction l as [|x l IH]; simpl; constructor.
  - rewrite filter_In. intros [_ H].
    assert (E : eqb x x = true) by now apply eqb_eq.
    rewrite E in H; discriminate.
  - now apply NoDup_filter.
Qed.

Lemma list_sum_cons (a : nat) (l : list nat) :
  list_sum (a :: l) = (a + list_sum l)%nat.
Proof. reflexivity. Qed.

Lemma list_sum_map_add (A : Type) (f g : A -> nat) (l : list A) :
  list_sum (map (fun a => (f a + g a)%nat) l)
  = (list_sum (map f l) + list_sum (map g l))%nat.
Proof.
  induction l as [|a l IH]; [reflexivity|].
  cbn [map]. rewrite !list_sum_cons, IH. lia.
Qed.

Lemma sum_indicator (u : list K) (x : K) :
  NoDup u -> In x u ->
  list_sum (map (fun k => if eqb k x then 1%nat else 0%nat) u) = 1%nat.
Proof.
  induction 1 as [|y u Hy Hu IH]; intros Hin; [contradiction|].
  cbn [map]. rewrite list_sum_cons. destruct Hin as [->|Hin].
  - assert (E : eqb x x = true) by now apply eqb_eq.
    rewrite E.
    assert (Z : list_sum (map (fun k => if eqb k x then 1%nat else 0%nat) u) = 0%nat).
    { clear IH Hu. induction u as [|z u IHu]; [reflexivity|].
      cbn [map]. rewrite list_sum_cons. destruct (eqb z x) eqn:Ez.
      - apply eqb_eq in Ez; subst. exfalso; apply Hy; now left.
      - apply IHu. intros H; apply Hy; now right. }
    rewrite Z; reflexivity.
  - destruct (eqb y x) eqn:Ey.
    + apply eqb_eq in Ey; subst. contradiction.
    + now rewrite (IH Hin).
Qed.

(** Over a duplicate-free list of keys that covers every key present, the
    group sizes add up to the number of rows that have a key. *)
Lemma group_sizes_sum (u : list K) (df : list R) :
  NoDup u -> (forall k, In k (present_keys key df) -> In k u) ->
  list_sum (map (fun k => List.length (group eqb key df k)) u)
  = List.length (present_keys key df).
Proof.
  intros Hu. induction df as [|r df IH]; intros Hcover.
  - clear Hcover. induction u as [|k u IHu]; [reflexivity|].
    cbn [map]. rewrite list_sum_cons. rewrite IHu; [reflexivity|]. now inversion Hu.
  - unfold group, present_keys in *. cbn [filter flat_map] in *.
    destruct (key r) as [k0|].
    + rewrite (map_ext _ (fun k => ((if eqb k k0 then 1 else 0)
                 + List.length (filter (fun r0 => match key r0 with
                                                  | Some k' => eqb k k'
                                                  | None => false
                                                  end) df))%nat)).
      * rewrite list_sum_map_add, sum_indicator; auto.
        -- rewrite IH; [reflexivity|]. intros k Hk. apply Hcover.
           cbn [app]. now right.
        -- apply Hcover. cbn [app]. now left.
      * intros k. destruct (eqb k k0); reflexivity.
    + apply IH. exact Hcover.
Qed.

Lemma groupby_sizes_sum (df : list R) :
  list_sum (map (fun kg : K * list R => List.length (snd kg))
                (groupby eqb leb key df))
  = List.length (present_keys key df).
Proof.
  unfold groupby. rewrite map_map. cbn [snd].
  apply group_sizes_sum.
  - apply (Permutation_NoDup (l := unique eqb (present_keys key df))).
    + symmetry; apply sort_perm.
    + apply unique_nodup.
  - intros k Hk. apply (Permutation_in (l := unique eqb (present_keys key df))).
    + symmetry; apply sort_perm.
    + now apply unique_in.
Qed.

Lemma present_keys_length (df : list R) :
  List.length (present_keys key df)
  = List.length (filter (fun r => match key r with Some _ => true | None => false end) df).
Proof.
  unfold present_keys. induction df as [|r df IH]; [reflexivity|].
  cbn [flat_map filter]. destruct (key r); cbn [app List.length]; now rewrite IH.
Qed.

Lemma group_incl (df : list R) (k : K) (r : R) : In r (group eqb key df k) -> In r df.
Proof. unfold group. rewrite filter_In. tauto. Qed.

Lemma groupby_incl (df : list R) (kg : K * list R) (r : R) :
  In kg (groupby eqb leb key df) -> In r (snd kg) -> In r df.
Proof.
  unfold groupby. rewrite in_map_iff. intros (k & <- & _). apply group_incl.
Qed.

End GroupCounts.

Lemma count_no_missing (A : Type) (f : A -> float) (g : list A) :
  (forall r, In r g -> isna (f r) = false) ->
  count (map f g) = List.length g.
Proof.
  unfold count, dropna_values. induction g as [|r g IH]; intros H; [reflexivity|].
  cbn [map filter]. rewrite (H r (or_introl eq_refl)). cbn [negb List.length].
  rewrite IH; [reflexivity|]. intros r' Hr'. apply H. now right.
Qed.

Lemma key2_eqb_eq (a b : string * string) : key2_eqb a b = true <-> a = b.
Proof.
  unfold key2_eqb, pair_eqb. destruct a as [a1 a2], b as [b1 b2]; cbn [fst snd].
  rewrite andb_true_iff, !String.eqb_eq. split.
  - intros [-> ->]; reflexivity.
  - intros E; inversion E; auto.
Qed.

Lemma list_sum_map_ext_in (A : Type) (f g : A -> nat) (l : list A) :
  (forall a, In a l -> f a = g a) -> list_sum (map f l) = list_sum (map g l).
Proof.
  intros H. f_equal. now apply map_ext_in.
Qed.

Lemma charging_rows_keys parse w w' df :
  ChargingPatterns.load_and_prepare_data parse w = (w', inr df) ->
  forall r : ChargingPatterns.Row, In r df ->
    isna (Percentage_Charged r) = false /\
    match by_user_day r with Some _ => true | None => false end = has_keys r /\
    match by_user_time r with Some _ => true | None => false end = has_keys r.
Proof.
  intros H r Hr. run_loader H. in_frame Hr.
  apply andb_prop in Hr0 as [Hlo _].
  split; [exact (proj2 (fle_true_notna _ _ Hlo))|].
  unfold by_user_day, by_user_time, has_keys, both.
  cbn [Day_of_Week Time_of_Day charged ChargingPatterns.session].
  destruct (User_Type _); [|split; reflexivity].
  destruct (Charging_Start_Time _) as [t|]; [|split; reflexivity].
  cbn [dt_day_name option_map dt_hour]. rewrite time_of_day_cut. split; reflexivity.
Qed.

Lemma group_counts_sum (leb : string * string -> string * string -> bool)
      (key : ChargingPatterns.Row -> option (string * string))
      (mean median : list float -> float) (round : nat -> float -> float)
      (df : list ChargingPatterns.Row) :
  (forall r : ChargingPatterns.Row, In r df ->
     isna (Percentage_Charged r) = false /\
     match key r with Some _ => true | None => false end = has_keys r) ->
  list_sum (map (fun e : (string * string) * GroupPattern => g_count (snd e))
                (map (fun kg => (fst kg, group_pattern mean median round (snd kg)))
                     (groupby key2_eqb leb key df)))
  = List.length (filter has_keys df).
Proof.
  intros H. rewrite map_map. cbn [snd group_pattern g_count].
  rewrite (list_sum_map_ext_in _ (fun kg : (string * string) * list ChargingPatterns.Row =>
                                    List.length (snd kg))).
  - rewrite (@groupby_sizes_sum _ _ key2_eqb leb key key2_eqb_eq), present_keys_length.
    f_equal. apply filter_ext_in. intros r Hr. exact (proj2 (H r Hr)).
  - intros kg Hkg. apply count_no_missing. intros r Hr.
    exact (proj1 (H r (@groupby_incl _ _ key2_eqb leb key df kg r Hkg Hr))).
Qed.

(** C8 (amended). For the user type x day of week and user type x time of
    day groupings, the per-group counts sum to the number of cleaned records
    that have both a user type and a start timestamp (a record missing either
    belongs to no group); they sum to the total exactly when no record lacks
    them.  The aggregation leaves the interpreter state as it found it.  The
    user-type grouping reports means, medians and deviations, no counts. *)
Theorem group_counts_cover_keyed_records :
  forall (mean median std : list float -> float) (round : nat -> float -> float)
         parse w w' cleaned,
    ChargingPatterns.load_and_prepare_data parse w = (w', inr cleaned) ->
    forall (p : Proc ChargingPatterns.Row) (df : ref) cols,
      nth_error (heap p) df = Some {| rows := cleaned; added := cols |} ->
      exists pats,
        analyze_charging_behavior mean median std round df p = (p, inr pats) /\
        list_sum (map (fun e : (string * string) * GroupPattern => g_count (snd e))
                      (day_patterns pats))
        = List.length (filter has_keys cleaned) /\
        list_sum (map (fun e : (string * string) * GroupPattern => g_count (snd e))
                      (time_patterns pats))
        = List.length (filter has_keys cleaned) /\
        ((forall r, In r cleaned -> has_keys r = true) ->
         List.length (filter has_keys cleaned) = List.length cleaned).
Proof.
  intros mean median std round parse w w' cleaned H p df cols Hdf.
  pose proof (charging_rows_keys parse w H) as K.
  unfold analyze_charging_behavior, bind, get. rewrite Hdf. cbv beta iota.
  unfold ret. eexists; split; [reflexivity|].
  cbn [day_patterns time_patterns rows]. split; [|split].
  - apply group_counts_sum. intros r Hr. destruct (K r Hr) as (A & B & _); auto.
  - apply group_counts_sum. intros r Hr. destruct (K r Hr) as (A & _ & C); auto.
  - intros All. f_equal. clear H K Hdf. induction cleaned as [|r l IH]; [reflexivity|].
    cbn [filter]. rewrite (All r (or_introl eq_refl)). f_equal. apply IH.
    intros r' Hr'. apply All. now right.
Qed.

Lemma group_counts_cover_keyed_records_witness :
  let m := ChargingPatterns.load_and_prepare_data iso_datetime in
  let w := world_of missing_user_rows in
  let p := proc_of (loaded m w) in
  let nan := fun _ : list float => NaN in
  let id := fun (_ : nat) (x : float) => x in
  m w = (fst (m w), inr (loaded m w)) /\
  nth_error (heap p) 0%nat = Some {| rows := loaded m w; added := [] |} /\
  exists pats,
    analyze_charging_behavior nan nan nan id 0%nat p = (p, inr pats) /\
    list_sum (map (fun e : (string * string) * GroupPattern => g_count (snd e))
                  (day_patterns pats))
    = List.length (filter has_keys (loaded m w)).
Proof.
  intros m w p nan id.
  assert (H : m w = (fst (m w), inr (loaded m w))) by (vm_compute; reflexivity).
  assert (Hp : nth_error (heap p) 0%nat = Some {| rows := loaded m w; added := [] |})
    by reflexivity.
  split; [exact H|]. split; [exact Hp|].
  destruct (group_counts_cover_keyed_records nan nan nan id iso_datetime w H p 0%nat Hp)
    as (pats & Hrun & Hday & _).
  exists pats; auto.
Defined.

(** C8 as stated fails: of two cleaned records, the one without a user type
    is in no group, so the day-of-week counts sum to 1, not 2. *)
Lemma group_counts_miss_record_without_user_type :
  ~ (forall (mean median std : list float -> float) (round : nat -> float -> float)
            p' pats,
       let cleaned := loaded (ChargingPatterns.load_and_prepare_data iso_datetime)
                             (world_of missing_user_rows) in
       analyze_charging_behavior mean median std round 0%nat (proc_of cleaned)
       = (p', inr pats) ->
       list_sum (map (fun e : (string * string) * GroupPattern => g_count (snd e))
                     (day_patterns pats))
       = List.length cleaned).
Proof.
  intros C.
  pose (nan := fun _ : list float => NaN).
  pose (id := fun (_ : nat) (x : float) => x).
  specialize (C nan nan nan id _ _ eq_refl).
  vm_compute in C. discriminate C.
Qed.

(** ** Frames passed to the analysis functions *)

Lemma bind_ok (S A B : Type) (m : M S A) (k : A -> M S B) (w w' : S) (a : A) :
  m w = (w', inr a) -> bind m k w = k a w'.
Proof. unfold bind; now intros ->. Qed.

Lemma bind_raise (S A B : Type) (m : M S A) (k : A -> M S B) (w w' : S) (e : exn) :
  m w = (w', inl e) -> bind m k w = (w', inl e).
Proof. intros H. unfold bind. now rewrite H. Qed.

Lemma bind_lift (S A B : Type) (r : exn + A) (k : A -> M S B) (w : S) :
  bind (lift r) k w = match r with inl e => (w, inl e) | inr a => k a w end.
Proof. unfold bind, lift. destruct r; reflexivity. Qed.

Lemma update_nth_last (A : Type) (h : list A) (x y : A) :
  update_nth (List.length h) x (h ++ [y]) = h ++ [x].
Proof. induction h as [|z h IH]; simpl; [reflexivity|]. now rewrite IH. Qed.

Lemma nth_error_last (A : Type) (h : list A) (y : A) :
  nth_error (h ++ [y]) (List.length h) = Some y.
Proof. induction h as [|z h IH]; simpl; auto. Qed.

Section StoreSteps.
Variable R : Type.

Lemma copy_run (p : Proc R) (df : ref) (f : Frame R) :
  nth_error (heap p) df = Some f ->
  copy df p = ({| console := console p; heap := heap p ++ [f] |},
               inr (List.length (heap p))).
Proof. intros H. unfold copy, bind, get. now rewrite H. Qed.

Lemma get_last (c : list Line) (h : list (Frame R)) (f : Frame R) :
  get (List.length h) {| console := c; heap := h ++ [f] |}
  = ({| console := c; heap := h ++ [f] |}, inr f).
Proof. unfold get. cbn [heap]. now rewrite nth_error_last. Qed.

Lemma setitem_last (c : list Line) (h : list (Frame R)) (f : Frame R)
      (name : string) (col : Column) :
  setitem (List.length h) name col {| console := c; heap := h ++ [f] |}
  = ({| console := c;
        heap := h ++ [ {| rows := rows f;
                          added := set_column name col (added f) |} ] |},
     inr tt).
Proof.
  unfold setitem. rewrite (bind_ok _ _ _ (get_last c h f)).
  cbn [heap console]. now rewrite update_nth_last.
Qed.

Lemma setitem_run (p : Proc R) (df : ref) (f : Frame R) (name : string) (col : Column) :
  nth_error (heap p) df = Some f ->
  setitem df name col p
  = ({| console := console p;
        heap := update_nth df {| rows := rows f;
                                 added := set_column name col (added f) |} (heap p) |},
     inr tt).
Proof. intros H. unfold setitem, bind, get. now rewrite H. Qed.

Lemma get_run (p : Proc R) (df : ref) (f : Frame R) :
  nth_error (heap p) df = Some f -> get df p = (p, inr f).
Proof. intros H. unfold get. now rewrite H. Qed.

Lemma nth_error_update_nth (h : list (Frame R)) (i : nat) (x f : Frame R) :
  nth_error h i = Some f -> nth_error (update_nth i x h) i = Some x.
Proof.
  revert i; induction h as [|y h IH]; intros [|i] H; simpl in *;
    try discriminate; auto.
Qed.

End StoreSteps.

Section ChargingTests.
Variable AnovaTable : Type.
Variable anova_lm_ols : string -> Frame ChargingPatterns.Row -> exn + AnovaTable.
Variable chi2_contingency : list (list nat) -> exn + (float * float).
Variable ttest_ind : list float -> list float -> exn + (float * float).

(** Steps [perform_statistical_tests] through the copy and the four column
    assignments, all of which act on the copy. *)
Ltac enter_tests Hdf :=
  unfold ChargingPatterns.perform_statistical_tests;
  rewrite (bind_ok _ _ _ (copy_run _ _ Hdf)); cbv beta;
  rewrite (bind_ok _ _ _ (get_last _ _ _)); cbv beta;
  repeat (rewrite (bind_ok _ _ _ (setitem_last _ _ _ _ _)); cbv beta);
  rewrite (bind_ok _ _ _ (get_last _ _ _)); cbv beta;
  cbn [rows].

(** The statistical tests of the charging module work on a copy: whatever
    they return or raise, every frame that existed before the call is left
    as it was. *)
Lemma charging_tests_leave_frames (p : Proc ChargingPatterns.Row) (df : ref)
      (f : Frame ChargingPatterns.Row) :
  nth_error (heap p) df = Some f ->
  exists f',
    fst (ChargingPatterns.perform_statistical_tests
           anova_lm_ols chi2_contingency ttest_ind df p)
    = {| console := console p; heap := heap p ++ [f'] |}.
Proof.
  intros Hdf. enter_tests Hdf. eexists.
  rewrite bind_lift. destruct (anova_lm_ols _ _); [reflexivity|].
  rewrite bind_lift. destruct (anova_lm_ols _ _); [reflexivity|].
  rewrite bind_lift. destruct (chi2_contingency _); [reflexivity|].
  rewrite bind_lift. destruct (item _ 0); [reflexivity|].
  rewrite bind_lift. destruct (item _ 1); [reflexivity|].
  rewrite bind_lift. destruct (ttest_ind _ _); reflexivity.
Qed.

(** C3 fails on the t-test of the charging module.  When the frame holds
    fewer than two user-type levels, [perform_statistical_tests] raises
    (at [user_types[1]] if no earlier test raised): there is no degraded
    NaN result. *)
Theorem t_test_raises_below_two_user_types :
  forall (p : Proc ChargingPatterns.Row) (df : ref) (f : Frame ChargingPatterns.Row),
    nth_error (heap p) df = Some f ->
    (List.length (unique (option_eqb String.eqb)
                         (map (fun r : ChargingPatterns.Row => User_Type r) (rows f)))
     < 2)%nat ->
    exists e,
      snd (ChargingPatterns.perform_statistical_tests
             anova_lm_ols chi2_contingency ttest_ind df p) = inl e.
Proof.
  intros p df f Hdf Hlt. enter_tests Hdf.
  rewrite bind_lift. destruct (anova_lm_ols _ _); [eexists; reflexivity|].
  rewrite bind_lift. destruct (anova_lm_ols _ _); [eexists; reflexivity|].
  rewrite bind_lift. destruct (chi2_contingency _); [eexists; reflexivity|].
  rewrite bind_lift. destruct (item _ 0); [eexists; reflexivity|].
  rewrite bind_lift. unfold item.
  destruct (nth_error _ 1) eqn:E; [|eexists; reflexivity].
  assert (N : nth_error
                (unique (option_eqb String.eqb)
                        (map (fun r : ChargingPatterns.Row => User_Type r) (rows f)))
                1 <> None) by (rewrite E; discriminate).
  apply nth_error_Some in N. lia.
Qed.

End ChargingTests.

Lemma t_test_raises_below_two_user_types_witness :
  let cleaned := loaded (ChargingPatterns.load_and_prepare_data iso_datetime)
                        (world_of one_user_rows) in
  let p := proc_of cleaned in
  let anova := fun (_ : string) (_ : Frame ChargingPatterns.Row) => inr tt : exn + unit in
  let chi := fun _ : list (list nat) => inr (NaN, NaN) : exn + (float * float) in
  let ttest := fun _ _ : list float => inr (NaN, NaN) : exn + (float * float) in
  nth_error (heap p) 0%nat = Some {| rows := cleaned; added := [] |} /\
  (List.length (unique (option_eqb String.eqb)
                       (map (fun r : ChargingPatterns.Row => User_Type r) cleaned))
   < 2)%nat /\
  exists e,
    snd (ChargingPatterns.perform_statistical_tests anova chi ttest 0%nat p) = inl e.
Proof.
  intros cleaned p anova chi ttest.
  assert (Hp : nth_error (heap p) 0%nat = Some {| rows := cleaned; added := [] |})
    by reflexivity.
  assert (Hlt : (List.length (unique (option_eqb String.eqb)
                   (map (fun r : ChargingPatterns.Row => User_Type r)
                        (rows {| rows := cleaned; added := [] |}))) < 2)%nat)
    by (vm_compute; lia).
  split; [exact Hp|]. split; [exact Hlt|].
  exact (t_test_raises_below_two_user_types anova chi ttest p 0%nat Hp Hlt).
Defined.

Section TemperatureTests.
Variables mean std min max median : list float -> float.
Variable round : nat -> float -> float.
Variable corr : list float -> list float -> float.
Variable f_oneway : list (list float) -> exn + (float * float).

(** The one-way ANOVA of the temperature module is guarded: with fewer than
    two temperature ranges it returns NaN for both statistics, prints a
    warning, raises nothing and leaves every frame as it was. *)
Lemma temperature_anova_degrades (p : Proc TemperatureAnalysis.Row) (df : ref)
      (f : Frame TemperatureAnalysis.Row) :
  nth_error (heap p) df = Some f ->
  (List.length (unique (option_eqb String.eqb) (map temp_range (rows f))) < 2)%nat ->
  exists r,
    analyze_temperature_impact mean std min max median round corr f_oneway df p
    = ({| console := console p ++
            [[Lit (String.append nl
                     "Warning: Insufficient temperature ranges for comparison")]];
          heap := heap p |}, inr r) /\
    f_statistic r = NaN /\ p_value r = NaN.
Proof.
  intros Hdf Hlt. unfold analyze_temperature_impact.
  rewrite (bind_ok _ _ _ (get_run _ _ Hdf)); cbv beta zeta.
  destruct (Nat.leb_spec 2 (List.length
              (unique (option_eqb String.eqb) (map temp_range (rows f))))) as [Hge|_];
    [lia|].
  eexists. split; [reflexivity|]. split; reflexivity.
Qed.

End TemperatureTests.

(** ** Frames without a group *)

Lemma present_keys_nil (R K : Type) (key : R -> option K) (df : list R) :
  present_keys key df = [] <-> forall r, In r df -> key r = None.
Proof.
  unfold present_keys. induction df as [|x df IH]; cbn [flat_map].
  - split; [intros _ r []|reflexivity].
  - split.
    + intros E. apply app_eq_nil in E as [Ex E]. intros r [<-|Hr].
      * destruct (key x); [discriminate Ex|reflexivity].
      * now apply (proj1 IH E).
    + intros H. rewrite (H x (or_introl eq_refl)). cbn [app].
      apply IH. intros r Hr. apply H. now right.
Qed.

Lemma groupby_nil (R K : Type) (eqb leb : K -> K -> bool) (key : R -> option K)
      (df : list R) :
  groupby eqb leb key df = [] <-> forall r, In r df -> key r = None.
Proof.
  rewrite <- present_keys_nil. unfold groupby. split.
  - intros E. apply map_eq_nil in E.
    pose proof (sort_perm leb (unique eqb (present_keys key df))) as P.
    rewrite E in P. apply Permutation_nil in P.
    destruct (present_keys key df); [reflexivity|discriminate P].
  - intros ->. reflexivity.
Qed.

Lemma groupby_some (R K : Type) (eqb leb : K -> K -> bool) (key : R -> option K)
      (df : list R) (r : R) (k : K) :
  In r df -> key r = Some k -> groupby eqb leb key df <> [].
Proof.
  intros Hr Hk E. rewrite groupby_nil in E. rewrite (E r Hr) in Hk. discriminate Hk.
Qed.

Section EvFrames.
Variables mean std : list float -> float.
Variable round : nat -> float -> float.
Variable corr : list float -> list float -> float.

(** [analyze_age_efficiency_relationship] assigns the capacity group onto
    the frame it was handed, not onto a copy. *)
Lemma analyze_age_efficiency_assigns (p : Proc EvAnalysis.Row) (df : ref)
      (f : Frame EvAnalysis.Row) (col : list (option string)) :
  nth_error (heap p) df = Some f ->
  groupby String.eqb String.leb by_model (rows f) <> [] ->
  qcut4 (map battery (rows f)) capacity_labels = Some col ->
  fst (analyze_age_efficiency_relationship mean std round corr df p)
  = {| console := console p;
       heap := update_nth df
                 {| rows := rows f;
                    added := set_column "battery_capacity_group" (LabelCol col)
                                        (added f) |}
                 (heap p) |}.
Proof.
  intros Hdf Hg Hq. unfold analyze_age_efficiency_relationship.
  rewrite (bind_ok _ _ _ (get_run _ _ Hdf)); cbv beta zeta.
  rewrite bind_lift.
  destruct (groupby String.eqb String.leb by_model (rows f)) as [|g gs];
    [contradiction|].
  rewrite Hq, bind_lift.
  rewrite (bind_ok _ _ _ (setitem_run _ _ _ _ Hdf)); cbv beta.
  erewrite bind_ok; [reflexivity|].
  apply get_run. cbn [heap]. eapply nth_error_update_nth; eassumption.
Qed.

(** With no vehicle model in the frame it raises before any assignment. *)
Lemma analyze_age_efficiency_no_model (p : Proc EvAnalysis.Row) (df : ref)
      (f : Frame EvAnalysis.Row) :
  nth_error (heap p) df = Some f ->
  groupby String.eqb String.leb by_model (rows f) = [] ->
  analyze_age_efficiency_relationship mean std round corr df p
  = (p, inl (ValueError "Length mismatch")).
Proof.
  intros Hdf Hg. unfold analyze_age_efficiency_relationship.
  rewrite (bind_ok _ _ _ (get_run _ _ Hdf)); cbv beta zeta.
  rewrite bind_lift, Hg. reflexivity.
Qed.

(** C1 fails on the ev module.  Handed the cleaned frame of four sessions
    (capacities 50, 60, 70, 80), [analyze_age_efficiency_relationship]
    leaves that same frame with a new column ['battery_capacity_group']. *)
Theorem analyze_age_efficiency_adds_column :
  let cleaned := loaded (EvAnalysis.load_and_prepare_data iso_datetime)
                        (world_of capacity_rows) in
  let p := proc_of cleaned in
  nth_error (heap p) 0%nat = Some {| rows := cleaned; added := [] |} /\
  nth_error
    (heap (fst (analyze_age_efficiency_relationship mean std round corr 0%nat p)))
    0%nat
  = Some {| rows := cleaned;
            added := [("battery_capacity_group",
                       LabelCol [Some "Q1"; Some "Q2"; Some "Q3"; Some "Q4"])] |}.
Proof.
  intros cleaned p. split; [reflexivity|].
  rewrite (@analyze_age_efficiency_assigns p 0%nat {| rows := cleaned; added := [] |}
             [Some "Q1"; Some "Q2"; Some "Q3"; Some "Q4"]).
  - reflexivity.
  - reflexivity.
  - vm_compute; discriminate.
  - vm_compute; reflexivity.
Qed.

End EvFrames.

(** ** Counts reported by the temperature loader *)

Lemma length_assign (A B C : Type) (f : A -> B -> C) (df : list A) (col : list B) :
  List.length df = List.length col -> List.length (assign f df col) = List.length df.
Proof.
  intros L. unfold assign. rewrite length_map, length_combine, <- L.
  apply Nat.min_id.
Qed.

Lemma length_filter_assign (A B C : Type) (f : A -> B -> C)
      (p : C -> bool) (q : A -> bool) (df : list A) (col : list B) :
  (forall a b, p (f a b) = q a) -> List.length df = List.length col ->
  List.length (filter p (assign f df col)) = List.length (filter q df).
Proof.
  intros Hp L.
  rewrite <- (length_map (fun _ => tt) (filter p (assign f df col))).
  rewrite (map_filter_assign f (fun _ => tt) (fun _ => tt) p q df col); auto.
  apply length_map.
Qed.

(** X17. The temperature loader counts rows before and after each of its
    two filters, so the numbers it prints are the numbers of rows removed:
    the first is the number of rows not at or below 40 degrees, and the two
    together with the cleaned rows account for every row of the file. *)
Lemma temperature_reported_counts_are_exact :
  forall parse w w' df,
    load_and_clean_temperature_data parse w = (w', inr df) ->
    exists raw removed_temp removed_efficiency lower upper,
      lookup_file csv_path (files w) = Some raw /\
      stdout w' = stdout w ++
        [ [Lit (String.append nl "Temperature Outlier Removal Statistics:")];
          [Lit "Removed "; Int removed_temp;
           Lit " records with temperature above 40°C"];
          [Lit (String.append nl "Energy Efficiency Outlier Removal Statistics:")];
          [Lit "Removed "; Int removed_efficiency;
           Lit " records outside the range: "; Fixed3 lower; Lit " to ";
           Fixed3 upper; Lit " kWh/km"] ] /\
      removed_temp
      = List.length (filter (fun x : RawRow =>
                               negb (Temperature x <=? of_Z 40)%float) raw) /\
      (removed_temp + removed_efficiency + List.length df)%nat = List.length raw.
Proof.
  intros parse w w' df H. run_loader H. column_lengths L.
  exists raw. do 4 eexists. split; [reflexivity|]. split; [|split].
  - unfold write, World_Console; cbn [stdout files].
    rewrite <- !app_assoc. reflexivity.
  - rewrite length_filter_complement.
    apply (length_filter_assign _ _ (fun x : RawRow => negb (Temperature x <=? of_Z 40)%float));
      auto.
  - rewrite length_map, length_assign by exact L.
    match goal with
    | |- context [filter ?q (filter ?p0 ?l)] =>
        pose proof (filter_length_le q (filter p0 l));
        pose proof (filter_length_le p0 l);
        pose proof (length_assign
                      (fun (r : RawRow) (t : datetime * datetime) =>
                         mkMeasured r (fst t) (snd t) (Temperature r)
                                    (Energy_Consumed r / Distance_Driven r)%float)
                      raw (combine st en) L) as La;
        rewrite La in *
    end.
    lia.
Qed.

(* ================================================================== *)
(** * Further properties of the loaders *)




Lemma to_datetime_error parse col e :
  to_datetime parse col = inl e ->
  exists s, e = DateParseError s /\ In (Some s) col /\ parse s = None.
Proof.
  induction col as [|c col IH]; simpl; intros H; [discriminate|].
  destruct c as [s|].
  - destruct (parse s) as [t|] eqn:Hs.
    + destruct (to_datetime parse col) as [e'|ts']; [|discriminate].
      inversion H; subst. destruct (IH eq_refl) as (s' & -> & Hin & Hp).
      exists s'; auto.
    + inversion H; subst. exists s; auto.
  - destruct (to_datetime parse col) as [e'|ts']; [|discriminate].
    inversion H; subst. destruct (IH eq_refl) as (s' & -> & Hin & Hp).
    exists s'; auto.
Qed.

Lemma to_datetime_total parse col :
  (forall s, In (Some s) col -> parse s <> None) ->
  exists ts, to_datetime parse col = inr ts.
Proof.
  intros H. destruct (to_datetime parse col) as [e|ts] eqn:E; [|eauto].
  destruct (to_datetime_error _ _ E) as (s & _ & Hin & Hp).
  now destruct (H s Hin).
Qed.









(** ** How the loaders fail, and when they return *)

(** Unfolds one run of a loader that raised. *)
Ltac failed_loader H :=
  unfold ChargingPatterns.load_and_prepare_data,
         EvAnalysis.load_and_prepare_data,
         load_and_clean_temperature_data,
         bind, read_csv, lift, print, ret in H;
  match type of H with
  | context [lookup_file ?p ?fs] =>
      let raw := fresh "raw" in
      let Hraw := fresh "Hraw" in
      destruct (lookup_file p fs) as [raw|] eqn:Hraw;
      [ match type of H with
        | context [to_datetime ?parse (map (@Charging_Start_Time _) ?raw)] =>
            let Hst := fresh "Hst" in
            let Hen := fresh "Hen" in
            destruct (to_datetime parse (map (@Charging_Start_Time _) raw))
              as [?|?] eqn:Hst;
            [ | destruct (to_datetime parse (map (@Charging_End_Time _) raw))
                  as [?|?] eqn:Hen; [ | cbv beta zeta in H; discriminate H ] ]
        end
      | ]
  end;
  inversion H; subst; clear H.

Lemma load_failure_cases parse w (raw : list RawRow) :
  (lookup_file csv_path (files w) = None ->
   load_failure parse w (FileNotFoundError csv_path)) /\
  (forall e, lookup_file csv_path (files w) = Some raw ->
             to_datetime parse (map (@Charging_Start_Time _) raw) = inl e ->
             load_failure parse w e) /\
  (forall e, lookup_file csv_path (files w) = Some raw ->
             to_datetime parse (map (@Charging_End_Time _) raw) = inl e ->
             load_failure parse w e).
Proof.
  unfold load_failure. repeat split.
  - intros H. left; auto.
  - intros e Hraw H. destruct (to_datetime_error _ _ H) as (s & -> & Hin & Hp).
    right. exists raw, s. auto.
  - intros e Hraw H. destruct (to_datetime_error _ _ H) as (s & -> & Hin & Hp).
    right. exists raw, s. auto.
Qed.

(** X4. A loader raises only because the file is missing
    ([FileNotFoundError]) or because a non-empty start or end time cell does
    not parse (the parser's error on that cell); in both cases it has printed
    nothing and changed nothing. *)
Theorem loaders_raise_before_printing :
  forall parse w w' e,
    (ChargingPatterns.load_and_prepare_data parse w = (w', inl e) ->
     w' = w /\ load_failure parse w e) /\
    (EvAnalysis.load_and_prepare_data parse w = (w', inl e) ->
     w' = w /\ load_failure parse w e) /\
    (load_and_clean_temperature_data parse w = (w', inl e) ->
     w' = w /\ load_failure parse w e).
Proof.
  intros parse w w' e. split; [|split]; intros H; failed_loader H;
    (split; [reflexivity|]);
    first [ now apply (proj1 (load_failure_cases parse w' []))
          | eapply (proj1 (proj2 (load_failure_cases parse w' _))); eassumption
          | eapply (proj2 (proj2 (load_failure_cases parse w' _))); eassumption ].
Qed.

Lemma loaders_raise_before_printing_witness :
  let w := {| files := []; stdout := [[Lit "earlier output"]] |} in
  ChargingPatterns.load_and_prepare_data iso_datetime w
  = (w, inl (FileNotFoundError csv_path)) /\
  load_failure iso_datetime w (FileNotFoundError csv_path).
Proof.
  intros w.
  assert (H : ChargingPatterns.load_and_prepare_data iso_datetime w
              = (w, inl (FileNotFoundError csv_path))) by reflexivity.
  split; [exact H|].
  exact (proj2 (proj1 (loaders_raise_before_printing iso_datetime w w
                         (FileNotFoundError csv_path)) H)).
Defined.

(** X5. When the file exists and every non-empty start and end time cell
    parses, each of the three loaders returns a frame (it does not raise),
    leaves the files as they were, and has printed its report: three lines
    for the charging loader, five for the ev loader, four for the
    temperature loader. *)
Theorem loaders_return_when_times_parse :
  forall parse w raw,
    lookup_file csv_path (files w) = Some raw ->
    (forall s, In (Some s) (map (@Charging_Start_Time _) raw) \/
               In (Some s) (map (@Charging_End_Time _) raw) -> parse s <> None) ->
    (exists w' df, ChargingPatterns.load_and_prepare_data parse w = (w', inr df) /\
                   files w' = files w /\
                   List.length (stdout w') = (List.length (stdout w) + 3)%nat) /\
    (exists w' df, EvAnalysis.load_and_prepare_data parse w = (w', inr df) /\
                   files w' = files w /\
                   List.length (stdout w') = (List.length (stdout w) + 5)%nat) /\
    (exists w' df, load_and_clean_temperature_data parse w = (w', inr df) /\
                   files w' = files w /\
                   List.length (stdout w') = (List.length (stdout w) + 4)%nat).
Proof.
  intros parse w raw Hraw Hp.
  destruct (to_datetime_total parse (map (@Charging_Start_Time _) raw)) as [st Hst];
    [intros s Hs; apply Hp; now left|].
  destruct (to_datetime_total parse (map (@Charging_End_Time _) raw)) as [en Hen];
    [intros s Hs; apply Hp; now right|].
  repeat split.
  all: unfold ChargingPatterns.load_and_prepare_data,
         EvAnalysis.load_and_prepare_data,
         load_and_clean_temperature_data,
         bind, read_csv, lift, print, ret;
    rewrite Hraw, Hst, Hen; cbv beta zeta;
    do 2 eexists; split; [reflexivity|];
    unfold write, World_Console; cbn [files stdout]; split; [reflexivity|];
    rewrite !length_app; cbn [List.length]; lia.
Qed.

Lemma loaders_return_when_times_parse_witness :
  let w := world_of soc_rows in
  lookup_file csv_path (files w) = Some soc_rows /\
  exists w' df, ChargingPatterns.load_and_prepare_data iso_datetime w = (w', inr df) /\
                files w' = files w.
Proof.
  intros w.
  assert (Hraw : lookup_file csv_path (files w) = Some soc_rows) by reflexivity.
  split; [exact Hraw|].
  destruct (loaders_return_when_times_parse iso_datetime w Hraw) as ((w' & df & H & F & _) & _).
  - intros s [Hs|Hs]; vm_compute in Hs;
      repeat (destruct Hs as [Hs|Hs]; [injection Hs as <-; vm_compute; discriminate|]);
      contradiction.
  - exists w', df; auto.
Defined.

(** ** Temperature buckets *)

Lemma flt_of_Z_Fin (k : Z) (q : Q) :
  (of_Z k <? Fin q)%float = negb (Qle_bool q (inject_Z k)).
Proof. reflexivity. Qed.

Lemma Qle_bool_false (a b : Q) : Qle_bool a b = false <-> (b < a)%Q.
Proof.
  split; intros H.
  - apply Qnot_le_lt. intros L. apply Qle_bool_iff in L. congruence.
  - destruct (Qle_bool a b) eqn:E; [|reflexivity].
    apply Qle_bool_iff in E. exfalso. apply (Qlt_not_le _ _ H E).
Qed.

Lemma temp_range_cut (q : Q) :
  (q <= 40)%Q ->
  cut_value temp_bins temp_labels false (Fin q)
  = Some (if Qle_bool q 0 then "Below 0°C"
          else if Qle_bool q 10 then "0-10°C"
          else if Qle_bool q 20 then "10-20°C"
          else if Qle_bool q 30 then "20-30°C" else "30-40°C").
Proof.
  intros H40.
  unfold cut_value, searchsorted_left, temp_bins, temp_labels.
  cbn [isna andb filter].
  rewrite !flt_of_Z_Fin.
  change (NInf <? Fin q)%float with true. cbv iota.
  change (inject_Z 0) with 0%Q. change (inject_Z 10) with 10%Q.
  change (inject_Z 20) with 20%Q. change (inject_Z 30) with 30%Q.
  change (inject_Z 40) with 40%Q.
  assert (E40 : Qle_bool q 40 = true) by now apply Qle_bool_iff.
  rewrite E40. cbn [negb].
  destruct (Qle_bool q 0) eqn:E0, (Qle_bool q 10) eqn:E10,
           (Qle_bool q 20) eqn:E20, (Qle_bool q 30) eqn:E30;
    try reflexivity; exfalso;
    repeat match goal with
           | H : Qle_bool _ _ = true |- _ => apply Qle_bool_iff in H
           | H : Qle_bool _ _ = false |- _ => apply Qle_bool_false in H
           end; lra.
Qed.

(** X6. Every record of the cleaned temperature dataset has a temperature
    of at most 40 (never NaN, never +inf).  With a finite temperature t its
    range label comes from right-closed bins: 'Below 0°C' iff t <= 0,
    '0-10°C' iff 0 < t <= 10, '10-20°C' iff 10 < t <= 20, '20-30°C' iff
    20 < t <= 30, '30-40°C' iff 30 < t; only a temperature of -inf is left
    without a label. *)
Theorem temperature_ranges_right_closed :
  forall parse w w' df,
    load_and_clean_temperature_data parse w = (w', inr df) ->
    forall r : TemperatureAnalysis.Row, In r df ->
      match ambient_temp r with
      | Fin t =>
          (t <= 40)%Q /\
          (temp_range r = Some "Below 0°C" <-> (t <= 0)%Q) /\
          (temp_range r = Some "0-10°C" <-> (0 < t <= 10)%Q) /\
          (temp_range r = Some "10-20°C" <-> (10 < t <= 20)%Q) /\
          (temp_range r = Some "20-30°C" <-> (20 < t <= 30)%Q) /\
          (temp_range r = Some "30-40°C" <-> (30 < t)%Q)
      | NInf => temp_range r = None
      | _ => False
      end.
Proof.
  intros parse w w' df H r Hr. run_loader H. in_frame Hr.
  cbn [temp_range measured]. clear Hr0.
  destruct (ambient_temp _) as [t| | |]; try discriminate; [|reflexivity].
  apply fle_Fin in Hr1. change (inject_Z 40) with 40%Q in Hr1.
  rewrite (temp_range_cut Hr1). split; [exact Hr1|].
  destruct (Qle_bool t 0) eqn:E0; [|destruct (Qle_bool t 10) eqn:E10;
    [|destruct (Qle_bool t 20) eqn:E20; [|destruct (Qle_bool t 30) eqn:E30]]];
    repeat match goal with
           | H : Qle_bool _ _ = true |- _ => apply Qle_bool_iff in H
           | H : Qle_bool _ _ = false |- _ => apply Qle_bool_false in H
           end;
    repeat split; intros; try discriminate; try reflexivity; try lra.
Qed.

Lemma temperature_ranges_right_closed_witness :
  let m := load_and_clean_temperature_data iso_datetime in
  let w := world_of capacity_rows in
  m w = (fst (m w), inr (loaded m w)) /\
  forall r : TemperatureAnalysis.Row, In r (loaded m w) ->
    ambient_temp r <> NaN.
Proof.
  intros m w.
  assert (H : m w = (fst (m w), inr (loaded m w))) by (vm_compute; reflexivity).
  split; [exact H|]. intros r Hr E.
  pose proof (temperature_ranges_right_closed iso_datetime w H r Hr) as P.
  rewrite E in P. exact P.
Defined.

(* ================================================================== *)
(** * Further properties of the analysis functions *)

Lemma get_state (R : Type) (df : ref) (p : Proc R) : fst (get df p) = p.
Proof. unfold get. destruct (nth_error (heap p) df); reflexivity. Qed.

Lemma bind_get (R A : Type) (k : Frame R -> M (Proc R) A) (df : ref) (p : Proc R) :
  bind (get df) k p
  = match nth_error (heap p) df with
    | Some f => k f p
    | None => (p, inl (LibraryError "dangling reference"))
    end.
Proof. unfold bind, get. destruct (nth_error (heap p) df); reflexivity. Qed.

(** X7. The aggregation, descriptive-statistics and chart functions of the
    charging module and the statistical tests of the ev module leave the
    interpreter state exactly as they found it, and the temperature analysis
    leaves every frame as it found it, on every path (result or exception)
    and whatever the statistics backends return. *)
Theorem read_only_analysis_functions :
  forall (mean median std min max : list float -> float)
         (round : nat -> float -> float)
         (corr : list float -> list float -> float)
         (Summary Pivot : Type)
         (ols_summary : list (float * float) -> list float -> exn + Summary)
         (f_oneway : list (list float) -> exn + (float * float))
         (pivot_table : list ChargingPatterns.Row -> string -> string -> string -> Pivot)
         (df : ref),
    (forall p, fst (analyze_charging_behavior mean median std round df p) = p) /\
    (forall p, fst (calculate_descriptive_stats mean median std min max round df p) = p) /\
    (forall p, fst (create_pattern_visualizations pivot_table df p) = p) /\
    (forall p, fst (EvAnalysis.perform_statistical_tests ols_summary f_oneway df p) = p) /\
    (forall p, heap (fst (analyze_temperature_impact
                            mean std min max median round corr f_oneway df p))
               = heap p).
Proof.
  intros. repeat split; intros p.
  - unfold analyze_charging_behavior. rewrite bind_get.
    destruct (nth_error (heap p) df); reflexivity.
  - unfold calculate_descriptive_stats. rewrite bind_get.
    destruct (nth_error (heap p) df) as [f|]; [|reflexivity].
    cbv zeta. rewrite bind_lift.
    destruct (groupby String.eqb String.leb by_user (rows f)); reflexivity.
  - unfold create_pattern_visualizations. rewrite bind_get.
    destruct (nth_error (heap p) df); reflexivity.
  - unfold EvAnalysis.perform_statistical_tests. rewrite bind_get.
    destruct (nth_error (heap p) df); [|reflexivity].
    cbv zeta. rewrite bind_lift. destruct (ols_summary _ _); [reflexivity|].
    rewrite bind_lift. destruct (f_oneway _); reflexivity.
  - unfold analyze_temperature_impact. rewrite bind_get.
    destruct (nth_error (heap p) df); [|reflexivity].
    cbv zeta. destruct (2 <=? _)%nat.
    + unfold bind at 1. rewrite bind_lift || unfold lift.
      destruct (f_oneway _); reflexivity.
    + reflexivity.
Qed.

Lemma nth_error_app_some (A : Type) (l l' : list A) (i : nat) (x : A) :
  nth_error l i = Some x -> nth_error (l ++ l') i = Some x.
Proof.
  intros H. rewrite nth_error_app1; [exact H|].
  apply nth_error_Some. rewrite H. discriminate.
Qed.

(** Steps the charging tests through the copy and the four assignments. *)
Ltac enter_charging_tests Hdf :=
  unfold ChargingPatterns.perform_statistical_tests;
  rewrite (bind_ok _ _ _ (copy_run _ _ Hdf)); cbv beta;
  rewrite (bind_ok _ _ _ (get_last _ _ _)); cbv beta;
  repeat (rewrite (bind_ok _ _ _ (setitem_last _ _ _ _ _)); cbv beta);
  rewrite (bind_ok _ _ _ (get_last _ _ _)); cbv beta;
  cbn [rows].

(** What is left to run once the copy is prepared: the library calls, none
    of which touches the state. *)
Ltac finish_charging_tests :=
  repeat (rewrite bind_lift;
          match goal with
          | |- context [match ?r with inl _ => _ | inr _ => _ end] => destruct r
          end;
          try reflexivity).

(** X8. The statistical tests of the charging module work on a copy:
    whatever they return or raise, standard output is untouched, every frame
    that existed before the call reads as before, and the heap has gained
    one object, the copy, which holds the rows of the original and the four
    renamed columns ([percentage_charged], [day_of_week], [time_of_day],
    [user_type]) assigned after the original's own. *)
Theorem charging_tests_work_on_a_copy :
  forall (AnovaTable : Type)
         (anova_lm_ols : string -> Frame ChargingPatterns.Row -> exn + AnovaTable)
         (chi2_contingency : list (list nat) -> exn + (float * float))
         (ttest_ind : list float -> list float -> exn + (float * float))
         (p : Proc ChargingPatterns.Row) (df : ref) (f : Frame ChargingPatterns.Row),
    nth_error (heap p) df = Some f ->
    let p' := fst (ChargingPatterns.perform_statistical_tests
                     anova_lm_ols chi2_contingency ttest_ind df p) in
    console p' = console p /\
    (forall i g, nth_error (heap p) i = Some g -> nth_error (heap p') i = Some g) /\
    heap p' = heap p ++
      [ {| rows := rows f;
           added :=
             set_column "user_type"
               (LabelCol (map (fun r : ChargingPatterns.Row => User_Type r) (rows f)))
               (set_column "time_of_day" (LabelCol (map Time_of_Day (rows f)))
                  (set_column "day_of_week" (LabelCol (map Day_of_Week (rows f)))
                     (set_column "percentage_charged"
                        (FloatCol (map (fun r : ChargingPatterns.Row =>
                                          Percentage_Charged r) (rows f)))
                        (added f)))) |} ].
Proof.
  intros AnovaTable anova_lm_ols chi2_contingency ttest_ind p df f Hdf p'.
  assert (E : p' = {| console := console p;
                      heap := heap p ++
      [ {| rows := rows f;
           added :=
             set_column "user_type"
               (LabelCol (map (fun r : ChargingPatterns.Row => User_Type r) (rows f)))
               (set_column "time_of_day" (LabelCol (map Time_of_Day (rows f)))
                  (set_column "day_of_week" (LabelCol (map Day_of_Week (rows f)))
                     (set_column "percentage_charged"
                        (FloatCol (map (fun r : ChargingPatterns.Row =>
                                          Percentage_Charged r) (rows f)))
                        (added f)))) |} ] |}).
  { subst p'. enter_charging_tests Hdf. finish_charging_tests. }
  rewrite E. cbn [console heap]. split; [reflexivity|]. split; [|reflexivity].
  intros i g Hi. now apply nth_error_app_some.
Qed.

Lemma charging_tests_work_on_a_copy_witness :
  let cleaned := loaded (ChargingPatterns.load_and_prepare_data iso_datetime)
                        (world_of soc_rows) in
  let p := proc_of cleaned in
  let anova := fun (_ : string) (_ : Frame ChargingPatterns.Row) => inr tt : exn + unit in
  let chi := fun _ : list (list nat) => inr (NaN, NaN) : exn + (float * float) in
  let ttest := fun _ _ : list float => inr (NaN, NaN) : exn + (float * float) in
  nth_error (heap p) 0%nat = Some {| rows := cleaned; added := [] |} /\
  nth_error (heap (fst (ChargingPatterns.perform_statistical_tests
                          anova chi ttest 0%nat p))) 0%nat
  = Some {| rows := cleaned; added := [] |}.
Proof.
  intros cleaned p anova chi ttest.
  assert (Hp : nth_error (heap p) 0%nat = Some {| rows := cleaned; added := [] |})
    by reflexivity.
  split; [exact Hp|].
  exact (proj1 (proj2 (charging_tests_work_on_a_copy anova chi ttest p 0%nat Hp))
               0%nat _ Hp).
Defined.

Lemma nth_error_update_nth_other (A : Type) (h : list A) (i j : nat) (x : A) :
  i <> j -> nth_error (update_nth j x h) i = nth_error h i.
Proof.
  revert i j; induction h as [|y h IH]; intros [|i] [|j] Hij; simpl;
    try reflexivity; try congruence.
  apply IH. congruence.
Qed.

(** X9. [analyze_age_efficiency_relationship] changes at most the frame it
    is handed.  When no row has a vehicle model (an empty frame is one such
    case) it raises [ValueError] and has changed nothing.  Otherwise, when
    the quartile edges of battery capacity are not strictly increasing,
    [pd.qcut] raises [ValueError] and nothing has changed; and when they
    are, it returns, and the frame has gained exactly the column
    [battery_capacity_group] holding the quartile labels.  Every other frame
    reads as before. *)
Theorem analyze_age_efficiency_frame_effect :
  forall (mean std : list float -> float) (round : nat -> float -> float)
         (corr : list float -> list float -> float)
         (p : Proc EvAnalysis.Row) (df : ref) (f : Frame EvAnalysis.Row),
    nth_error (heap p) df = Some f ->
    let run := analyze_age_efficiency_relationship mean std round corr df p in
    ((forall r : EvAnalysis.Row, In r (rows f) -> Vehicle_Model r = None) ->
     exists msg, run = (p, inl (ValueError msg))) /\
    (forall (r : EvAnalysis.Row) (model : string),
       In r (rows f) -> Vehicle_Model r = Some model ->
       (qcut4 (map battery (rows f)) capacity_labels = None ->
        run = (p, inl (ValueError "Bin edges must be unique"))) /\
       (forall col, qcut4 (map battery (rows f)) capacity_labels = Some col ->
          (exists result, snd run = inr result) /\
          console (fst run) = console p /\
          nth_error (heap (fst run)) df
          = Some {| rows := rows f;
                    added := set_column "battery_capacity_group" (LabelCol col)
                                        (added f) |} /\
          forall i, i <> df -> nth_error (heap (fst run)) i = nth_error (heap p) i)).
Proof.
  intros mean std round corr p df f Hdf run. split.
  - intros Hnone. subst run. unfold analyze_age_efficiency_relationship.
    rewrite (bind_ok _ _ _ (get_run _ _ Hdf)); cbv beta zeta.
    rewrite bind_lift.
    rewrite (proj2 (groupby_nil String.eqb String.leb by_model (rows f)) Hnone).
    eexists. reflexivity.
  - intros r model Hr Hmodel.
    pose proof (groupby_some String.eqb String.leb by_model (rows f) r Hr Hmodel)
      as Hg.
    split.
    + intros Hq. subst run. unfold analyze_age_efficiency_relationship.
      rewrite (bind_ok _ _ _ (get_run _ _ Hdf)); cbv beta zeta.
      rewrite bind_lift.
      destruct (groupby String.eqb String.leb by_model (rows f)) as [|g gs];
        [contradiction|].
      rewrite Hq, bind_lift. reflexivity.
    + intros col Hq.
      pose proof (analyze_age_efficiency_assigns mean std round corr p df Hdf Hg Hq)
        as E.
      fold run in E. split.
      * subst run. unfold analyze_age_efficiency_relationship.
        rewrite (bind_ok _ _ _ (get_run _ _ Hdf)); cbv beta zeta.
        rewrite bind_lift.
        destruct (groupby String.eqb String.leb by_model (rows f)) as [|g gs];
          [contradiction|].
        rewrite Hq, bind_lift.
        rewrite (bind_ok _ _ _ (setitem_run _ _ _ _ Hdf)); cbv beta.
        erewrite bind_ok; [eexists; reflexivity|].
        apply get_run. cbn [heap]. eapply nth_error_update_nth; eassumption.
      * rewrite E. cbn [console heap]. split; [reflexivity|]. split.
        -- eapply nth_error_update_nth; eassumption.
        -- intros i Hi. now apply nth_error_update_nth_other.
Qed.

Lemma analyze_age_efficiency_frame_effect_witness :
  let nan := fun _ : list float => NaN in
  let id := fun (_ : nat) (x : float) => x in
  let corr := fun _ _ : list float => NaN in
  let cleaned := loaded (EvAnalysis.load_and_prepare_data iso_datetime)
                        (world_of capacity_rows) in
  let p := proc_of cleaned in
  let empty := proc_of (@nil EvAnalysis.Row) in
  nth_error (heap p) 0%nat = Some {| rows := cleaned; added := [] |} /\
  (exists result,
     snd (analyze_age_efficiency_relationship nan nan id corr 0%nat p) = inr result) /\
  exists msg,
    analyze_age_efficiency_relationship nan nan id corr 0%nat empty
    = (empty, inl (ValueError msg)).
Proof.
  intros nan id corr cleaned p empty.
  assert (Hp : nth_error (heap p) 0%nat = Some {| rows := cleaned; added := [] |})
    by reflexivity.
  assert (He : nth_error (heap empty) 0%nat = Some {| rows := []; added := [] |})
    by reflexivity.
  split; [exact Hp|]. split.
  - assert (Hr : exists r : EvAnalysis.Row,
               In r cleaned /\ Vehicle_Model r = Some "Tesla Model 3")
      by (vm_compute; eexists; split; [left; reflexivity|reflexivity]).
    destruct Hr as (r & Hr & Hm).
    refine (proj1 (proj2 (proj2 (analyze_age_efficiency_frame_effect
                                   nan nan id corr p 0%nat Hp) r _ Hr Hm)
                         [Some "Q1"; Some "Q2"; Some "Q3"; Some "Q4"] _)).
    vm_compute; reflexivity.
  - apply (proj1 (analyze_age_efficiency_frame_effect nan nan id corr empty 0%nat He)).
    intros r [].
Defined.

(** X10. The one-way ANOVA of [analyze_temperature_impact] is guarded by the
    number of distinct temperature ranges in the frame.  Below two, the
    function returns NaN for the F statistic and the p-value, prints one
    warning line and does not call the test.  From two on, its outcome is
    the test's: the exception the test raises, or a result carrying the
    test's two numbers, with nothing printed. *)
Theorem temperature_anova_is_guarded :
  forall (mean std min max median : list float -> float)
         (round : nat -> float -> float)
         (corr : list float -> list float -> float)
         (f_oneway : list (list float) -> exn + (float * float))
         (p : Proc TemperatureAnalysis.Row) (df : ref)
         (f : Frame TemperatureAnalysis.Row),
    nth_error (heap p) df = Some f ->
    let run := analyze_temperature_impact mean std min max median round corr
                                          f_oneway df p in
    let ranges := unique (option_eqb String.eqb) (map temp_range (rows f)) in
    let groups := map (fun kg : string * list TemperatureAnalysis.Row =>
                         map (fun r : TemperatureAnalysis.Row => energy_efficiency r)
                             (snd kg))
                      (groupby String.eqb (category_leb temp_labels) temp_range
                               (rows f)) in
    ((List.length ranges < 2)%nat ->
     exists r,
       run = ({| console := console p ++
                   [[Lit (String.append nl
                      "Warning: Insufficient temperature ranges for comparison")]];
                 heap := heap p |}, inr r) /\
       f_statistic r = NaN /\ p_value r = NaN) /\
    ((2 <= List.length ranges)%nat ->
     match f_oneway groups with
     | inl e => run = (p, inl e)
     | inr fp => exists r, run = (p, inr r) /\
                           f_statistic r = fst fp /\ p_value r = snd fp
     end).
Proof.
  intros mean std min max median round corr f_oneway p df f Hdf run ranges groups.
  split.
  - intros Hlt.
    exact (temperature_anova_degrades mean std min max median round corr f_oneway
                                      p df Hdf Hlt).
  - intros Hge. subst run. unfold analyze_temperature_impact.
    rewrite (bind_ok _ _ _ (get_run _ _ Hdf)); cbv beta zeta.
    fold ranges.
    destruct (Nat.leb_spec 2 (List.length ranges)) as [_|Hlt]; [|lia].
    rewrite bind_lift. fold groups.
    destruct (f_oneway groups) as [e|fp]; [reflexivity|].
    eexists. split; [reflexivity|]. split; reflexivity.
Qed.

Lemma temperature_anova_is_guarded_witness :
  let nan := fun _ : list float => NaN in
  let id := fun (_ : nat) (x : float) => x in
  let corr := fun _ _ : list float => NaN in
  let test := fun _ : list (list float) => inr (Fin 1, Fin 1) : exn + (float * float) in
  let cleaned := loaded (load_and_clean_temperature_data iso_datetime)
                        (world_of capacity_rows) in
  let p := proc_of cleaned in
  nth_error (heap p) 0%nat = Some {| rows := cleaned; added := [] |} /\
  (List.length (unique (option_eqb String.eqb) (map temp_range cleaned)) < 2)%nat /\
  exists r,
    snd (analyze_temperature_impact nan nan nan nan nan id corr test 0%nat p) = inr r /\
    p_value r = NaN.
Proof.
  intros nan id corr test cleaned p.
  assert (Hp : nth_error (heap p) 0%nat = Some {| rows := cleaned; added := [] |})
    by reflexivity.
  assert (Hlt : (List.length (unique (option_eqb String.eqb)
                   (map temp_range (rows {| rows := cleaned; added := [] |}))) < 2)%nat)
    by (vm_compute; lia).
  split; [exact Hp|]. split; [exact Hlt|].
  destruct (proj1 (temperature_anova_is_guarded nan nan nan nan nan id corr test
                     p 0%nat Hp) Hlt) as (r & Hr & _ & Hpv).
  exists r. split; [now rewrite Hr|exact Hpv].
Defined.

(** ** Insights *)

Lemma fle_trans (a b c : float) :
  (a <=? b)%float = true -> (b <=? c)%float = true -> (a <=? c)%float = true.
Proof.
  destruct a as [x| | |], b as [y| | |], c as [z| | |]; simpl; intros H1 H2;
    try discriminate; try reflexivity.
  apply Qle_bool_iff in H1. apply Qle_bool_iff in H2. apply Qle_bool_iff.
  now apply Qle_trans with y.
Qed.

Lemma flt_false_fle (a b : float) :
  isna a = false -> isna b = false ->
  (a <? b)%float = false -> (b <=? a)%float = true.
Proof.
  unfold flt. destruct a, b; simpl; intros Ha Hb H; try discriminate;
    try reflexivity; now apply negb_false_iff in H.
Qed.

Lemma flt_true_fle (a b : float) : (a <? b)%float = true -> (a <=? b)%float = true.
Proof.
  unfold flt. destruct a as [x| | |], b as [y| | |]; simpl; intros H;
    try discriminate; try reflexivity.
  apply negb_true_iff in H. apply Qle_bool_false in H.
  apply Qle_bool_iff. now apply Qlt_le_weak.
Qed.

Lemma fle_refl (a : float) : isna a = false -> (a <=? a)%float = true.
Proof.
  destruct a; simpl; intros H; try discriminate; try reflexivity.
  apply Qle_bool_iff. apply Qle_refl.
Qed.

Lemma argmin_least (s : list (string * float)) (best : string * float) :
  isna (snd best) = false ->
  (forall kv, In kv s -> isna (snd kv) = false) ->
  In (argmin best s) (best :: s) /\
  forall kv, In kv (best :: s) -> (snd (argmin best s) <=? snd kv)%float = true.
Proof.
  revert best. induction s as [|kv s IH]; intros best Hb Hs.
  - cbn [argmin]. split; [now left|]. intros kv [<-|[]]. now apply fle_refl.
  - cbn [argmin].
    assert (Hkv : isna (snd kv) = false) by (apply Hs; now left).
    assert (Hs' : forall kv', In kv' s -> isna (snd kv') = false)
      by (intros kv' H'; apply Hs; now right).
    destruct (snd kv <? snd best)%float eqn:E.
    + destruct (IH kv Hkv Hs') as [Hin Hle]. split.
      * right. exact Hin.
      * intros kv' [<-|[<-|H']].
        -- apply fle_trans with (snd kv); [apply Hle; now left|now apply flt_true_fle].
        -- apply Hle; now left.
        -- apply Hle; now right.
    + destruct (IH best Hb Hs') as [Hin Hle]. split.
      * destruct Hin as [Hin|Hin]; [now left|right; now right].
      * intros kv' [<-|[<-|H']].
        -- apply Hle; now left.
        -- apply fle_trans with (snd best); [apply Hle; now left|].
           now apply flt_false_fle.
        -- apply Hle; now right.
Qed.

Lemma idxmin_least (s : list (string * float)) (best : string) :
  idxmin s = inr best ->
  exists v, In (best, v) s /\ isna v = false /\
            forall l' v', In (l', v') s -> isna v' = false -> (v <=? v')%float = true.
Proof.
  unfold idxmin.
  destruct (filter (fun kv : string * float => negb (isna (snd kv))) s)
    as [|kv s'] eqn:F; [discriminate|].
  intros H. injection H as <-.
  assert (Hall : forall x, In x (kv :: s') -> In x s /\ isna (snd x) = false).
  { intros x Hx. rewrite <- F in Hx. apply filter_In in Hx as [Hx Hn].
    split; [exact Hx|]. now apply negb_true_iff in Hn. }
  destruct (argmin_least s' kv) as [Hin Hle].
  - apply Hall; now left.
  - intros x Hx. apply Hall; now right.
  - destruct (argmin kv s') as [b v] eqn:A. cbn [fst snd] in *.
    exists v. destruct (Hall _ Hin) as [Hs Hn]. repeat split; auto.
    intros l' v' Hin' Hn'. apply (Hle (l', v')).
    rewrite <- F. apply filter_In. split; [exact Hin'|].
    cbn [snd]. now rewrite Hn'.
Qed.

(** X11. [generate_insights] raises [ValueError] on an analysis with no
    per-range efficiency at all (the index of the minimum of an empty
    series).  When it returns, it names as most efficient a range whose mean
    efficiency is present and no larger than any other present one, and it
    calls the impact significant exactly when the p-value is below 0.05: a
    NaN p-value reads "not statistically significant". *)
Theorem insights_follow_the_analysis :
  forall r : Impact,
    (temp_efficiency r = [] ->
     generate_insights r
     = inl (ValueError "attempt to get argmin of an empty sequence")) /\
    (forall ins, generate_insights r = inr ins ->
       (statistical_significance ins = significant
        <-> (p_value r <? Fin (1 # 20))%float = true) /\
       (isna (p_value r) = true -> statistical_significance ins = not_significant) /\
       exists best v,
         temp_range_impact ins
         = [Str "Most efficient temperature range: "; Label best] /\
         In (best, v) (temp_efficiency r) /\ isna v = false /\
         forall l' v', In (l', v') (temp_efficiency r) -> isna v' = false ->
                       (v <=? v')%float = true).
Proof.
  intros r. split.
  - intros E. unfold generate_insights. now rewrite E.
  - intros ins H. unfold generate_insights in H.
    destruct (idxmin (temp_efficiency r)) as [e|best] eqn:I; [discriminate|].
    injection H as <-. cbn [statistical_significance temp_range_impact].
    split; [|split].
    + destruct (p_value r <? Fin (1 # 20))%float; split; intros H;
        try reflexivity; discriminate.
    + intros Hn. destruct (p_value r); try discriminate. reflexivity.
    + destruct (idxmin_least _ I) as (v & Hin & Hv & Hle).
      exists best, v. auto.
Qed.

Lemma insights_follow_the_analysis_witness :
  let r := mkImpact (Fin (1 # 2))
                    [("0-10°C", Fin 3); ("10-20°C", Fin 2); ("20-30°C", Fin 2)]
                    (Fin 5, Fin 25, Fin 15) NaN NaN
                    (TemperatureAnalysis.mkStats 0 NaN NaN NaN NaN NaN NaN NaN,
                     TemperatureAnalysis.mkStats 0 NaN NaN NaN NaN NaN NaN NaN) in
  exists ins, generate_insights r = inr ins /\
              statistical_significance ins = not_significant /\
              temp_range_impact ins
              = [Str "Most efficient temperature range: "; Label "10-20°C"].
Proof.
  intros r.
  assert (H : generate_insights r
              = inr (match generate_insights r with
                     | inr i => i
                     | inl _ => mkInsights [] [] [] ""
                     end)) by (vm_compute; reflexivity).
  eexists. split; [exact H|]. split.
  - exact (proj1 (proj2 (proj2 (insights_follow_the_analysis r) _ H)) eq_refl).
  - vm_compute; reflexivity.
Defined.

(** X12. With fewer than two temperature ranges in the frame, the analysis
    returns, and the insights drawn from its result never call the impact
    significant: either [generate_insights] says "not statistically
    significant", or it raises.  On an empty frame it raises [ValueError]:
    the analysis degrades, the insights do not. *)
Theorem insights_after_too_few_ranges :
  forall (mean std min max median : list float -> float)
         (round : nat -> float -> float)
         (corr : list float -> list float -> float)
         (f_oneway : list (list float) -> exn + (float * float))
         (p : Proc TemperatureAnalysis.Row) (df : ref)
         (f : Frame TemperatureAnalysis.Row),
    nth_error (heap p) df = Some f ->
    (List.length (unique (option_eqb String.eqb) (map temp_range (rows f))) < 2)%nat ->
    exists r,
      snd (analyze_temperature_impact mean std min max median round corr
                                      f_oneway df p) = inr r /\
      (forall ins, generate_insights r = inr ins ->
                   statistical_significance ins = not_significant) /\
      (rows f = [] ->
       generate_insights r
       = inl (ValueError "attempt to get argmin of an empty sequence")).
Proof.
  intros mean std min max median round corr f_oneway p df f Hdf Hlt.
  unfold analyze_temperature_impact.
  rewrite (bind_ok _ _ _ (get_run _ _ Hdf)); cbv beta zeta.
  destruct (Nat.leb_spec 2 (List.length
              (unique (option_eqb String.eqb) (map temp_range (rows f))))) as [Hge|_];
    [lia|].
  eexists. split; [reflexivity|]. split.
  - intros ins H. unfold generate_insights in H.
    destruct (idxmin _); [discriminate|]. injection H as <-. reflexivity.
  - intros E. rewrite E. reflexivity.
Qed.

Lemma insights_after_too_few_ranges_witness :
  let nan := fun _ : list float => NaN in
  let id := fun (_ : nat) (x : float) => x in
  let corr := fun _ _ : list float => NaN in
  let test := fun _ : list (list float) => inr (Fin 1, Fin 1) : exn + (float * float) in
  let p := proc_of (@nil TemperatureAnalysis.Row) in
  nth_error (heap p) 0%nat = Some {| rows := []; added := [] |} /\
  exists r,
    snd (analyze_temperature_impact nan nan nan nan nan id corr test 0%nat p) = inr r /\
    generate_insights r
    = inl (ValueError "attempt to get argmin of an empty sequence").
Proof.
  intros nan id corr test p.
  assert (Hp : nth_error (heap p) 0%nat = Some {| rows := []; added := [] |})
    by reflexivity.
  split; [exact Hp|].
  destruct (insights_after_too_few_ranges nan nan nan nan nan id corr test p 0%nat Hp)
    as (r & Hr & _ & He).
  - cbn. lia.
  - exists r. split; [exact Hr|]. now apply He.
Defined.

(** ** Descriptive statistics and charts of the charging module *)

Lemma groupby_keys_nodup (R K : Type) (eqb leb : K -> K -> bool)
      (key : R -> option K) (df : list R) :
  (forall a b, eqb a b = true <-> a = b) ->
  NoDup (map fst (groupby eqb leb key df)).
Proof.
  intros Heq. unfold groupby. rewrite map_map. cbn [fst]. rewrite map_id.
  apply (Permutation_NoDup (l := unique eqb (present_keys key df))).
  - symmetry; apply sort_perm.
  - now apply unique_nodup.
Qed.

Lemma groupby_group_nonempty (R K : Type) (eqb leb : K -> K -> bool)
      (key : R -> option K) (df : list R) (kg : K * list R) :
  (forall a b, eqb a b = true <-> a = b) ->
  In kg (groupby eqb leb key df) -> (0 < List.length (snd kg))%nat.
Proof.
  intros Heq. unfold groupby. rewrite in_map_iff. intros (k & <- & Hk).
  apply (Permutation_in (l' := unique eqb (present_keys key df))) in Hk;
    [|apply sort_perm].
  apply (proj1 (@unique_in _ eqb leb Heq k _)) in Hk.
  unfold present_keys in Hk. apply in_flat_map in Hk as (r & Hr & Hk).
  cbn [snd]. unfold group.
  destruct (key r) as [k'|] eqn:E; [|contradiction].
  destruct Hk as [<-|[]].
  assert (Hin : In r (filter (fun r0 => match key r0 with
                                        | Some k'0 => eqb k' k'0
                                        | None => false
                                        end) df)).
  { apply filter_In. split; [exact Hr|]. rewrite E. now apply Heq. }
  destruct (filter _ df); [contradiction|]. cbn. lia.
Qed.

(** X13. The descriptive statistics of the charging module need a user
    type: when no row of the frame has one (an empty frame is one such
    case) the function raises [ValueError] and has changed nothing.
    Otherwise it returns; the overall count is the number of rows of the
    frame; the table by user type has one row per user type that occurs,
    each with a count of at least one, and its counts add up to the number
    of rows that have a user type: a row with an empty user type is counted
    overall and in no group. *)
Theorem descriptive_counts_by_user_type :
  forall (mean median std min max : list float -> float)
         (round : nat -> float -> float)
         (p : Proc ChargingPatterns.Row) (df : ref) (f : Frame ChargingPatterns.Row),
    nth_error (heap p) df = Some f ->
    let run := calculate_descriptive_stats mean median std min max round df p in
    ((forall r : ChargingPatterns.Row, In r (rows f) -> User_Type r = None) ->
     exists msg, run = (p, inl (ValueError msg))) /\
    (forall (r : ChargingPatterns.Row) (user : string),
       In r (rows f) -> User_Type r = Some user ->
       exists overall by_user_type,
         run = (p, inr (overall, by_user_type)) /\
         stat_count overall = List.length (rows f) /\
         NoDup (map fst by_user_type) /\
         (forall u s, In (u, s) by_user_type -> (1 <= stat_count s)%nat) /\
         list_sum (map (fun us : string * ChargingReport.Stats => stat_count (snd us))
                       by_user_type)
         = List.length (filter (fun r : ChargingPatterns.Row =>
                                  match User_Type r with
                                  | Some _ => true
                                  | None => false
                                  end)
                               (rows f))).
Proof.
  intros mean median std min max round p df f Hdf run. subst run.
  unfold calculate_descriptive_stats.
  rewrite (bind_ok _ _ _ (get_run _ _ Hdf)); cbv beta zeta.
  rewrite bind_lift. split.
  - intros Hnone.
    rewrite (proj2 (groupby_nil String.eqb String.leb by_user (rows f)) Hnone).
    eexists. reflexivity.
  - intros r user Hr Huser.
    pose proof (groupby_some String.eqb String.leb by_user (rows f) r Hr Huser) as Hg.
    destruct (groupby String.eqb String.leb by_user (rows f)) as [|g gs] eqn:E;
      [contradiction|].
    rewrite <- E. unfold ret.
    do 2 eexists. split; [reflexivity|].
    split; [|split; [|split]].
    + cbn [stat_count ChargingReport.get_stats]. apply length_map.
    + rewrite map_map. cbn [fst].
      apply (@groupby_keys_nodup _ _ String.eqb String.leb by_user (rows f)
                                 String.eqb_eq).
    + intros u s Hin. apply in_map_iff in Hin as (kg & Ekg & Hkg).
      injection Ekg as <- <-. cbn [stat_count ChargingReport.get_stats].
      rewrite length_map.
      apply (@groupby_group_nonempty _ _ String.eqb String.leb by_user (rows f) kg
               String.eqb_eq Hkg).
    + rewrite map_map. cbn [snd stat_count ChargingReport.get_stats].
      rewrite (list_sum_map_ext_in _ (fun kg : string * list ChargingPatterns.Row =>
                                        List.length (snd kg))).
      * rewrite (@groupby_sizes_sum _ _ String.eqb String.leb by_user String.eqb_eq).
        apply present_keys_length.
      * intros kg _. apply length_map.
Qed.

Lemma descriptive_counts_by_user_type_witness :
  let nan := fun _ : list float => NaN in
  let id := fun (_ : nat) (x : float) => x in
  let cleaned := loaded (ChargingPatterns.load_and_prepare_data iso_datetime)
                        (world_of missing_user_rows) in
  let p := proc_of cleaned in
  let empty := proc_of (@nil ChargingPatterns.Row) in
  nth_error (heap p) 0%nat = Some {| rows := cleaned; added := [] |} /\
  (exists overall by_user_type,
     calculate_descriptive_stats nan nan nan nan nan id 0%nat p
     = (p, inr (overall, by_user_type)) /\
     stat_count overall = 2%nat /\
     list_sum (map (fun us : string * ChargingReport.Stats => stat_count (snd us))
                   by_user_type) = 1%nat) /\
  exists msg,
    calculate_descriptive_stats nan nan nan nan nan id 0%nat empty
    = (empty, inl (ValueError msg)).
Proof.
  intros nan id cleaned p empty.
  assert (Hp : nth_error (heap p) 0%nat = Some {| rows := cleaned; added := [] |})
    by reflexivity.
  assert (He : nth_error (heap empty) 0%nat = Some {| rows := []; added := [] |})
    by reflexivity.
  split; [exact Hp|]. split.
  - assert (Hr : exists r : ChargingPatterns.Row,
               In r cleaned /\ User_Type r = Some "Commuter")
      by (vm_compute; eexists; split; [left; reflexivity|reflexivity]).
    destruct Hr as (r & Hr & Hu).
    destruct (proj2 (descriptive_counts_by_user_type nan nan nan nan nan id p 0%nat Hp)
                    r _ Hr Hu)
      as (overall & by_user & Hrun & Hc & _ & _ & Hsum).
    exists overall, by_user. split; [exact Hrun|]. split.
    + rewrite Hc. reflexivity.
    + rewrite Hsum. reflexivity.
  - apply (proj1 (descriptive_counts_by_user_type nan nan nan nan nan id empty 0%nat He)).
    intros r [].
Defined.

Section ChargingPipeline.
Variables mean median std min max : list float -> float.
Variable round : nat -> float -> float.
Variable Pivot : Type.
Variable pivot_table : list ChargingPatterns.Row -> string -> string -> string -> Pivot.
Variable parse : string -> option Timestamp.
Variable AnovaTable : Type.
Variable anova_lm_ols : string -> Frame ChargingPatterns.Row -> exn + AnovaTable.
Variable chi2_contingency : list (list nat) -> exn + (float * float).
Variable ttest_ind : list float -> list float -> exn + (float * float).

Lemma analyze_charging_behavior_run (p : Proc ChargingPatterns.Row) (df : ref)
      (f : Frame ChargingPatterns.Row) :
  nth_error (heap p) df = Some f ->
  exists pats, analyze_charging_behavior mean median std round df p = (p, inr pats).
Proof.
  intros Hdf. unfold analyze_charging_behavior.
  rewrite (bind_ok _ _ _ (get_run _ _ Hdf)). eexists. reflexivity.
Qed.

Lemma create_pattern_visualizations_run (p : Proc ChargingPatterns.Row) (df : ref)
      (f : Frame ChargingPatterns.Row) :
  nth_error (heap p) df = Some f ->
  exists vis, create_pattern_visualizations pivot_table df p = (p, inr vis).
Proof.
  intros Hdf. unfold create_pattern_visualizations.
  rewrite (bind_ok _ _ _ (get_run _ _ Hdf)). eexists. reflexivity.
Qed.

Lemma calculate_descriptive_stats_run (p : Proc ChargingPatterns.Row) (df : ref)
      (f : Frame ChargingPatterns.Row) :
  nth_error (heap p) df = Some f ->
  exists r, calculate_descriptive_stats mean median std min max round df p = (p, r).
Proof.
  intros Hdf. unfold calculate_descriptive_stats.
  rewrite (bind_ok _ _ _ (get_run _ _ Hdf)). cbv beta zeta. rewrite bind_lift.
  destruct (groupby String.eqb String.leb by_user (rows f)); eexists; reflexivity.
Qed.

Lemma charging_tests_state (p : Proc ChargingPatterns.Row) (df : ref)
      (f : Frame ChargingPatterns.Row) :
  nth_error (heap p) df = Some f ->
  exists copy,
    fst (ChargingPatterns.perform_statistical_tests
           anova_lm_ols chi2_contingency ttest_ind df p)
    = {| console := console p; heap := heap p ++ [copy] |}.
Proof.
  intros Hdf. enter_charging_tests Hdf. eexists. finish_charging_tests.
Qed.

Lemma charging_tests_raise (p : Proc ChargingPatterns.Row) (df : ref)
      (f : Frame ChargingPatterns.Row) :
  nth_error (heap p) df = Some f ->
  (List.length (unique (option_eqb String.eqb)
                       (map (fun r : ChargingPatterns.Row => User_Type r) (rows f)))
   < 2)%nat ->
  exists e,
    snd (ChargingPatterns.perform_statistical_tests
           anova_lm_ols chi2_contingency ttest_ind df p) = inl e.
Proof.
  intros Hdf Hlt. enter_charging_tests Hdf.
  rewrite bind_lift. destruct (anova_lm_ols _ _); [eexists; reflexivity|].
  rewrite bind_lift. destruct (anova_lm_ols _ _); [eexists; reflexivity|].
  rewrite bind_lift. destruct (chi2_contingency _); [eexists; reflexivity|].
  rewrite bind_lift. destruct (item _ 0); [eexists; reflexivity|].
  rewrite bind_lift. unfold item.
  destruct (nth_error _ 1) eqn:E; [|eexists; reflexivity].
  assert (N : nth_error
                (unique (option_eqb String.eqb)
                        (map (fun r : ChargingPatterns.Row => User_Type r) (rows f)))
                1 <> None) by (rewrite E; discriminate).
  apply nth_error_Some in N. lia.
Qed.

Lemma charging_analyses_run (p0 : Proc ChargingPatterns.Row) (df : ref)
      (f : Frame ChargingPatterns.Row) :
  nth_error (heap p0) df = Some f ->
  exists p1 r,
    (pattern_analysis <- analyze_charging_behavior mean median std round df ;;
     statistical_tests <- ChargingPatterns.perform_statistical_tests
                            anova_lm_ols chi2_contingency ttest_ind df ;;
     visualizations <- create_pattern_visualizations pivot_table df ;;
     descriptive_stats <- calculate_descriptive_stats mean median std min max round df ;;
     raw_data <- get df ;;
     ret (mkResults pattern_analysis statistical_tests visualizations
                    descriptive_stats raw_data)) p0 = (p1, r) /\
    console p1 = console p0 /\
    ((List.length (unique (option_eqb String.eqb)
                          (map (fun r : ChargingPatterns.Row => User_Type r) (rows f)))
      < 2)%nat -> exists e, r = inl e) /\
    (forall res, r = inr res -> raw_data res = f).
Proof.
  intros H0.
  destruct (analyze_charging_behavior_run p0 df H0) as [pats Hpats].
  rewrite (bind_ok _ _ _ Hpats).
  destruct (charging_tests_state p0 df H0) as [copy Hstate].
  unfold bind at 1.
  destruct (ChargingPatterns.perform_statistical_tests
              anova_lm_ols chi2_contingency ttest_ind df p0) as [p1 [e|tests]] eqn:T;
    cbn [fst snd] in Hstate; subst p1.
  - do 2 eexists. split; [reflexivity|]. split; [reflexivity|].
    split; [eauto|discriminate].
  - set (p1 := {| console := console p0; heap := heap p0 ++ [copy] |}).
    assert (H1 : nth_error (heap p1) df = Some f)
      by (cbn [heap p1]; now apply nth_error_app_some).
    destruct (create_pattern_visualizations_run p1 df H1) as [vis Hvis].
    rewrite (bind_ok _ _ _ Hvis).
    destruct (calculate_descriptive_stats_run p1 df H1) as [[e|ds] Hds].
    { rewrite (@bind_raise _ _ _ _ _ _ _ _ Hds).
      do 2 eexists. split; [reflexivity|]. split; [reflexivity|].
      split; [eauto|discriminate]. }
    rewrite (bind_ok _ _ _ Hds).
    rewrite (bind_ok _ _ _ (get_run _ _ H1)).
    unfold ret. do 2 eexists. split; [reflexivity|]. split; [reflexivity|].
    split.
    + intros Hlt. destruct (charging_tests_raise p0 df H0 Hlt) as [e He].
      rewrite T in He. discriminate He.
    + intros res E. injection E as <-. reflexivity.
Qed.

(** X14. [analyze_charging_patterns] is the loader followed by the four
    analyses of the frame it returned.  If the loader raises, so does the
    entry point, with the same exception.  Otherwise the analyses print
    nothing (the state left is the loader's); with fewer than two user-type
    levels in the cleaned dataset the entry point raises and returns no
    result at all; and when it returns, ['raw_data'] is the loader's frame
    with no column added. *)
Theorem charging_entry_point :
  forall w,
    match ChargingPatterns.load_and_prepare_data parse w with
    | (w1, inl e) =>
        analyze_charging_patterns mean median std min max round pivot_table parse
                                  anova_lm_ols chi2_contingency ttest_ind w
        = (w1, inl e)
    | (w1, inr cleaned) =>
        let run := analyze_charging_patterns mean median std min max round
                     pivot_table parse anova_lm_ols chi2_contingency ttest_ind w in
        fst run = w1 /\
        ((List.length (unique (option_eqb String.eqb)
                              (map (fun r : ChargingPatterns.Row => User_Type r)
                                   cleaned)) < 2)%nat ->
         exists e, snd run = inl e) /\
        (forall res, snd run = inr res ->
                     raw_data res = {| rows := cleaned; added := [] |})
    end.
Proof.
  intros w. unfold analyze_charging_patterns.
  destruct (ChargingPatterns.load_and_prepare_data parse w) as [w1 [e|cleaned]] eqn:L.
  { unfold bind at 1. now rewrite L. }
  cbv zeta. rewrite (bind_ok _ _ _ L). unfold with_frame.
  set (p0 := {| console := stdout w1;
                heap := [ {| rows := cleaned; added := [] |} ] |}).
  assert (H0 : nth_error (heap p0) 0 = Some {| rows := cleaned; added := [] |})
    by reflexivity.
  destruct (charging_analyses_run p0 0%nat H0) as (p1 & r & Hrun & Hc & Hlt & Hres).
  rewrite Hrun. cbv zeta. cbn [fst snd rows] in *. rewrite Hc.
  split; [destruct w1; reflexivity|]. split; assumption.
Qed.

End ChargingPipeline.

Lemma charging_entry_point_witness :
  let nan := fun _ : list float => NaN in
  let id := fun (_ : nat) (x : float) => x in
  let pivot := fun (_ : list ChargingPatterns.Row) (_ _ _ : string) => tt in
  let anova := fun (_ : string) (_ : Frame ChargingPatterns.Row) => inr tt : exn + unit in
  let chi := fun _ : list (list nat) => inr (NaN, NaN) : exn + (float * float) in
  let ttest := fun _ _ : list float => inr (NaN, NaN) : exn + (float * float) in
  exists e,
    snd (analyze_charging_patterns nan nan nan nan nan id pivot iso_datetime
                                   anova chi ttest (world_of one_user_rows)) = inl e.
Proof.
  intros nan id pivot anova chi ttest.
  pose proof (charging_entry_point nan nan nan nan nan id pivot iso_datetime
                                   anova chi ttest (world_of one_user_rows)) as P.
  set (m := ChargingPatterns.load_and_prepare_data iso_datetime) in P.
  assert (L : m (world_of one_user_rows)
              = (fst (m (world_of one_user_rows)),
                 inr (loaded m (world_of one_user_rows))))
    by (vm_compute; reflexivity).
  rewrite L in P. cbv beta iota zeta in P.
  destruct P as (_ & Q & _). apply Q. vm_compute. lia.
Defined.

Lemma option_string_eqb_eq (a b : option string) :
  option_eqb String.eqb a b = true <-> a = b.
Proof.
  destruct a as [a|], b as [b|]; cbn [option_eqb]; split; intros H;
    try discriminate; try reflexivity.
  - apply String.eqb_eq in H. now subst.
  - injection H as ->. apply String.eqb_refl.
Qed.

Lemma list_sum_zero (A : Type) (l : list A) :
  list_sum (map (fun _ : A => 0%nat) l) = 0%nat.
Proof. induction l as [|a l IH]; [reflexivity|]. cbn [map]. now rewrite list_sum_cons. Qed.

(** The rows a box trace of the state-of-charge plot is drawn from. *)
Lemma trace_sizes_sum (U : list (option string)) (df : list ChargingPatterns.Row) :
  NoDup U ->
  (forall r : ChargingPatterns.Row, In r df -> In (User_Type r) U) ->
  list_sum (map (fun u : option string =>
                   List.length
                     (filter (fun r : ChargingPatterns.Row =>
                                match User_Type r, u with
                                | Some a, Some b => String.eqb a b
                                | _, _ => false
                                end) df)) U)
  = List.length (filter (fun r : ChargingPatterns.Row =>
                           match User_Type r with Some _ => true | None => false end)
                        df).
Proof.
  intros HU. induction df as [|r df IH]; intros Hcover.
  - cbn [filter List.length]. apply list_sum_zero.
  - cbn [filter].
    assert (Hcover' : forall r0 : ChargingPatterns.Row, In r0 df -> In (User_Type r0) U)
      by (intros r0 H0; apply Hcover; now right).
    specialize (IH Hcover').
    pose proof (Hcover r (or_introl eq_refl)) as Hr.
    destruct (User_Type r) as [a|].
    + rewrite (map_ext _ (fun u : option string =>
                 ((if option_eqb String.eqb u (Some a) then 1 else 0)
                  + List.length
                      (filter (fun r0 : ChargingPatterns.Row =>
                                 match User_Type r0, u with
                                 | Some a0, Some b => String.eqb a0 b
                                 | _, _ => false
                                 end) df))%nat)).
      * rewrite list_sum_map_add, IH.
        rewrite (sum_indicator (option_eqb String.eqb) option_string_eqb_eq
                               (Some a) HU Hr).
        reflexivity.
      * intros [b|]; cbn [option_eqb]; [|reflexivity].
        rewrite (String.eqb_sym b a). destruct (String.eqb a b); reflexivity.
    + exact IH.
Qed.

(** X15. The charts of the charging module are built from the frame as it
    is: both box plots are handed the frame itself, and the state-of-charge
    plot has one box trace per distinct value of the user-type column in
    order of first appearance, a missing user type included.  The trace of a
    missing user type is empty, and the traces together hold one point per
    row that has a user type. *)
Theorem soc_plot_traces :
  forall (Pivot : Type)
         (pivot_table : list ChargingPatterns.Row -> string -> string -> string -> Pivot)
         (p : Proc ChargingPatterns.Row) (df : ref) (f : Frame ChargingPatterns.Row),
    nth_error (heap p) df = Some f ->
    exists vis traces,
      create_pattern_visualizations pivot_table df p = (p, inr vis) /\
      day_box vis = BoxPlot Pivot f "Day of Week" "Percentage Charged" "User Type"
                            "Charging Patterns by Day of Week" /\
      time_box vis = BoxPlot Pivot f "Time of Day" "Percentage Charged" "User Type"
                             "Charging Patterns by Time of Day" /\
      soc_plot vis = BoxTraces Pivot traces "Charging Percentage by User Type" /\
      map fst traces
      = unique (option_eqb String.eqb)
               (map (fun r : ChargingPatterns.Row => User_Type r) (rows f)) /\
      (forall y, In (None, y) traces -> y = []) /\
      list_sum (map (fun t : option string * list float => List.length (snd t)) traces)
      = List.length (filter (fun r : ChargingPatterns.Row =>
                               match User_Type r with Some _ => true | None => false end)
                            (rows f)).
Proof.
  intros Pivot pivot_table p df f Hdf.
  unfold create_pattern_visualizations.
  rewrite (bind_ok _ _ _ (get_run _ _ Hdf)); cbv beta zeta. unfold ret.
  do 2 eexists. split; [reflexivity|].
  cbn [day_box time_box soc_plot].
  split; [reflexivity|]. split; [reflexivity|]. split; [reflexivity|].
  split; [|split].
  - rewrite map_map. cbn [fst]. apply map_id.
  - intros y Hy. apply in_map_iff in Hy as (u & E & _).
    injection E as -> <-.
    induction (rows f) as [|r l IH]; [reflexivity|].
    cbn [filter]. destruct (User_Type r); exact IH.
  - rewrite map_map. cbn [snd].
    rewrite (map_ext _ (fun u : option string =>
               List.length
                 (filter (fun r : ChargingPatterns.Row =>
                            match User_Type r, u with
                            | Some a, Some b => String.eqb a b
                            | _, _ => false
                            end) (rows f)))) by (intros u; apply length_map).
    apply trace_sizes_sum.
    + apply unique_nodup. exact option_string_eqb_eq.
    + intros r Hr.
      apply (proj2 (@unique_in _ (option_eqb String.eqb) (option_eqb String.eqb)
                               option_string_eqb_eq (User_Type r) _)).
      apply in_map_iff. exists r. auto.
Qed.

Lemma soc_plot_traces_witness :
  let pivot := fun (_ : list ChargingPatterns.Row) (_ _ _ : string) => tt in
  let cleaned := loaded (ChargingPatterns.load_and_prepare_data iso_datetime)
                        (world_of missing_user_rows) in
  let p := proc_of cleaned in
  nth_error (heap p) 0%nat = Some {| rows := cleaned; added := [] |} /\
  exists vis traces,
    create_pattern_visualizations pivot 0%nat p = (p, inr vis) /\
    soc_plot vis = BoxTraces unit traces "Charging Percentage by User Type" /\
    map fst traces = [Some "Commuter"; None] /\
    list_sum (map (fun t : option string * list float => List.length (snd t)) traces)
    = 1%nat.
Proof.
  intros pivot cleaned p.
  assert (Hp : nth_error (heap p) 0%nat = Some {| rows := cleaned; added := [] |})
    by reflexivity.
  split; [exact Hp|].
  destruct (soc_plot_traces pivot p 0%nat Hp)
    as (vis & traces & Hrun & _ & _ & Hsoc & Hnames & _ & Hsum).
  exists vis, traces. split; [exact Hrun|]. split; [exact Hsoc|]. split.
  - rewrite Hnames. reflexivity.
  - rewrite Hsum. reflexivity.
Defined.

(** ** The ev analyses run one after the other *)

Lemma set_column_twice (name : string) (col : Column) (cols : list (string * Column)) :
  set_column name col (set_column name col cols) = set_column name col cols.
Proof.
  induction cols as [|[n c] cols IH]; cbn [set_column].
  - now rewrite String.eqb_refl.
  - destruct (String.eqb n name) eqn:E; cbn [set_column].
    + now rewrite String.eqb_refl.
    + now rewrite E, IH.
Qed.

Lemma update_nth_twice (A : Type) (i : nat) (x y : A) (h : list A) :
  update_nth i x (update_nth i y h) = update_nth i x h.
Proof.
  revert i; induction h as [|z h IH]; intros [|i]; cbn [update_nth];
    try reflexivity. now rewrite IH.
Qed.

Section EvSequence.
Variables mean std : list float -> float.
Variable round : nat -> float -> float.
Variable corr : list float -> list float -> float.
Variable Summary : Type.
Variable ols_summary : list (float * float) -> list float -> exn + Summary.
Variable f_oneway : list (list float) -> exn + (float * float).

Lemma ev_tests_read_rows (p q : Proc EvAnalysis.Row) (df : ref)
      (f g : Frame EvAnalysis.Row) :
  nth_error (heap p) df = Some f -> nth_error (heap q) df = Some g ->
  rows f = rows g ->
  snd (EvAnalysis.perform_statistical_tests ols_summary f_oneway df p)
  = snd (EvAnalysis.perform_statistical_tests ols_summary f_oneway df q).
Proof.
  intros Hp Hq E. unfold EvAnalysis.perform_statistical_tests.
  rewrite (bind_ok _ _ _ (get_run _ _ Hp)), (bind_ok _ _ _ (get_run _ _ Hq)).
  cbv beta zeta. rewrite E, !bind_lift.
  destruct (ols_summary _ _); [reflexivity|].
  rewrite !bind_lift. destruct (f_oneway _); reflexivity.
Qed.

(** X16. The column that [analyze_age_efficiency_relationship] leaves on
    the frame does not disturb what runs next on the same frame, as in the
    dashboard: [perform_statistical_tests] returns (or raises) the same
    after the call as before it, and a second call of
    [analyze_age_efficiency_relationship] overwrites the column instead of
    adding another, leaving the state the first call left. *)
Theorem ev_analyses_in_sequence :
  forall (p : Proc EvAnalysis.Row) (df : ref) (f : Frame EvAnalysis.Row)
         (col : list (option string)),
    nth_error (heap p) df = Some f ->
    qcut4 (map battery (rows f)) capacity_labels = Some col ->
    let p' := fst (analyze_age_efficiency_relationship mean std round corr df p) in
    snd (EvAnalysis.perform_statistical_tests ols_summary f_oneway df p')
    = snd (EvAnalysis.perform_statistical_tests ols_summary f_oneway df p) /\
    fst (analyze_age_efficiency_relationship mean std round corr df p') = p'.
Proof.
  intros p df f col Hdf Hq p'.
  assert (Hg : groupby String.eqb String.leb by_model (rows f) = []
               \/ groupby String.eqb String.leb by_model (rows f) <> [])
    by (destruct (groupby String.eqb String.leb by_model (rows f));
        [now left|right; discriminate]).
  destruct Hg as [Hg|Hg].
  { pose proof (analyze_age_efficiency_no_model mean std round corr p df Hdf Hg) as E.
    subst p'. rewrite E. cbn [fst]. split; [reflexivity|]. now rewrite E. }
  pose proof (analyze_age_efficiency_assigns mean std round corr p df Hdf Hg Hq) as E.
  fold p' in E.
  assert (Hdf' : nth_error (heap p') df
                 = Some {| rows := rows f;
                           added := set_column "battery_capacity_group"
                                               (LabelCol col) (added f) |}).
  { rewrite E. cbn [heap]. eapply nth_error_update_nth; eassumption. }
  split.
  - apply (ev_tests_read_rows p' p df Hdf' Hdf). reflexivity.
  - rewrite (analyze_age_efficiency_assigns mean std round corr p' df Hdf' Hg Hq).
    cbn [rows added]. rewrite set_column_twice.
    rewrite E. cbn [console heap]. now rewrite update_nth_twice.
Qed.

End EvSequence.

Lemma ev_analyses_in_sequence_witness :
  let nan := fun _ : list float => NaN in
  let id := fun (_ : nat) (x : float) => x in
  let corr := fun _ _ : list float => NaN in
  let ols := fun (_ : list (float * float)) (_ : list float) => inr tt : exn + unit in
  let test := fun _ : list (list float) => inr (Fin 1, Fin 1) : exn + (float * float) in
  let cleaned := loaded (EvAnalysis.load_and_prepare_data iso_datetime)
                        (world_of capacity_rows) in
  let p := proc_of cleaned in
  let p' := fst (analyze_age_efficiency_relationship nan nan id corr 0%nat p) in
  nth_error (heap p) 0%nat = Some {| rows := cleaned; added := [] |} /\
  fst (analyze_age_efficiency_relationship nan nan id corr 0%nat p') = p'.
Proof.
  intros nan id corr ols test cleaned p p'.
  assert (Hp : nth_error (heap p) 0%nat = Some {| rows := cleaned; added := [] |})
    by reflexivity.
  split; [exact Hp|].
  refine (proj2 (ev_analyses_in_sequence nan nan id corr ols test p 0%nat
                   (col := [Some "Q1"; Some "Q2"; Some "Q3"; Some "Q4"]) Hp _)).
  vm_compute; reflexivity.
Defined.

(** ** Reports on sample files *)

Lemma temperature_reported_counts_are_exact_witness :
  let m := load_and_clean_temperature_data iso_datetime in
  let w := world_of outlier_rows in
  m w = (fst (m w), inr (loaded m w)) /\
  List.length (loaded m w) = 4%nat /\
  exists removed_temp removed_efficiency,
    removed_temp = 1%nat /\
    (removed_temp + removed_efficiency + List.length (loaded m w))%nat = 5%nat.
Proof.
  intros m w.
  assert (H : m w = (fst (m w), inr (loaded m w))) by (vm_compute; reflexivity).
  split; [exact H|].
  destruct (temperature_reported_counts_are_exact iso_datetime w H)
    as (raw & n1 & n2 & lo & hi & Hraw & _ & Hn1 & Hsum).
  change (Some outlier_rows = Some raw) in Hraw. injection Hraw as <-.
  split; [vm_compute; reflexivity|].
  exists n1, n2. split; [rewrite Hn1; vm_compute; reflexivity|exact Hsum].
Defined.

Lemma charging_reported_counts_are_zero_witness :
  let m := ChargingPatterns.load_and_prepare_data iso_datetime in
  let w := world_of soc_rows in
  m w = (fst (m w), inr (loaded m w)) /\
  List.length (stdout (fst (m w))) = 3%nat.
Proof.
  intros m w.
  assert (H : m w = (fst (m w), inr (loaded m w))) by (vm_compute; reflexivity).
  split; [exact H|].
  rewrite (charging_reported_counts_are_zero iso_datetime w H). reflexivity.
Defined.

Lemma ev_reported_counts_are_zero_witness :
  let m := EvAnalysis.load_and_prepare_data iso_datetime in
  let w := world_of outlier_rows in
  m w = (fst (m w), inr (loaded m w)) /\
  List.length (loaded m w) = 4%nat /\
  List.length (stdout (fst (m w))) = 5%nat.
Proof.
  intros m w.
  assert (H : m w = (fst (m w), inr (loaded m w))) by (vm_compute; reflexivity).
  split; [exact H|]. split; [vm_compute; reflexivity|].
  rewrite (ev_reported_counts_are_zero iso_datetime w H). reflexivity.
Defined.

(** ** Average efficiency by temperature range *)

Section SortedGroups.
Variable K : Type.
Variable leb : K -> K -> bool.
Hypothesis leb_total : forall a b, leb a b = true \/ leb b a = true.
Hypothesis leb_trans : forall a b c, leb a b = true -> leb b c = true -> leb a c = true.

Lemma insert_sorted_sorted (x : K) (l : list K) :
  StronglySorted (fun a b => leb a b = true) l ->
  StronglySorted (fun a b => leb a b = true) (insert_sorted leb x l).
Proof.
  induction 1 as [|y l Hl IH Hy]; cbn [insert_sorted].
  - constructor; constructor.
  - destruct (leb x y) eqn:E.
    + constructor; [constructor; assumption|].
      constructor; [exact E|].
      rewrite Forall_forall in *. intros z Hz. eapply leb_trans; eauto.
    + constructor; [exact IH|].
      assert (F : Forall (fun b => leb y b = true) (x :: l)).
      { constructor; [|exact Hy].
        destruct (leb_total x y) as [H|H]; [congruence|exact H]. }
      rewrite Forall_forall in *. intros z Hz. apply F.
      apply (Permutation_in z (insert_sorted_perm leb x l) Hz).
Qed.

Lemma sort_sorted (l : list K) :
  StronglySorted (fun a b => leb a b = true) (sort leb l).
Proof.
  induction l as [|x l IH]; cbn [sort]; [constructor|].
  now apply insert_sorted_sorted.
Qed.

End SortedGroups.

Lemma category_leb_total (cats : list string) (a b : string) :
  category_leb cats a b = true \/ category_leb cats b a = true.
Proof.
  unfold category_leb.
  destruct (Nat.leb_spec (category_index cats a) (category_index cats b)); [now left|].
  right. apply Nat.leb_le. lia.
Qed.

Lemma category_leb_trans (cats : list string) (a b c : string) :
  category_leb cats a b = true -> category_leb cats b c = true ->
  category_leb cats a c = true.
Proof.
  unfold category_leb. rewrite !Nat.leb_le. lia.
Qed.

Lemma groupby_keys (R K : Type) (eqb leb : K -> K -> bool) (key : R -> option K)
      (df : list R) (k : K) :
  (forall a b, eqb a b = true <-> a = b) ->
  In k (map fst (groupby eqb leb key df)) <-> exists r, In r df /\ key r = Some k.
Proof.
  intros Heq. unfold groupby. rewrite map_map. cbn [fst]. rewrite map_id.
  split.
  - intros Hk.
    apply (Permutation_in (l' := unique eqb (present_keys key df))) in Hk;
      [|apply sort_perm].
    apply (proj1 (@unique_in _ eqb leb Heq k _)) in Hk.
    unfold present_keys in Hk. apply in_flat_map in Hk as (r & Hr & Hk).
    exists r. split; [exact Hr|].
    destruct (key r) as [k'|]; [|contradiction]. destruct Hk as [->|[]]. reflexivity.
  - intros (r & Hr & Hk).
    apply (Permutation_in (l := unique eqb (present_keys key df)));
      [symmetry; apply sort_perm|].
    apply (proj2 (@unique_in _ eqb leb Heq k _)).
    unfold present_keys. apply in_flat_map. exists r. split; [exact Hr|].
    rewrite Hk. now left.
Qed.

Section TemperatureTable.
Variables mean std min max median : list float -> float.
Variable round : nat -> float -> float.
Variable corr : list float -> list float -> float.
Variable f_oneway : list (list float) -> exn + (float * float).

Lemma temp_efficiency_of_result (p : Proc TemperatureAnalysis.Row) (df : ref)
      (f : Frame TemperatureAnalysis.Row) (r : Impact) :
  nth_error (heap p) df = Some f ->
  snd (analyze_temperature_impact mean std min max median round corr f_oneway df p)
  = inr r ->
  temp_efficiency r
  = map (fun kg : string * list TemperatureAnalysis.Row =>
           (fst kg, mean (map (fun r : TemperatureAnalysis.Row => energy_efficiency r)
                              (snd kg))))
        (groupby String.eqb (category_leb temp_labels) temp_range (rows f)).
Proof.
  intros Hdf. unfold analyze_temperature_impact.
  rewrite (bind_ok _ _ _ (get_run _ _ Hdf)); cbv beta zeta.
  destruct (2 <=? _)%nat.
  - rewrite bind_lift. destruct (f_oneway _); [discriminate|].
    intros H. injection H as <-. reflexivity.
  - intros H. injection H as <-. reflexivity.
Qed.

(** X20. The line plot of [create_temperature_visualizations] and the
    [temp_efficiency] table of [analyze_temperature_impact] are the same
    list of averages: one entry per temperature range that occurs in the
    frame, each range once, in bucket order (the order of the labels), drawn
    with lines and markers.  A range with no record has no entry, and the
    chart function leaves the state as it found it. *)
Theorem average_efficiency_by_range :
  forall (p : Proc TemperatureAnalysis.Row) (df : ref)
         (f : Frame TemperatureAnalysis.Row),
    nth_error (heap p) df = Some f ->
    exists vis points,
      TemperatureCharts.create_temperature_visualizations mean df p = (p, inr vis) /\
      TemperatureCharts.line vis
      = TemperatureCharts.LineChart points "temp_range" "energy_efficiency"
          "Average Energy Efficiency by Temperature Range"
          [("temp_range", "Temperature Range");
           ("energy_efficiency", "Average Energy Efficiency (kWh/km)")]
          (Some "lines+markers") /\
      NoDup (map fst points) /\
      StronglySorted (fun a b => category_leb temp_labels a b = true)
                     (map fst points) /\
      (forall k, In k (map fst points)
                 <-> exists r : TemperatureAnalysis.Row,
                       In r (rows f) /\ temp_range r = Some k) /\
      (forall r, snd (analyze_temperature_impact mean std min max median round corr
                                                 f_oneway df p) = inr r ->
                 temp_efficiency r = points).
Proof.
  intros p df f Hdf.
  unfold TemperatureCharts.create_temperature_visualizations.
  rewrite (bind_ok _ _ _ (get_run _ _ Hdf)); cbv beta zeta. unfold ret.
  do 2 eexists. split; [reflexivity|].
  cbn [TemperatureCharts.line TemperatureCharts.update_traces].
  split; [reflexivity|].
  assert (Hkeys : forall g : string * list TemperatureAnalysis.Row -> string * float,
             (forall kg, fst (g kg) = fst kg) ->
             map fst (map g (groupby String.eqb (category_leb temp_labels) temp_range
                                     (rows f)))
             = map fst (groupby String.eqb (category_leb temp_labels) temp_range
                                (rows f))).
  { intros g Hg. rewrite map_map. apply map_ext. exact Hg. }
  rewrite Hkeys by reflexivity.
  split; [|split; [|split]].
  - apply (@groupby_keys_nodup _ _ String.eqb (category_leb temp_labels) temp_range
                               (rows f) String.eqb_eq).
  - unfold groupby. rewrite map_map. cbn [fst]. rewrite map_id.
    apply sort_sorted.
    + apply category_leb_total.
    + apply category_leb_trans.
  - intros k.
    apply (@groupby_keys _ _ String.eqb (category_leb temp_labels) temp_range
                         (rows f) k String.eqb_eq).
  - intros r Hr. exact (temp_efficiency_of_result p df Hdf Hr).
Qed.

End TemperatureTable.

Lemma average_efficiency_by_range_witness :
  let mean := fun l : list float => hd NaN l in
  let nan := fun _ : list float => NaN in
  let id := fun (_ : nat) (x : float) => x in
  let corr := fun _ _ : list float => NaN in
  let test := fun _ : list (list float) => inr (Fin 1, Fin 1) : exn + (float * float) in
  let cleaned := loaded (load_and_clean_temperature_data iso_datetime)
                        (world_of capacity_rows) in
  let p := proc_of cleaned in
  nth_error (heap p) 0%nat = Some {| rows := cleaned; added := [] |} /\
  exists vis points,
    TemperatureCharts.create_temperature_visualizations mean 0%nat p = (p, inr vis) /\
    NoDup (map fst points) /\
    (forall r, snd (analyze_temperature_impact mean nan nan nan nan id corr test
                                               0%nat p) = inr r ->
               temp_efficiency r = points).
Proof.
  intros mean nan id corr test cleaned p.
  assert (Hp : nth_error (heap p) 0%nat = Some {| rows := cleaned; added := [] |})
    by reflexivity.
  split; [exact Hp|].
  destruct (average_efficiency_by_range mean nan nan nan nan id corr test p 0%nat Hp)
    as (vis & points & Hrun & _ & Hnd & _ & _ & Hte).
  exists vis, points. auto.
Defined.

(** ** Charts of the ev module on disk *)

Section DiskFiles.
Variable Image : Type.





End DiskFiles.

Section EvChartsOnDisk.
Variables Image Pivot : Type.
Variable scatter_with_regression : Frame EvAnalysis.Row -> exn + Image.
Variable boxplot_by_model : Frame EvAnalysis.Row -> exn + Image.
Variable heatmap : Pivot -> exn + Image.
Variable pivot_table :
  list EvAnalysis.Row -> list (option nat) -> list (option nat) -> Pivot.





End EvChartsOnDisk.


(* ------------------------------------------------------------------ *)
(** ** The data behind the dashboard *)

Lemma bind_files (A B : Type) (m : M World A) (k : A -> M World B) :
  (forall w, files (fst (m w)) = files w) ->
  (forall a w, files (fst (k a w)) = files w) ->
  forall w, files (fst (bind m k w)) = files w.
Proof.
  intros Hm Hk w. unfold bind. specialize (Hm w).
  destruct (m w) as [w' [e|a]]; cbn [fst] in *; [exact Hm|].
  now rewrite Hk.
Qed.

Lemma bind_raise_snd (S A B : Type) (m : M S A) (k : A -> M S B) (w : S) (e : exn) :
  snd (m w) = inl e -> snd (bind m k w) = inl e.
Proof. intros H. unfold bind. destruct (m w) as [w' r]. cbn [snd] in H. now subst r. Qed.

Lemma bind_cases (S A B : Type) (m : M S A) (k : A -> M S B) (w : S) :
  (exists e, snd (bind m k w) = inl e /\ snd (m w) = inl e) \/
  (exists a w', m w = (w', inr a) /\ bind m k w = k a w').
Proof.
  unfold bind. destruct (m w) as [w' [e|a]]; [left|right].
  - exists e. split; reflexivity.
  - exists a, w'. split; reflexivity.
Qed.

Lemma with_frame_files (R A : Type) (df : list R) (body : ref -> M (Proc R) A) w :
  files (fst (with_frame df body w)) = files w.
Proof. reflexivity. Qed.

Lemma with_frame_result (R A : Type) (df : list R) (body : ref -> M (Proc R) A) w :
  snd (with_frame df body w)
  = snd (body 0%nat {| console := stdout w;
                       heap := [ {| rows := df; added := [] |} ] |}).
Proof. reflexivity. Qed.

Section DashboardStartup.
Variables mean median std min max : list float -> float.
Variable round : nat -> float -> float.
Variable corr : list float -> list float -> float.
Variable parse : string -> option Timestamp.
Variables Summary AnovaTable Pivot : Type.
Variable ols_summary : list (float * float) -> list float -> exn + Summary.
Variable f_oneway : list (list float) -> exn + (float * float).
Variable anova_lm_ols : string -> Frame ChargingPatterns.Row -> exn + AnovaTable.
Variable chi2_contingency : list (list nat) -> exn + (float * float).
Variable ttest_ind : list float -> list float -> exn + (float * float).
Variable pivot_table : list ChargingPatterns.Row -> string -> string -> string -> Pivot.

Lemma charging_entry_files w :
  files (fst (analyze_charging_patterns mean median std min max round pivot_table
                                        parse anova_lm_ols chi2_contingency
                                        ttest_ind w))
  = files w.
Proof.
  unfold analyze_charging_patterns. apply bind_files.
  - intros w0. now apply (charging_load_reads_files_only parse w0 w0).
  - intros a w0. apply with_frame_files.
Qed.

Lemma charging_entry_raises w (cleaned : list ChargingPatterns.Row) :
  snd (ChargingPatterns.load_and_prepare_data parse w) = inr cleaned ->
  (List.length (unique (option_eqb String.eqb)
                       (map (fun r : ChargingPatterns.Row => User_Type r) cleaned))
   < 2)%nat ->
  exists e,
    snd (analyze_charging_patterns mean median std min max round pivot_table
                                   parse anova_lm_ols chi2_contingency
                                   ttest_ind w) = inl e.
Proof.
  intros L Hlt. unfold analyze_charging_patterns.
  destruct (ChargingPatterns.load_and_prepare_data parse w) as [w1 r] eqn:E.
  cbn [snd] in L. subst r.
  rewrite (bind_ok _ _ _ E). rewrite with_frame_result.
  set (p0 := {| console := stdout w1;
                heap := [ {| rows := cleaned; added := [] |} ] |}).
  assert (H0 : nth_error (heap p0) 0 = Some {| rows := cleaned; added := [] |})
    by reflexivity.
  destruct (charging_analyses_run mean median std min max round pivot_table
              anova_lm_ols chi2_contingency ttest_ind p0 0%nat H0)
    as (p1 & r & Hrun & _ & Hraise & _).
  rewrite Hrun. cbn [snd]. apply Hraise. exact Hlt.
Qed.

Lemma ev_stats_run (p : Proc EvAnalysis.Row) (df : ref) (f : Frame EvAnalysis.Row) :
  nth_error (heap p) df = Some f ->
  exists s,
    EvReport.calculate_descriptive_stats mean std min max median round df p
    = (p, inr s).
Proof.
  intros Hdf. unfold EvReport.calculate_descriptive_stats.
  rewrite (bind_ok _ _ _ (get_run _ _ Hdf)). cbv beta zeta. unfold ret.
  eexists. reflexivity.
Qed.

Lemma ev_block_raises (w : World) (cleaned : list EvAnalysis.Row) :
  qcut4 (map battery cleaned) capacity_labels = None ->
  exists msg,
    snd (with_frame cleaned (fun df_efficiency =>
         desc_stats <- EvReport.calculate_descriptive_stats
                         mean std min max median round df_efficiency ;;
         relationship <- analyze_age_efficiency_relationship
                           mean std round corr df_efficiency ;;
         tests <- EvAnalysis.perform_statistical_tests
                    ols_summary f_oneway df_efficiency ;;
         ret (desc_stats, relationship, tests)) w)
    = inl (ValueError msg).
Proof.
  intros Hq. rewrite with_frame_result.
  set (p0 := {| console := stdout w;
                heap := [ {| rows := cleaned; added := [] |} ] |}).
  assert (H0 : nth_error (heap p0) 0 = Some {| rows := cleaned; added := [] |})
    by reflexivity.
  destruct (ev_stats_run p0 0%nat H0) as [s Hs].
  rewrite (bind_ok _ _ _ Hs).
  assert (Hrel : exists msg,
             analyze_age_efficiency_relationship mean std round corr 0%nat p0
             = (p0, inl (ValueError msg))).
  { unfold analyze_age_efficiency_relationship.
    rewrite (bind_ok _ _ _ (get_run _ _ H0)). cbv beta zeta. cbn [rows].
    rewrite bind_lift.
    destruct (groupby String.eqb String.leb by_model cleaned);
      [eexists; reflexivity|].
    rewrite Hq. eexists. reflexivity. }
  destruct Hrel as [msg Hrel]. exists msg.
  rewrite (@bind_raise _ _ _ _ _ _ _ _ Hrel). reflexivity.
Qed.

Lemma temperature_block_raises (w : World) :
  exists w' t,
    with_frame (@nil TemperatureAnalysis.Row) (fun df_temperature =>
      temp_analysis <- analyze_temperature_impact
                         mean std min max median round corr f_oneway df_temperature ;;
      temp_visualizations <- TemperatureCharts.create_temperature_visualizations
                               mean df_temperature ;;
      ret (temp_analysis, temp_visualizations)) w = (w', inr t) /\
    generate_insights (fst t)
    = inl (ValueError "attempt to get argmin of an empty sequence").
Proof.
  do 2 eexists. split; reflexivity.
Qed.

Ltac enter_bind :=
  match goal with
  | |- context [@bind ?S ?A ?B ?m ?k ?w] =>
      let e := fresh "e" in
      let a := fresh "a" in
      let w' := fresh "w" in
      let H := fresh "H" in
      let Hm := fresh "Hm" in
      destruct (@bind_cases S A B m k w) as [(e & H & _) | (a & w' & Hm & ->)];
      [now exists e|]
  end.

(** X22. The statements [dashboard.py] runs before it builds the layout,
    on any file system.  They never change a file.  They raise, so that the
    module does not load and no dashboard is served, when the first loader
    raises (with its exception); when the battery capacities of the cleaned
    efficiency data have coinciding quartile edges (a [ValueError], from
    [pd.qcut] or, when no cleaned record has a vehicle model, from the
    table of correlations by model); when the cleaned charging data holds
    fewer than two user types; and when the cleaned temperature data is
    empty. *)
Theorem dashboard_start_up :
  forall w,
    let start := Dashboard.prepare_data mean median std min max round corr parse
                   ols_summary f_oneway anova_lm_ols chi2_contingency ttest_ind
                   pivot_table w in
    files (fst start) = files w /\
    (forall e, snd (EvAnalysis.load_and_prepare_data parse w) = inl e ->
               snd start = inl e) /\
    (forall cleaned,
       snd (EvAnalysis.load_and_prepare_data parse w) = inr cleaned ->
       qcut4 (map battery cleaned) capacity_labels = None ->
       exists msg, snd start = inl (ValueError msg)) /\
    (forall cleaned,
       snd (ChargingPatterns.load_and_prepare_data parse w) = inr cleaned ->
       (List.length (unique (option_eqb String.eqb)
                            (map (fun r : ChargingPatterns.Row => User_Type r)
                                 cleaned)) < 2)%nat ->
       exists e, snd start = inl e) /\
    (snd (load_and_clean_temperature_data parse w) = inr [] ->
     exists e, snd start = inl e).
Proof.
  intros w start. subst start. unfold Dashboard.prepare_data.
  split; [|split; [|split; [|split]]].
  - revert w. apply bind_files.
    { intros w. now apply (ev_load_reads_files_only parse w w). }
    intros df_efficiency. apply bind_files; [intros w; apply with_frame_files|].
    intros efficiency. apply bind_files; [apply charging_entry_files|].
    intros charging_results. apply bind_files.
    { intros w. now apply (temperature_load_reads_files_only parse w w). }
    intros df_temperature. apply bind_files; [intros w; apply with_frame_files|].
    intros temperature. apply bind_files; reflexivity.
  - intros e H. now apply bind_raise_snd.
  - intros cleaned H Hq.
    destruct (EvAnalysis.load_and_prepare_data parse w) as [w1 r] eqn:E.
    cbn [snd] in H. subst r. rewrite (bind_ok _ _ _ E).
    destruct (ev_block_raises w1 cleaned Hq) as [msg Hmsg].
    exists msg. now apply bind_raise_snd.
  - intros cleaned H Hlt.
    pose proof (proj2 (ev_load_reads_files_only parse w w eq_refl)) as F1.
    enter_bind. rewrite Hm in F1. cbn [fst] in F1.
    enter_bind.
    assert (F2 : files w1 = files w0).
    { change w1 with (fst (w1, @inr exn _ a0)). rewrite <- Hm0. reflexivity. }
    destruct (charging_entry_raises w1 (cleaned := cleaned)) as [e He];
      [|exact Hlt|].
    + rewrite <- H.
      apply (charging_load_reads_files_only parse w1 w). congruence.
    + exists e. now apply bind_raise_snd.
  - intros H.
    pose proof (proj2 (ev_load_reads_files_only parse w w eq_refl)) as F1.
    enter_bind. rewrite Hm in F1. cbn [fst] in F1.
    enter_bind.
    assert (F2 : files w1 = files w0).
    { change w1 with (fst (w1, @inr exn _ a0)). rewrite <- Hm0. reflexivity. }
    enter_bind.
    pose proof (charging_entry_files w1) as F3. rewrite Hm1 in F3. cbn [fst] in F3.
    destruct (load_and_clean_temperature_data parse w2) as [w3 r] eqn:E.
    assert (R : r = inr []).
    { rewrite <- H.
      change r with (snd (w3, r)). rewrite <- E.
      apply (temperature_load_reads_files_only parse w2 w). congruence. }
    subst r. rewrite (bind_ok _ _ _ E).
    destruct (temperature_block_raises w3) as (w4 & t & Ht & Hins).
    rewrite (bind_ok _ _ _ Ht). rewrite bind_lift, Hins.
    eexists. reflexivity.
Qed.

End DashboardStartup.

Lemma dashboard_start_up_witness :
  let nan := fun _ : list float => NaN in
  let id := fun (_ : nat) (x : float) => x in
  let corr := fun _ _ : list float => NaN in
  let ols := fun (_ : list (float * float)) (_ : list float) => inr tt : exn + unit in
  let test := fun _ : list (list float) => inr (NaN, NaN) : exn + (float * float) in
  let pivot := fun (_ : list ChargingPatterns.Row) (_ _ _ : string) => tt in
  let anova := fun (_ : string) (_ : Frame ChargingPatterns.Row) => inr tt : exn + unit in
  let chi := fun _ : list (list nat) => inr (NaN, NaN) : exn + (float * float) in
  let ttest := fun _ _ : list float => inr (NaN, NaN) : exn + (float * float) in
  let start := Dashboard.prepare_data nan nan nan nan nan id corr iso_datetime
                 ols test anova chi ttest pivot in
  (exists msg, snd (start (world_of one_user_rows)) = inl (ValueError msg)) /\
  (exists e, snd (start (world_of capacity_rows)) = inl e) /\
  (exists e, snd (start (world_of [])) = inl e).
Proof.
  intros nan id corr ols test pivot anova chi ttest start. subst start.
  split; [|split].
  - pose proof (dashboard_start_up nan nan nan nan nan id corr iso_datetime
                  ols test anova chi ttest pivot (world_of one_user_rows)) as P.
    cbv zeta in P. destruct P as (_ & _ & Q & _).
    apply (Q (loaded (EvAnalysis.load_and_prepare_data iso_datetime)
                     (world_of one_user_rows)));
      vm_compute; reflexivity.
  - pose proof (dashboard_start_up nan nan nan nan nan id corr iso_datetime
                  ols test anova chi ttest pivot (world_of capacity_rows)) as P.
    cbv zeta in P. destruct P as (_ & _ & _ & Q & _).
    apply (Q (loaded (ChargingPatterns.load_and_prepare_data iso_datetime)
                     (world_of capacity_rows)));
      [vm_compute; reflexivity|]. vm_compute. lia.
  - pose proof (dashboard_start_up nan nan nan nan nan id corr iso_datetime
                  ols test anova chi ttest pivot (world_of [])) as P.
    cbv zeta in P. destruct P as (_ & _ & _ & _ & Q).
    apply Q. vm_compute. reflexivity.
Defined.
